(** * DownLoad: the two Flask front ends for yt-dlp

    A shallow embedding of [app.py] (module [App]) and [backend/app.py]
    (module [Backend]): the three POST handlers, the background sweeper
    [cleanup_old_files] and the per-download [cleanup_later] thread.

    Conventions of the embedding
    - The OS temp directory is an association list in listing order
      ([os.listdir] and [Path.glob] return entries in that order).
    - Handlers are programs in a state-and-exception monad over [world];
      [try]/[except]/[finally] are combinators of that monad.
    - yt-dlp is a parameter ([collaborator]); every call to
      [extract_info] is appended to the [calls] log of the world.
    - Time stamps ([time.time()], [st_mtime]) are integers (seconds).
    - Strings are sequences of 8-bit characters.
    - [print] calls are left out: they do not touch control flow. *)

From Stdlib Require Import ZArith String Ascii List Bool Lia Permutation Sorted.
From stdpp Require Import gmap strings list pretty.

Open Scope string_scope.
Open Scope list_scope.

(** ** Python values and built-ins *)

(** What [d.get(k)] and [d.get(k, default)] can observe of a key. *)
Inductive field (A : Type) : Type :=
  | Missing
  | Null
  | Val (a : A).
Arguments Missing {A}.
Arguments Null {A}.
Arguments Val {A} a.

(** [d.get(k)] *)
Definition get {A} (f : field A) : option A :=
  match f with
  | Val a => Some a
  | Missing | Null => None
  end.

(** [d.get(k, default)] *)
Definition get_or {A} (f : field A) (default : A) : option A :=
  match f with
  | Missing => Some default
  | Null => None
  | Val a => Some a
  end.

Inductive exn_class :=
  | DownloadError
  | AttributeError
  | TypeError
  | FileNotFoundError
  | FileExistsError
  | IsADirectoryError
  | NotADirectoryError
  | IndexError
  | ValueError.

(** An exception and [str(e)]. *)
Record exn := Raise { cls : exn_class; str : string }.

Definition is_DownloadError (e : exn) : bool :=
  match cls e with
  | DownloadError => true
  | _ => false
  end.

(** [needle in hay] on strings *)
Fixpoint startswith (s p : string) : bool :=
  match p, s with
  | "", _ => true
  | String a p', String b s' => Ascii.eqb a b && startswith s' p'
  | String _ _, "" => false
  end.

Fixpoint contains (needle hay : string) : bool :=
  startswith hay needle ||
  match hay with
  | "" => false
  | String _ hay' => contains needle hay'
  end.

Fixpoint endswith (s suffix : string) : bool :=
  String.eqb s suffix ||
  match s with
  | "" => false
  | String _ s' => endswith s' suffix
  end.

(** [str.isspace] on the characters up to U+00FF, which is what a
    string holds here: TAB..CR, FS..US, the blank, NEL (U+0085) and the
    no-break space (U+00A0). *)
Definition isspace (c : ascii) : bool :=
  let n := nat_of_ascii c in
  ((9 <=? n)%nat && (n <=? 13)%nat) || ((28 <=? n)%nat && (n <=? 32)%nat) ||
  (n =? 133)%nat || (n =? 160)%nat.

Fixpoint lstrip (s : string) : string :=
  match s with
  | "" => ""
  | String c s' => if isspace c then lstrip s' else s
  end.

Fixpoint rstrip (s : string) : string :=
  match s with
  | "" => ""
  | String c s' =>
      match rstrip s' with
      | "" => if isspace c then "" else String c ""
      | r => String c r
      end
  end.

Definition strip (s : string) : string := rstrip (lstrip s).

(** [s[:n]] *)
Fixpoint slice_to (n : nat) (s : string) : string :=
  match n, s with
  | S n', String c s' => String c (slice_to n' s')
  | _, _ => ""
  end.

(** [list.sort(key=..., reverse=...)]: a stable sort that only uses [<]
    on the keys.  Insertion from the right keeps equal keys in their
    original order, as timsort does; with [reverse] the comparison is
    flipped and equal keys still keep their order. *)
Section PySort.
Context {A K : Type} (lt : K → K → bool) (key : A → K).

Fixpoint insert_by (reverse : bool) (x : A) (l : list A) : list A :=
  match l with
  | [] => [x]
  | y :: ys =>
      if (if reverse then lt (key x) (key y) else lt (key y) (key x))
      then y :: insert_by reverse x ys
      else x :: y :: ys
  end.

Definition py_sort (reverse : bool) (l : list A) : list A :=
  foldr (insert_by reverse) [] l.

(** [a] may stand before [b] in the sorted list: [b]'s key is not
    below [a]'s (not above it, with [reverse]). *)
Definition in_order (reverse : bool) (a b : A) : bool :=
  negb (if reverse then lt (key a) (key b) else lt (key b) (key a)).
End PySort.

(** [<] on ints, on bools ([False < True]) and on pairs. *)
Definition bool_lt (a b : bool) : bool := negb a && b.

Definition pair_lt {A B} (ltA : A → A → bool) (eqA : A → A → bool)
    (ltB : B → B → bool) (x y : A * B) : bool :=
  ltA x.1 y.1 || (eqA x.1 y.1 && ltB x.2 y.2).

(** ** The state-and-exception monad *)

Definition SE (S A : Type) : Type := S → (exn + A) * S.

#[export] Instance SE_ret {S} : MRet (SE S) := λ A a s, (inr a, s).

#[export] Instance SE_bind {S} : MBind (SE S) := λ A B k m s,
  match m s with
  | (inl e, s') => (inl e, s')
  | (inr a, s') => k a s'
  end.

Definition raise {S A} (e : exn) : SE S A := λ s, (inl e, s).

(** [try: body except Exception as e: handler e] *)
Definition try_except {S A} (body : SE S A) (handler : exn → SE S A) : SE S A :=
  λ s,
    match body s with
    | (inl e, s') => handler e s'
    | r => r
    end.

(** [try: body finally: fin]; an exception of [fin] replaces the outcome
    of [body]. *)
Definition try_finally {S A} (body : SE S A) (fin : SE S unit) : SE S A :=
  λ s,
    match body s with
    | (r, s') =>
        match fin s' with
        | (inl e, s'') => (inl e, s'')
        | (inr _, s'') => (r, s'')
        end
    end.

(** [for x in xs: body x] *)
Fixpoint for_each {S A} (xs : list A) (body : A → SE S unit) : SE S unit :=
  match xs with
  | [] => mret tt
  | x :: xs' => body x ;; for_each xs' body
  end.

(** ** The temp directory *)

(** What a download directory holds: regular files with their size, and
    anything else ([os.path.isfile] is false for it). *)
Inductive child :=
  | CFile (size : Z)
  | CDir.

Inductive entry :=
  | File (mtime size : Z)
  | Dir (mtime : Z) (children : list (string * child)).

Abbreviation tmpfs := (list (string * entry)).

Definition st_mtime (e : entry) : Z :=
  match e with
  | File m _ => m
  | Dir m _ => m
  end.

Fixpoint lookup_entry (name : string) (fs : tmpfs) : option entry :=
  match fs with
  | [] => None
  | (n, e) :: fs' => if String.eqb n name then Some e else lookup_entry name fs'
  end.

Definition remove_entry (name : string) (fs : tmpfs) : tmpfs :=
  filter (λ p, negb (String.eqb p.1 name)) fs.

Fixpoint lookup_child (f : string) (children : list (string * child)) : option child :=
  match children with
  | [] => None
  | (n, c) :: rest => if String.eqb n f then Some c else lookup_child f rest
  end.

Definition children_of (name : string) (fs : tmpfs) : list (string * child) :=
  match lookup_entry name fs with
  | Some (Dir _ children) => children
  | _ => []
  end.

Definition gettempdir : string := "/tmp".

(** [os.path.join] *)
Definition path_join (a b : string) : string := a +:+ "/" +:+ b.

Definition ENOENT (path : string) : exn :=
  Raise FileNotFoundError ("[Errno 2] No such file or directory: '" +:+ path +:+ "'").
Definition EISDIR (path : string) : exn :=
  Raise IsADirectoryError ("[Errno 21] Is a directory: '" +:+ path +:+ "'").
Definition ENOTDIR (path : string) : exn :=
  Raise NotADirectoryError ("[Errno 20] Not a directory: '" +:+ path +:+ "'").
Definition EEXIST : exn :=
  Raise FileExistsError "[Errno 17] No usable temporary directory name found".

(** Entries of the temp directory are addressed by their name.  The
    queries that never raise are functions of the directory; [reads]
    runs one of them. *)
Definition reads {S A} (f : S → A) : SE S A := λ s, (inr (f s), s).

(** [Path(gettempdir()).glob(prefix + "*")], as names *)
Definition glob (prefix : string) (fs : tmpfs) : list string :=
  filter (λ n, startswith n prefix) (map fst fs).

Definition is_dir (name : string) (fs : tmpfs) : bool :=
  match lookup_entry name fs with
  | Some (Dir _ _) => true
  | _ => false
  end.

Definition is_file (name : string) (fs : tmpfs) : bool :=
  match lookup_entry name fs with
  | Some (File _ _) => true
  | _ => false
  end.

(** [os.path.exists] *)
Definition path_exists (name : string) (fs : tmpfs) : bool :=
  match lookup_entry name fs with
  | Some _ => true
  | None => false
  end.

(** [os.path.isfile(os.path.join(temp_dir, f))] *)
Definition isfile (name f : string) (fs : tmpfs) : bool :=
  match lookup_child f (children_of name fs) with
  | Some (CFile _) => true
  | _ => false
  end.

(** [path.stat().st_mtime] *)
Definition stat_mtime (name : string) : SE tmpfs Z :=
  λ fs,
    match lookup_entry name fs with
    | Some e => (inr (st_mtime e), fs)
    | None => (inl (ENOENT (path_join gettempdir name)), fs)
    end.

(** [shutil.rmtree(path, ignore_errors=...)] *)
Definition rmtree (name : string) (ignore_errors : bool) : SE tmpfs unit :=
  λ fs,
    match lookup_entry name fs with
    | Some (Dir _ _) => (inr tt, remove_entry name fs)
    | Some (File _ _) =>
        if ignore_errors then (inr tt, fs)
        else (inl (ENOTDIR (path_join gettempdir name)), fs)
    | None =>
        if ignore_errors then (inr tt, fs)
        else (inl (ENOENT (path_join gettempdir name)), fs)
    end.

(** [path.unlink(missing_ok=...)] *)
Definition unlink (name : string) (missing_ok : bool) : SE tmpfs unit :=
  λ fs,
    match lookup_entry name fs with
    | Some (File _ _) => (inr tt, remove_entry name fs)
    | Some (Dir _ _) => (inl (EISDIR (path_join gettempdir name)), fs)
    | None =>
        if missing_ok then (inr tt, fs)
        else (inl (ENOENT (path_join gettempdir name)), fs)
    end.

(** [os.listdir(temp_dir)] *)
Definition listdir (name : string) : SE tmpfs (list string) :=
  λ fs,
    match lookup_entry name fs with
    | Some (Dir _ children) => (inr (map fst children), fs)
    | Some (File _ _) => (inl (ENOTDIR (path_join gettempdir name)), fs)
    | None => (inl (ENOENT (path_join gettempdir name)), fs)
    end.

(** [os.path.getsize(os.path.join(temp_dir, f))]; a directory has the
    size of its inode, which is taken to be [0] here. *)
Definition getsize (name f : string) : SE tmpfs Z :=
  λ fs,
    match lookup_child f (children_of name fs) with
    | Some (CFile n) => (inr n, fs)
    | Some CDir => (inr 0%Z, fs)
    | None => (inl (ENOENT (path_join (path_join gettempdir name) f)), fs)
    end.

(** The size of the regular file [f] among [children], for stating what
    [getsize] returns. *)
Definition size_of (children : list (string * child)) (f : string) : Z :=
  match lookup_child f children with
  | Some (CFile n) => n
  | _ => 0%Z
  end.

(** The collaborator writes [files] below [name]; the directory's
    modification time moves to [now]. *)
Definition write_children (now : Z) (name : string) (files : list (string * child))
    (fs : tmpfs) : tmpfs :=
  map (λ p, if String.eqb p.1 name
            then match p.2 with
                 | Dir _ children => (p.1, Dir now (children ++ files))
                 | File _ _ => p
                 end
            else p) fs.

(** [[body x for x in xs]] *)
Fixpoint map_m {S A B} (body : A → SE S B) (xs : list A) : SE S (list B) :=
  match xs with
  | [] => mret []
  | x :: xs' => y ← body x; ys ← map_m body xs'; mret (y :: ys)
  end.

(** ** yt-dlp, the extraction collaborator *)

Record postprocessor := {
  key : string;
  preferredcodec : string;
  preferredquality : string
}.

(** [ydl_opts]; [outtmpl] is [os.path.join(temp_dir, template)], kept as
    the pair of its two components. *)
Record ydl_opts := {
  format : option string;
  outtmpl : option (string * string);
  postprocessors : list postprocessor;
  quiet : bool;
  no_warnings : bool;
  extract_flat : option bool;
  force_json : option bool;
  listformats : option bool
}.

(** One element of [info['formats']]. *)
Record fmt := {
  format_id : option string;
  ext : option string;
  resolution : field string;
  height : option Z;
  filesize : option Z;
  vcodec : option string;
  acodec : option string;
  fps : option Z
}.

(** The [info] dictionary, for the keys the handlers read. *)
Record info := {
  title : field string;
  duration : field Z;
  uploader : field string;
  view_count : field Z;
  description : field string;
  thumbnail : field string;
  upload_date : field string;
  formats : field (list fmt);
  video_id : field string;      (* 'id' *)
  webpage_url : field string
}.

(** What one call of [extract_info] does: the files it leaves in the
    output directory (with [download=True]) and what it returns or
    raises. *)
Record outcome := {
  written : list (string * child);
  result : exn + info
}.

Definition collaborator : Type := ydl_opts → string → bool → outcome.

(** ** The process *)

(** The statements a background thread is made of. *)
Inductive stmt :=
  | Sleep (secs : Z)                              (* time.sleep(secs) *)
  | Rmtree (path : string) (ignore_errors : bool) (* shutil.rmtree(path, ...) *)
  | TryPass (body : stmt).                        (* try: body / except: carry on *)

Abbreviation thread := (list stmt).

Record world := {
  now : Z;                               (* time.time() *)
  tmp : tmpfs;                           (* the OS temp directory *)
  names : list string;                   (* tempfile's random name sequence *)
  threads : list thread;                 (* daemon threads started so far *)
  calls : list (ydl_opts * string * bool) (* extract_info(url, download) per options *)
}.

Definition set_now (t : Z) (w : world) : world :=
  {| now := t; tmp := tmp w; names := names w; threads := threads w; calls := calls w |}.
Definition set_tmp (fs : tmpfs) (w : world) : world :=
  {| now := now w; tmp := fs; names := names w; threads := threads w; calls := calls w |}.
Definition set_names (ns : list string) (w : world) : world :=
  {| now := now w; tmp := tmp w; names := ns; threads := threads w; calls := calls w |}.
Definition set_threads (ts : list thread) (w : world) : world :=
  {| now := now w; tmp := tmp w; names := names w; threads := ts; calls := calls w |}.
Definition set_calls (cs : list (ydl_opts * string * bool)) (w : world) : world :=
  {| now := now w; tmp := tmp w; names := names w; threads := threads w; calls := cs |}.

(** Run a filesystem action in the process. *)
Definition on_fs {A} (m : SE tmpfs A) : SE world A :=
  λ w, match m (tmp w) with (r, fs) => (r, set_tmp fs w) end.

(** [time.time()] and [time.sleep(secs)]; a negative length is refused
    with a [ValueError]. *)
Definition time : SE world Z := reads now.
Definition sleep (secs : Z) : SE world unit :=
  λ w,
    if (secs <? 0)%Z then (inl (Raise ValueError "sleep length must be non-negative"), w)
    else (inr tt, set_now (now w + secs)%Z w).

(** [threading.Thread(target=..., daemon=True).start()] *)
Definition start_thread (t : thread) : SE world unit :=
  λ w, (inr tt, set_threads (threads w ++ [t]) w).

Fixpoint run_stmt (s : stmt) : SE world unit :=
  match s with
  | Sleep secs => sleep secs
  | Rmtree path ignore_errors => on_fs (rmtree path ignore_errors)
  | TryPass body => try_except (run_stmt body) (λ _, mret tt)
  end.

Definition run_thread (t : thread) : SE world unit := for_each t run_stmt.

(** [tempfile.mkdtemp(prefix=...)]: the first name of the random
    sequence that is not taken; [FileExistsError] when none is left. *)
Fixpoint first_free (prefix : string) (candidates : list string) (fs : tmpfs)
    : option (string * list string) :=
  match candidates with
  | [] => None
  | c :: rest =>
      if path_exists (prefix +:+ c) fs then first_free prefix rest fs
      else Some (prefix +:+ c, rest)
  end.

Definition mkdtemp (prefix : string) : SE world string :=
  λ w,
    match first_free prefix (names w) (tmp w) with
    | Some (name, rest) =>
        (inr name, set_names rest (set_tmp (tmp w ++ [(name, Dir (now w) [])]) w))
    | None => (inl EEXIST, set_names [] w)
    end.

(** [ydl.extract_info(url, download=...)] *)
Definition extract_info (ydl : collaborator) (opts : ydl_opts) (url : string)
    (download : bool) : SE world info :=
  λ w,
    let o := ydl opts url download in
    let w1 := set_calls (calls w ++ [(opts, url, download)]) w in
    let w2 :=
      match download, outtmpl opts with
      | true, Some (dir, _) => set_tmp (write_children (now w) dir (written o) (tmp w1)) w1
      | _, _ => w1
      end in
    (result o, w2).

(** ** Requests and responses *)

(** What [request.get_json()] returned: [None] (the body is the JSON
    value [null]), or an object whose values are strings.  A request
    for which [get_json] itself raises (no body, not JSON) is not a
    value of this type. *)
Abbreviation request := (option (gmap string string)).

(** [not data] *)
Definition falsy_dict (data : request) : bool :=
  match data with
  | None => true
  | Some d => bool_decide (d = ∅)
  end.

(** [not url] *)
Definition falsy_str (s : option string) : bool :=
  match s with
  | None => true
  | Some s => String.eqb s ""
  end.

Inductive json :=
  | JNull
  | JInt (z : Z)
  | JStr (s : string).

Definition json_str (o : option string) : json :=
  match o with
  | Some s => JStr s
  | None => JNull
  end.

Definition json_int (o : option Z) : json :=
  match o with
  | Some z => JInt z
  | None => JNull
  end.

(** One element of the [formats] answer.  [filesize_mb] is the decimal
    [round(filesize / 1024 / 1024, 1)], kept as a number of tenths. *)
Record format_entry := {
  e_format_id : option string;
  e_ext : option string;
  e_resolution : option string;
  e_height : option Z;
  e_filesize : option Z;
  e_filesize_mb : option Z;
  e_vcodec : option string;
  e_acodec : option string;
  e_fps : option Z;
  e_type : string
}.

(** One element of the [formats] answer of backend/app.py. *)
Record format_row := {
  r_format_id : option string;
  r_ext : option string;
  r_resolution : option string;
  r_filesize : option Z;
  r_vcodec : option string;
  r_acodec : option string
}.

Inductive body :=
  | Error (message : string)                       (* {"error": message} *)
  | Object (members : list (string * json))        (* a flat JSON object *)
  | Formats (formats : list format_entry)          (* {"formats": [...]}, app.py *)
  | FormatRows (formats : list format_row)         (* {"formats": [...]}, backend/app.py *)
  | SendFile (temp_dir filename download_name mimetype : string).

Record response := Response { payload : body; status : Z }.

(** [jsonify(x)] and [jsonify(x), code] *)
Definition jsonify (b : body) : response := Response b 200.
Definition jsonify_with (b : body) (code : Z) : response := Response b code.

(** [x / 1024 / 1024] rounded to one decimal, in tenths, for a size
    below [2^53]: up to there the quotient is exact in binary floating
    point, and both [round(_, 1)] and the [.1f] format round the exact
    value to the nearest tenth, ties to even.  From [2^53] on Python
    rounds the nearest float instead, which this function does not
    follow. *)
Definition tenths_of_mb (x : Z) : Z :=
  let q := (x * 10 / 1048576)%Z in
  let r := (x * 10 mod 1048576)%Z in
  if (2 * r <? 1048576)%Z then q
  else if (1048576 <? 2 * r)%Z then (q + 1)%Z
  else if Z.even q then q else (q + 1)%Z.

(** A number of tenths as Python prints it, for a size ([0 <= t]). *)
Definition show_tenths (t : Z) : string :=
  pretty (t / 10)%Z +:+ "." +:+ pretty (t mod 10)%Z.

(** [cleanup_later], the same closure in both files: sleep a minute,
    then [shutil.rmtree(temp_dir, ignore_errors=True)] inside
    [try]/[except]. *)
Definition cleanup_later (temp_dir : string) : thread :=
  [ Sleep 60; TryPass (Rmtree temp_dir true) ].

(** ** app.py *)

Module App.

(** [os.environ], for the two settings read at import time (already
    parsed by [int]). *)
Record environ := {
  env_MAX_FILE_SIZE : option Z;
  env_CLEANUP_INTERVAL : option Z
}.

Definition default_environ : environ :=
  {| env_MAX_FILE_SIZE := None; env_CLEANUP_INTERVAL := None |}.

Section Handlers.
Variable env : environ.
Variable ydl : collaborator.

Definition MAX_FILE_SIZE : Z := (default 100 (env_MAX_FILE_SIZE env) * 1024 * 1024)%Z.
Definition CLEANUP_INTERVAL : Z := default 300%Z (env_CLEANUP_INTERVAL env).

(** *** cleanup_old_files *)

(** The first loop, over the matches of ["yt_download_*"]. *)
Definition sweep_dirs (current_time : Z) (matches : list string) : SE tmpfs unit :=
  for_each matches (λ dir_path,
    d ← reads (is_dir dir_path);
    if d : bool then
      mtime ← stat_mtime dir_path;
      if (3600 <? current_time - mtime)%Z
      then rmtree dir_path true
      else mret tt
    else mret tt).

(** The second loop, over the matches of ["tmp*"]. *)
Definition sweep_files (current_time : Z) (matches : list string) : SE tmpfs unit :=
  for_each matches (λ file_path,
    f ← reads (is_file file_path);
    if f : bool then
      mtime ← stat_mtime file_path;
      if (3600 <? current_time - mtime)%Z
      then unlink file_path true
      else mret tt
    else mret tt).

(** The body of the [try] of one pass. *)
Definition sweep : SE world unit :=
  current_time ← time;
  on_fs (
    dirs ← reads (glob "yt_download_");
    sweep_dirs current_time dirs ;;
    files ← reads (glob "tmp");
    sweep_files current_time files).

(** [while True], unfolded [passes] times. *)
Fixpoint cleanup_old_files (passes : nat) : SE world unit :=
  match passes with
  | O => mret tt
  | S n =>
      try_except sweep (λ e, mret tt) ;;
      sleep CLEANUP_INTERVAL ;;
      cleanup_old_files n
  end.

(** *** POST /api/video-info *)

(** [s.strip()] for the value of [info.get(k, 'Unknown')] *)
Definition strip_of (v : option string) : SE world string :=
  match v with
  | Some s => mret (strip s)
  | None => raise (Raise AttributeError "'NoneType' object has no attribute 'strip'")
  end.

(** [len(v)] for the value of [info.get('formats', [])] *)
Definition len_of (v : option (list fmt)) : SE world Z :=
  match v with
  | Some l => mret (Z.of_nat (length l))
  | None => raise (Raise TypeError "object of type 'NoneType' has no len()")
  end.

Definition video_info (info : info) (url : string) : SE world body :=
  title' ← strip_of (get_or (title info) "Unknown");
  uploader' ← strip_of (get_or (uploader info) "Unknown");
  let description' :=
    match get (description info) with
    | Some s => if String.eqb s "" then "" else slice_to 200 s +:+ "..."
    | None => ""
    end in
  formats_available ← len_of (get_or (formats info) []);
  mret (Object
    [ ("title", JStr title');
      ("duration", json_int (get_or (duration info) 0%Z));
      ("uploader", JStr uploader');
      ("view_count", json_int (get (view_count info)));
      ("description", JStr description');
      ("thumbnail", json_str (get (thumbnail info)));
      ("upload_date", json_str (get (upload_date info)));
      ("formats_available", JInt formats_available);
      ("id", json_str (get_or (video_id info) ""));
      ("webpage_url", json_str (get_or (webpage_url info) url)) ]).

Definition get_video_info (data : request) : SE world response :=
  try_except
    (if falsy_dict data then
       mret (jsonify_with (Error "No JSON data provided") 400)
     else
       let url := data ≫= (.!! "url") in
       if falsy_str url then
         mret (jsonify_with (Error "URL is required") 400)
       else
         let url := default "" url in
         if negb (contains "youtube.com" url || contains "youtu.be" url) then
           mret (jsonify_with (Error "Please provide a valid YouTube URL") 400)
         else
           let ydl_opts :=
             {| format := None; outtmpl := None; postprocessors := [];
                quiet := true; no_warnings := true;
                extract_flat := Some false; force_json := Some true;
                listformats := None |} in
           info ← extract_info ydl ydl_opts url false;
           video_info' ← video_info info url;
           mret (jsonify video_info'))
    (λ e,
       if is_DownloadError e then
         mret (jsonify_with (Error ("Video extraction failed: " +:+ str e)) 400)
       else
         mret (jsonify_with (Error ("Server error: " +:+ str e)) 500)).

(** *** POST /api/download *)

Definition quality_map : gmap string string :=
  list_to_map
    [ ("best", "best[filesize<100M]/best[height<=1080]");
      ("720p", "best[height<=720][filesize<80M]/best[height<=720]");
      ("480p", "best[height<=480][filesize<50M]/best[height<=480]");
      ("360p", "best[height<=360][filesize<30M]/best[height<=360]");
      ("worst", "worst[filesize<20M]/worst") ].

(** The [if download_type == 'audio': ... else: ...] block. *)
Definition download_opts (temp_dir download_type quality : string) : ydl_opts :=
  if String.eqb download_type "audio" then
    {| format := Some "bestaudio/best";
       outtmpl := Some (temp_dir, "%(title)s.%(ext)s");
       postprocessors :=
         [ {| key := "FFmpegExtractAudio";
              preferredcodec := "mp3";
              preferredquality := "192" |} ];
       quiet := true; no_warnings := true;
       extract_flat := None; force_json := None; listformats := None |}
  else
    {| format := Some (default "best[filesize<100M]/best" (quality_map !! quality));
       outtmpl := Some (temp_dir, "%(title)s.%(ext)s");
       postprocessors := [];
       quiet := true; no_warnings := true;
       extract_flat := None; force_json := None; listformats := None |}.

Definition mimetype_of (filename : string) : string :=
  if endswith filename ".mp3" then "audio/mpeg"
  else if endswith filename ".mp4" then "video/mp4"
  else if endswith filename ".webm" then "video/webm"
  else "application/octet-stream".

(** The message of the 413 answer; the limit is a whole number of
    megabytes, which Python prints with [.0]. *)
Definition too_large (file_size : Z) : string :=
  "File too large (" +:+ show_tenths (tenths_of_mb file_size) +:+
  "MB). Max allowed: " +:+ pretty (MAX_FILE_SIZE / 1048576)%Z +:+ ".0MB".

(** The [try] block from the call of the collaborator on; [temp_dir]
    is the directory [mkdtemp] returned. *)
Definition download_from (url download_type quality temp_dir : string)
    : SE world response :=
  let ydl_opts := download_opts temp_dir download_type quality in
  info ← extract_info ydl ydl_opts url true;
  listing ← on_fs (listdir temp_dir);
  fs ← reads tmp;
  let downloaded_files := filter (λ f, isfile temp_dir f fs) listing in
  match downloaded_files with
  | [] =>
      mret (jsonify_with
        (Error "No file was downloaded. The video might be unavailable or too large.") 500)
  | _ =>
      file_sizes ← map_m (λ f, n ← on_fs (getsize temp_dir f); mret (f, n)) downloaded_files;
      let file_sizes := py_sort Z.ltb snd true file_sizes in
      match file_sizes with
      | [] => raise (Raise IndexError "list index out of range")
      | (filename, _) :: _ =>
          file_size ← on_fs (getsize temp_dir filename);
          if (MAX_FILE_SIZE <? file_size)%Z then
            mret (jsonify_with (Error (too_large file_size)) 413)
          else
            let mimetype := mimetype_of filename in
            start_thread (cleanup_later temp_dir) ;;
            mret (jsonify (SendFile temp_dir filename filename mimetype))
      end
  end.

(** Both [except] clauses; [temp_dir] is the local variable of that
    name. *)
Definition download_failed (temp_dir : option string) (e : exn) : SE world response :=
  fs ← reads tmp;
  (if negb (falsy_str temp_dir) && path_exists (default "" temp_dir) fs
   then on_fs (rmtree (default "" temp_dir) true)
   else mret tt) ;;
  if is_DownloadError e then
    mret (jsonify_with (Error ("Download failed: " +:+ str e)) 400)
  else
    mret (jsonify_with (Error ("Server error: " +:+ str e)) 500).

(** [temp_dir] is [None] until [mkdtemp] has returned: an exception
    raised before that point reaches the handlers with [None], one
    raised after it with the directory. *)
Definition download_video (data : request) : SE world response :=
  try_except
    (if falsy_dict data then
       mret (jsonify_with (Error "No JSON data provided") 400)
     else
       let url := data ≫= (.!! "url") in
       let download_type := default "video" (data ≫= (.!! "type")) in
       let quality := default "best" (data ≫= (.!! "quality")) in
       if falsy_str url then
         mret (jsonify_with (Error "URL is required") 400)
       else
         let url := default "" url in
         if negb (contains "youtube.com" url || contains "youtu.be" url) then
           mret (jsonify_with (Error "Please provide a valid YouTube URL") 400)
         else
           temp_dir ← mkdtemp "yt_download_";
           try_except
             (download_from url download_type quality temp_dir)
             (download_failed (Some temp_dir)))
    (download_failed None).

(** *** POST /api/formats *)

Definition kind_of (f : fmt) : string :=
  if bool_decide (vcodec f = Some "none") then "audio" else "video".

Definition format_key (f : fmt) : option Z * option string * string :=
  (height f, ext f, kind_of f).

Definition entry_of (f : fmt) : format_entry :=
  {| e_format_id := format_id f;
     e_ext := ext f;
     e_resolution :=
       get_or (resolution f)
         (if bool_decide (vcodec f = Some "none") then "audio only" else "unknown");
     e_height := height f;
     e_filesize := filesize f;
     e_filesize_mb :=
       match filesize f with
       | Some n => if (n =? 0)%Z then None else Some (tenths_of_mb n)
       | None => None
       end;
     e_vcodec := vcodec f;
     e_acodec := acodec f;
     e_fps := fps f;
     e_type := kind_of f |}.

(** The [for fmt in ...] loop, on the pair [(formats, seen_formats)]. *)
Definition collect (acc : list format_entry * gset (option Z * option string * string))
    (f : fmt) : list format_entry * gset (option Z * option string * string) :=
  let format_key := format_key f in
  if bool_decide (format_key ∈ acc.2) then acc
  else (acc.1 ++ [entry_of f], {[ format_key ]} ∪ acc.2).

(** [(x['type'] == 'audio', -(x['height'] or 0))] *)
Definition sort_key (x : format_entry) : bool * Z :=
  (String.eqb (e_type x) "audio", (- default 0 (e_height x))%Z).

Definition listed_formats (raw : list fmt) : list format_entry :=
  let formats := (foldl collect ([], ∅) raw).1 in
  let formats := py_sort (pair_lt bool_lt Bool.eqb Z.ltb) sort_key false formats in
  take 20 formats.

(** [for fmt in v] for the value of [info.get('formats', [])] *)
Definition iter_of (v : option (list fmt)) : SE world (list fmt) :=
  match v with
  | Some l => mret l
  | None => raise (Raise TypeError "'NoneType' object is not iterable")
  end.

Definition get_formats (data : request) : SE world response :=
  try_except
    (if falsy_dict data then
       mret (jsonify_with (Error "No JSON data provided") 400)
     else
       let url := data ≫= (.!! "url") in
       if falsy_str url then
         mret (jsonify_with (Error "URL is required") 400)
       else
         let url := default "" url in
         let ydl_opts :=
           {| format := None; outtmpl := None; postprocessors := [];
              quiet := true; no_warnings := true;
              extract_flat := None; force_json := None;
              listformats := Some true |} in
         info ← extract_info ydl ydl_opts url false;
         raw ← iter_of (get_or (formats info) []);
         mret (jsonify (Formats (listed_formats raw))))
    (λ e, mret (jsonify_with (Error (str e)) 500)).

(** *** GET /health *)

(** [start_time] is the module-level variable set when the module is
    loaded. *)
Definition health (start_time : Z) : SE world response :=
  timestamp ← time;
  t ← time;
  matches ← on_fs (reads (glob "yt_download_"));
  mret (jsonify (Object
    [ ("status", JStr "healthy");
      ("timestamp", JInt timestamp);
      ("uptime", JInt (t - start_time));
      ("temp_files", JInt (Z.of_nat (length matches))) ])).

End Handlers.
End App.

(** ** backend/app.py *)

Module Backend.
Section Handlers.
Variable ydl : collaborator.

(** *** cleanup_old_files *)

Definition sweep_paths (current_time : Z) (matches : list string) : SE tmpfs unit :=
  for_each matches (λ file_path,
    mtime ← stat_mtime file_path;
    if (3600 <? current_time - mtime)%Z
    then unlink file_path true
    else mret tt).

Definition sweep : SE world unit :=
  current_time ← time;
  on_fs (
    paths ← reads (glob "yt_download_");
    sweep_paths current_time paths).

Fixpoint cleanup_old_files (passes : nat) : SE world unit :=
  match passes with
  | O => mret tt
  | S n =>
      try_except sweep (λ e, mret tt) ;;
      sleep 300 ;;
      cleanup_old_files n
  end.

(** [data.get(k)] and [data.get(k, default)] on what [get_json]
    returned. *)
Definition data_get (data : request) (k : string) : SE world (option string) :=
  match data with
  | Some d => mret (d !! k)
  | None => raise (Raise AttributeError "'NoneType' object has no attribute 'get'")
  end.

(** *** POST /api/video-info *)

Definition len_of (v : option (list fmt)) : SE world Z :=
  match v with
  | Some l => mret (Z.of_nat (length l))
  | None => raise (Raise TypeError "object of type 'NoneType' has no len()")
  end.

Definition video_info (info : info) : SE world body :=
  let description' :=
    match get (description info) with
    | Some s => if String.eqb s "" then "" else slice_to 200 s +:+ "..."
    | None => ""
    end in
  formats_available ← len_of (get_or (formats info) []);
  mret (Object
    [ ("title", json_str (get_or (title info) "Unknown"));
      ("duration", json_int (get_or (duration info) 0%Z));
      ("uploader", json_str (get_or (uploader info) "Unknown"));
      ("view_count", json_int (get (view_count info)));
      ("description", JStr description');
      ("thumbnail", json_str (get (thumbnail info)));
      ("upload_date", json_str (get (upload_date info)));
      ("formats_available", JInt formats_available) ]).

Definition get_video_info (data : request) : SE world response :=
  try_except
    (url ← data_get data "url";
     if falsy_str url then
       mret (jsonify_with (Error "URL is required") 400)
     else
       let url := default "" url in
       let ydl_opts :=
         {| format := None; outtmpl := None; postprocessors := [];
            quiet := true; no_warnings := true;
            extract_flat := Some false; force_json := None;
            listformats := None |} in
       info ← extract_info ydl ydl_opts url false;
       video_info' ← video_info info;
       mret (jsonify video_info'))
    (λ e, mret (jsonify_with (Error (str e)) 500)).

(** *** POST /api/download *)

Definition quality_map : gmap string string :=
  list_to_map
    [ ("best", "best[filesize<50M]/best");
      ("720p", "best[height<=720][filesize<50M]/best[height<=720]");
      ("480p", "best[height<=480][filesize<50M]/best[height<=480]");
      ("360p", "best[height<=360][filesize<50M]/best[height<=360]");
      ("worst", "worst") ].

Definition download_opts (temp_dir download_type quality : string) : ydl_opts :=
  if String.eqb download_type "audio" then
    {| format := Some "bestaudio/best";
       outtmpl := Some (temp_dir, "%(title)s.%(ext)s");
       postprocessors :=
         [ {| key := "FFmpegExtractAudio";
              preferredcodec := "mp3";
              preferredquality := "192" |} ];
       quiet := true; no_warnings := true;
       extract_flat := None; force_json := None; listformats := None |}
  else
    {| format := Some (default "best[filesize<50M]/best" (quality_map !! quality));
       outtmpl := Some (temp_dir, "%(title)s.%(ext)s");
       postprocessors := [];
       quiet := true; no_warnings := true;
       extract_flat := None; force_json := None; listformats := None |}.

(** The inner [try] block. *)
Definition download_from (url download_type quality temp_dir : string)
    : SE world response :=
  let ydl_opts := download_opts temp_dir download_type quality in
  info ← extract_info ydl ydl_opts url true;
  listing ← on_fs (listdir temp_dir);
  fs ← reads tmp;
  let downloaded_files := filter (λ f, isfile temp_dir f fs) listing in
  match downloaded_files with
  | [] => mret (jsonify_with (Error "No file was downloaded") 500)
  | filename :: _ =>
      file_size ← on_fs (getsize temp_dir filename);
      if (100 * 1024 * 1024 <? file_size)%Z then
        mret (jsonify_with (Error "File too large for web download") 413)
      else
        mret (jsonify (SendFile temp_dir filename filename "application/octet-stream"))
  end.

Definition download_video (data : request) : SE world response :=
  try_except
    (url ← data_get data "url";
     download_type ← data_get data "type";
     quality ← data_get data "quality";
     let download_type := default "video" download_type in
     let quality := default "best" quality in
     if falsy_str url then
       mret (jsonify_with (Error "URL is required") 400)
     else
       let url := default "" url in
       temp_dir ← mkdtemp "yt_download_";
       try_finally
         (download_from url download_type quality temp_dir)
         (start_thread (cleanup_later temp_dir)))
    (λ e, mret (jsonify_with (Error (str e)) 500)).

(** *** POST /api/formats *)

Definition row_of (f : fmt) : format_row :=
  {| r_format_id := format_id f;
     r_ext := ext f;
     r_resolution :=
       get_or (resolution f)
         (if bool_decide (vcodec f = Some "none") then "audio only" else "unknown");
     r_filesize := filesize f;
     r_vcodec := vcodec f;
     r_acodec := acodec f |}.

Definition has_codec (f : fmt) : bool :=
  negb (bool_decide (vcodec f = Some "none")) || negb (bool_decide (acodec f = Some "none")).

Definition iter_of (v : option (list fmt)) : SE world (list fmt) :=
  match v with
  | Some l => mret l
  | None => raise (Raise TypeError "'NoneType' object is not iterable")
  end.

Definition get_formats (data : request) : SE world response :=
  try_except
    (url ← data_get data "url";
     if falsy_str url then
       mret (jsonify_with (Error "URL is required") 400)
     else
       let url := default "" url in
       let ydl_opts :=
         {| format := None; outtmpl := None; postprocessors := [];
            quiet := true; no_warnings := true;
            extract_flat := None; force_json := None;
            listformats := Some true |} in
       info ← extract_info ydl ydl_opts url false;
       raw ← iter_of (get_or (formats info) []);
       mret (jsonify (FormatRows (map row_of (filter has_codec raw)))))
    (λ e, mret (jsonify_with (Error (str e)) 500)).

(** *** GET /health *)

Definition health : SE world response :=
  timestamp ← time;
  mret (jsonify (Object
    [ ("status", JStr "healthy");
      ("timestamp", JInt timestamp) ])).

End Handlers.
End Backend.

(** ** Observations on a run *)

(** The process after a handler differs from the one before by at most
    one logged call of [extract_info] with [download=False]. *)
Definition metadata_only (w w' : world) : Prop :=
  now w' = now w ∧ tmp w' = tmp w ∧ names w' = names w ∧ threads w' = threads w ∧
  (calls w' = calls w ∨ ∃ opts url, calls w' = calls w ++ [(opts, url, false)]).

(** What [health] of app.py reports as [temp_files]. *)
Definition temp_files (w : world) : Z :=
  Z.of_nat (length (glob "yt_download_" (tmp w))).

(** The member [k] of a JSON object answer. *)
Definition member (k : string) (b : body) : option json :=
  match b with
  | Object members => snd <$> find (λ p, String.eqb p.1 k) members
  | _ => None
  end.

(** ** Sample requests, collaborators and processes *)

Module Sample.

Definition no_info : info :=
  {| title := Missing; duration := Missing; uploader := Missing;
     view_count := Missing; description := Missing; thumbnail := Missing;
     upload_date := Missing; formats := Missing; video_id := Missing;
     webpage_url := Missing |}.

(** [{"url": url}] *)
Definition post (url : string) : request := Some {[ "url" := url ]}.

(** A fresh process at time [10000] with an empty temp directory. *)
Definition idle : world :=
  {| now := 10000; tmp := []; names := ["k3x9"]; threads := []; calls := [] |}.

(** A process whose temp directory holds one download directory made
    at time [0] and one made at time [9000]. *)
Definition littered : world :=
  {| now := 10000;
     tmp := [ ("yt_download_old", Dir 0 [("clip.mp4", CFile 1000)]);
              ("yt_download_new", Dir 9000 [("clip.mp4", CFile 1000)]) ];
     names := ["k3x9"]; threads := []; calls := [] |}.

(** yt-dlp leaves a small by-product first and the video second. *)
Definition two_files : collaborator :=
  λ _ _ _, {| written := [("clip.jpg", CFile 7); ("clip.mp4", CFile 1000)];
              result := inr no_info |}.

(** yt-dlp downloads 150 MB. *)
Definition big_file : collaborator :=
  λ _ _ _, {| written := [("clip.mp4", CFile (150 * 1024 * 1024))];
              result := inr no_info |}.

(** yt-dlp writes nothing and returns. *)
Definition no_file : collaborator :=
  λ _ _ _, {| written := []; result := inr no_info |}.

(** yt-dlp gives up. *)
Definition unavailable : collaborator :=
  λ _ _ _, {| written := [("clip.mp4.part", CFile 12)];
              result := inl (Raise DownloadError "ERROR: Video unavailable") |}.

Definition video (h : Z) (e : string) : fmt :=
  {| format_id := None; ext := Some e; resolution := Missing; height := Some h;
     filesize := None; vcodec := Some "avc1"; acodec := Some "none"; fps := None |}.

Definition audio (e : string) : fmt :=
  {| format_id := None; ext := Some e; resolution := Missing; height := None;
     filesize := None; vcodec := Some "none"; acodec := Some "opus"; fps := None |}.

(** yt-dlp lists an audio track, 360p, 720p and 360p again. *)
Definition four_formats : list fmt :=
  [ audio "webm"; video 360 "mp4"; video 720 "mp4"; video 360 "mp4" ].

Definition info_with (raw : list fmt) : info :=
  {| title := Missing; duration := Missing; uploader := Missing;
     view_count := Missing; description := Missing; thumbnail := Missing;
     upload_date := Missing; formats := Val raw; video_id := Missing;
     webpage_url := Missing |}.

Definition lists (raw : list fmt) : collaborator :=
  λ _ _ _, {| written := []; result := inr (info_with raw) |}.

(** yt-dlp answers with a null title. *)
Definition null_title : collaborator :=
  λ _ _ _, {| written := [];
              result := inr {| title := Null; duration := Missing; uploader := Missing;
                               view_count := Missing; description := Missing;
                               thumbnail := Missing; upload_date := Missing;
                               formats := Missing; video_id := Missing;
                               webpage_url := Missing |} |}.

End Sample.

(** * Properties *)

(** ** Strings *)

Lemma startswith_app (p s : string) : startswith (p +:+ s) p = true.
Proof.
  induction p as [|a p IH]; [now destruct s|].
  simpl. now rewrite Ascii.eqb_refl, IH.
Qed.

Lemma startswith_cons (a b : ascii) (s p : string) :
  startswith (String b s) (String a p) = Ascii.eqb a b && startswith s p.
Proof. reflexivity. Qed.

Lemma startswith_tmp_yt (n : string) :
  startswith n "yt_download_" = true → startswith n "tmp" = false.
Proof.
  destruct n as [|a n]; [discriminate|].
  rewrite !startswith_cons.
  destruct (Ascii.eqb_spec "y" a) as [<-|]; [reflexivity|discriminate].
Qed.

(** ** The monad *)

Ltac se_unfold :=
  unfold time, sleep, start_thread;
  unfold on_fs, mbind, mret, SE_bind, SE_ret, try_except, try_finally, raise, reads.

Lemma bind_run {S A B} (m : SE S A) (k : A → SE S B) (s : S) :
  (m ≫= k) s =
  match m s with
  | (inl e, s') => (inl e, s')
  | (inr a, s') => k a s'
  end.
Proof. reflexivity. Qed.

Lemma ret_run {S A} (a : A) (s : S) : (mret a : SE S A) s = (inr a, s).
Proof. reflexivity. Qed.

Lemma set_tmp_id (w : world) : set_tmp (tmp w) w = w.
Proof. now destruct w. Qed.


Lemma sleep_negative (secs : Z) (w : world) :
  (secs < 0)%Z →
  sleep secs w = (inl (Raise ValueError "sleep length must be non-negative"), w).
Proof. intros H. unfold sleep. now destruct (Z.ltb_spec secs 0); [|lia]. Qed.

(** ** The temp directory *)

Lemma remove_entry_cons (name n : string) (e : entry) (fs : tmpfs) :
  remove_entry name ((n, e) :: fs) =
  if String.eqb n name then remove_entry name fs else (n, e) :: remove_entry name fs.
Proof.
  unfold remove_entry. rewrite filter_cons. cbn.
  destruct (String.eqb n name); cbn; now case_decide.
Qed.

Lemma lookup_remove_eq (name : string) (fs : tmpfs) :
  lookup_entry name (remove_entry name fs) = None.
Proof.
  induction fs as [|[n e] fs IH]; [reflexivity|].
  rewrite remove_entry_cons. destruct (String.eqb n name) eqn:E; [exact IH|].
  cbn. now rewrite E.
Qed.

Lemma lookup_remove_ne (name other : string) (fs : tmpfs) :
  name ≠ other →
  lookup_entry other (remove_entry name fs) = lookup_entry other fs.
Proof.
  intros Hne. induction fs as [|[n e] fs IH]; [reflexivity|].
  rewrite remove_entry_cons. cbn.
  destruct (String.eqb_spec n name) as [->|]; cbn.
  - destruct (String.eqb_spec name other); [contradiction|exact IH].
  - now rewrite IH.
Qed.

Lemma lookup_entry_app (name : string) (fs fs' : tmpfs) :
  lookup_entry name (fs ++ fs') =
  match lookup_entry name fs with
  | Some e => Some e
  | None => lookup_entry name fs'
  end.
Proof.
  induction fs as [|[n e] fs IH]; [reflexivity|].
  cbn. now destruct (String.eqb n name).
Qed.

Lemma write_children_cons now name files n e fs :
  write_children now name files ((n, e) :: fs) =
  (if String.eqb n name
   then match e with
        | Dir _ children => (n, Dir now (children ++ files))
        | File _ _ => (n, e)
        end
   else (n, e)) :: write_children now name files fs.
Proof. reflexivity. Qed.

Lemma lookup_write_children (now : Z) (name other : string)
    (files : list (string * child)) (fs : tmpfs) :
  lookup_entry other (write_children now name files fs) =
  if String.eqb other name then
    match lookup_entry other fs with
    | Some (Dir _ children) => Some (Dir now (children ++ files))
    | r => r
    end
  else lookup_entry other fs.
Proof.
  induction fs as [|[n e] fs IH]; [cbn; now destruct (String.eqb other name)|].
  rewrite write_children_cons.
  cbn [lookup_entry].
  destruct (String.eqb_spec n name) as [->|Hn].
  - destruct (String.eqb_spec other name) as [->|Ho].
    + destruct e; cbn [lookup_entry]; now rewrite String.eqb_refl.
    + destruct e; cbn [lookup_entry]; (destruct (String.eqb_spec name other); [congruence|]);
        rewrite IH; now destruct (String.eqb_spec other name).
  - cbn [lookup_entry]. destruct (String.eqb_spec n other) as [->|Hno].
    + now destruct (String.eqb_spec other name).
    + exact IH.
Qed.

Lemma first_free_fresh (prefix : string) (candidates rest : list string)
    (fs : tmpfs) (name : string) :
  first_free prefix candidates fs = Some (name, rest) →
  lookup_entry name fs = None ∧ startswith name prefix = true.
Proof.
  induction candidates as [|c cs IH]; [discriminate|].
  cbn. unfold path_exists at 1.
  destruct (lookup_entry (prefix +:+ c) fs) eqn:E; [exact IH|].
  intros [= <- <-]. split; [exact E|apply startswith_app].
Qed.

(** ** Deleting twice *)

Lemma rmtree_quiet_ok (name : string) (fs : tmpfs) :
  ∃ fs', rmtree name true fs = (inr tt, fs') ∧
         (is_dir name fs = true → lookup_entry name fs' = None) ∧
         (is_dir name fs = false → fs' = fs) ∧
         (∀ other, other ≠ name → lookup_entry other fs' = lookup_entry other fs).
Proof.
  unfold rmtree, is_dir.
  destruct (lookup_entry name fs) as [[m s|m ch]|] eqn:E; eexists; (split; [reflexivity|]).
  - repeat split; auto; discriminate.
  - repeat split; [intros _; apply lookup_remove_eq|discriminate|].
    intros other Hne. apply lookup_remove_ne. congruence.
  - repeat split; auto; discriminate.
Qed.

Lemma rmtree_twice (name : string) (fs : tmpfs) :
  rmtree name true (rmtree name true fs).2 = (inr tt, (rmtree name true fs).2).
Proof.
  unfold rmtree at 2 3.
  destruct (lookup_entry name fs) as [[m s|m ch]|] eqn:E; cbn [snd].
  - unfold rmtree. now rewrite E.
  - unfold rmtree. now rewrite lookup_remove_eq.
  - unfold rmtree. now rewrite E.
Qed.

Lemma cleanup_later_run (temp_dir : string) (w : world) :
  run_thread (cleanup_later temp_dir) w =
  (inr tt, set_tmp (rmtree temp_dir true (tmp w)).2 (set_now (now w + 60) w)).
Proof.
  unfold run_thread, cleanup_later. cbn [for_each run_stmt]. se_unfold.
  change (60 <? 0)%Z with false. cbn iota.
  destruct (rmtree_quiet_ok temp_dir (tmp w)) as (fs' & E & _).
  cbn [tmp set_now]. now rewrite E.
Qed.

(** ** The sweeper of app.py *)

Lemma App_sweep_dirs_cons (t : Z) (d : string) (rest : list string) (fs : tmpfs) :
  App.sweep_dirs t (d :: rest) fs =
  App.sweep_dirs t rest
    match lookup_entry d fs with
    | Some (Dir m _) => if (3600 <? t - m)%Z then remove_entry d fs else fs
    | _ => fs
    end.
Proof.
  unfold App.sweep_dirs. cbn [for_each]. se_unfold. unfold is_dir, stat_mtime, rmtree.
  destruct (lookup_entry d fs) as [[m s|m ch]|] eqn:E; cbn; rewrite ?E; try reflexivity.
  cbn. destruct (3600 <? t - m)%Z; cbn; rewrite ?E; reflexivity.
Qed.

Lemma App_sweep_files_cons (t : Z) (f : string) (rest : list string) (fs : tmpfs) :
  App.sweep_files t (f :: rest) fs =
  App.sweep_files t rest
    match lookup_entry f fs with
    | Some (File m _) => if (3600 <? t - m)%Z then remove_entry f fs else fs
    | _ => fs
    end.
Proof.
  unfold App.sweep_files. cbn [for_each]. se_unfold. unfold is_file, stat_mtime, unlink.
  destruct (lookup_entry f fs) as [[m s|m ch]|] eqn:E; cbn; rewrite ?E; try reflexivity.
  cbn. destruct (3600 <? t - m)%Z; cbn; rewrite ?E; reflexivity.
Qed.

(** Neither loop raises, whatever the list of matches: a path that
    vanished between the listing and the test is skipped. *)
Lemma App_sweep_dirs_ok (t : Z) (matches : list string) (fs : tmpfs) :
  ∃ fs', App.sweep_dirs t matches fs = (inr tt, fs').
Proof.
  revert fs. induction matches as [|d rest IH]; intros fs; [now eexists|].
  rewrite App_sweep_dirs_cons. apply IH.
Qed.

Lemma App_sweep_files_ok (t : Z) (matches : list string) (fs : tmpfs) :
  ∃ fs', App.sweep_files t matches fs = (inr tt, fs').
Proof.
  revert fs. induction matches as [|d rest IH]; intros fs; [now eexists|].
  rewrite App_sweep_files_cons. apply IH.
Qed.

(** An entry that is not an expired directory outlives the first loop. *)
Lemma App_sweep_dirs_keeps (t : Z) (matches : list string) (fs : tmpfs)
    (name : string) (e : entry) :
  lookup_entry name fs = Some e →
  (∀ m ch, e = Dir m ch → (t - m ≤ 3600)%Z) →
  lookup_entry name (App.sweep_dirs t matches fs).2 = Some e.
Proof.
  intros Hl Hyoung. revert fs Hl.
  induction matches as [|d rest IH]; intros fs Hl; [exact Hl|].
  rewrite App_sweep_dirs_cons. apply IH.
  destruct (lookup_entry d fs) as [[m s|m ch]|] eqn:E; try exact Hl.
  destruct (3600 <? t - m)%Z eqn:Hold; [|exact Hl].
  rewrite lookup_remove_ne; [exact Hl|].
  intros ->. rewrite E in Hl. injection Hl as <-.
  specialize (Hyoung m ch eq_refl). lia.
Qed.

Lemma App_sweep_dirs_gone (t : Z) (matches : list string) (fs : tmpfs) (name : string) :
  lookup_entry name fs = None →
  lookup_entry name (App.sweep_dirs t matches fs).2 = None.
Proof.
  revert fs. induction matches as [|d rest IH]; intros fs Hl; [exact Hl|].
  rewrite App_sweep_dirs_cons. apply IH.
  destruct (lookup_entry d fs) as [[m s|m ch]|] eqn:E; try exact Hl.
  destruct (3600 <? t - m)%Z; [|exact Hl].
  destruct (String.eqb_spec d name) as [->|Hne].
  - apply lookup_remove_eq.
  - now rewrite lookup_remove_ne.
Qed.

(** An expired directory among the matches is deleted by the first loop. *)
Lemma App_sweep_dirs_deletes (t : Z) (matches : list string) (fs : tmpfs)
    (name : string) (m : Z) (ch : list (string * child)) :
  name ∈ matches →
  lookup_entry name fs = Some (Dir m ch) →
  (3600 < t - m)%Z →
  lookup_entry name (App.sweep_dirs t matches fs).2 = None.
Proof.
  intros Hin Hl Hold. revert fs Hl.
  induction matches as [|d rest IH]; intros fs Hl; [now apply elem_of_nil in Hin|].
  rewrite App_sweep_dirs_cons.
  destruct (String.eqb_spec d name) as [->|Hne].
  - rewrite Hl. destruct (Z.ltb_spec 3600 (t - m)); [|lia].
    apply App_sweep_dirs_gone, lookup_remove_eq.
  - apply elem_of_cons in Hin as [->|Hin]; [contradiction|].
    apply IH; [exact Hin|].
    destruct (lookup_entry d fs) as [[m' s|m' ch']|] eqn:E; try exact Hl.
    destruct (3600 <? t - m')%Z; [|exact Hl].
    now rewrite lookup_remove_ne.
Qed.

(** The second loop only touches its own matches. *)
Lemma App_sweep_files_other (t : Z) (matches : list string) (fs : tmpfs) (name : string) :
  name ∉ matches →
  lookup_entry name (App.sweep_files t matches fs).2 = lookup_entry name fs.
Proof.
  revert fs. induction matches as [|f rest IH]; intros fs Hnin; [reflexivity|].
  rewrite App_sweep_files_cons.
  apply not_elem_of_cons in Hnin as [Hne Hnin].
  rewrite IH by exact Hnin.
  destruct (lookup_entry f fs) as [[m s|m ch]|] eqn:E; try reflexivity.
  destruct (3600 <? t - m)%Z; [|reflexivity].
  now rewrite lookup_remove_ne.
Qed.

Lemma elem_of_glob (prefix name : string) (fs : tmpfs) :
  name ∈ glob prefix fs ↔ startswith name prefix = true ∧ lookup_entry name fs ≠ None.
Proof.
  unfold glob. rewrite list_elem_of_filter.
  assert (name ∈ map fst fs ↔ lookup_entry name fs ≠ None) as ->.
  { induction fs as [|[n e] fs IH]; cbn.
    - split; [intros H; now apply elem_of_nil in H|congruence].
    - rewrite elem_of_cons, IH.
      destruct (String.eqb_spec n name) as [->|Hne]; [intuition congruence|].
      intuition congruence. }
  unfold Is_true. destruct (startswith name prefix); intuition congruence.
Qed.

Lemma App_sweep_run (w : world) :
  App.sweep w =
  (inr tt,
   set_tmp
     (App.sweep_files (now w) (glob "tmp" (App.sweep_dirs (now w) (glob "yt_download_" (tmp w)) (tmp w)).2)
        (App.sweep_dirs (now w) (glob "yt_download_" (tmp w)) (tmp w)).2).2 w).
Proof.
  unfold App.sweep. se_unfold. cbn beta iota.
  destruct (App_sweep_dirs_ok (now w) (glob "yt_download_" (tmp w)) (tmp w)) as [fs1 E1].
  rewrite E1. cbn [snd].
  destruct (App_sweep_files_ok (now w) (glob "tmp" fs1) fs1) as [fs2 E2].
  now rewrite E2.
Qed.

(** One pass of app.py's sweeper: a download directory older than an
    hour is gone afterwards, any other entry with the download prefix is
    still there. *)
Lemma App_sweep_spec (w : world) (name : string) (e : entry) :
  startswith name "yt_download_" = true →
  lookup_entry name (tmp w) = Some e →
  ∃ w', App.sweep w = (inr tt, w') ∧
    match e with
    | Dir m _ =>
        if (3600 <? now w - m)%Z
        then lookup_entry name (tmp w') = None
        else lookup_entry name (tmp w') = Some e
    | File _ _ => lookup_entry name (tmp w') = Some e
    end.
Proof.
  intros Hpre Hl. rewrite App_sweep_run. eexists; split; [reflexivity|].
  cbn [tmp set_tmp].
  rewrite App_sweep_files_other.
  2:{ rewrite elem_of_glob. intros [Htmp _].
      now rewrite (startswith_tmp_yt _ Hpre) in Htmp. }
  destruct e as [m s|m ch].
  - apply App_sweep_dirs_keeps; [exact Hl|discriminate].
  - destruct (Z.ltb_spec 3600 (now w - m)).
    + eapply App_sweep_dirs_deletes; eauto.
      apply elem_of_glob. split; [exact Hpre|congruence].
    + apply App_sweep_dirs_keeps; [exact Hl|]. intros ? ? [= <- <-]. lia.
Qed.



(** ** The sweeper of backend/app.py *)

Lemma Backend_sweep_paths_cons (t : Z) (p : string) (rest : list string) (fs : tmpfs) :
  Backend.sweep_paths t (p :: rest) fs =
  match lookup_entry p fs with
  | None => (inl (ENOENT (path_join gettempdir p)), fs)
  | Some (File m _) =>
      Backend.sweep_paths t rest (if (3600 <? t - m)%Z then remove_entry p fs else fs)
  | Some (Dir m _) =>
      if (3600 <? t - m)%Z then (inl (EISDIR (path_join gettempdir p)), fs)
      else Backend.sweep_paths t rest fs
  end.
Proof.
  unfold Backend.sweep_paths. cbn [for_each]. se_unfold. unfold stat_mtime, unlink.
  destruct (lookup_entry p fs) as [[m s|m ch]|] eqn:E; cbn; rewrite ?E; try reflexivity.
  - destruct (3600 <? t - m)%Z; cbn; rewrite ?E; reflexivity.
  - destruct (3600 <? t - m)%Z; cbn; rewrite ?E; reflexivity.
Qed.

(** [unlink] never removes a directory, so this sweeper leaves every
    directory where it is, however old. *)
Lemma Backend_sweep_paths_keeps_dirs (t : Z) (matches : list string) (fs : tmpfs)
    (name : string) (m : Z) (ch : list (string * child)) :
  lookup_entry name fs = Some (Dir m ch) →
  lookup_entry name (Backend.sweep_paths t matches fs).2 = Some (Dir m ch).
Proof.
  revert fs. induction matches as [|p rest IH]; intros fs Hl; [exact Hl|].
  rewrite Backend_sweep_paths_cons.
  destruct (lookup_entry p fs) as [[m' s|m' ch']|] eqn:E; [| |exact Hl].
  - apply IH. destruct (3600 <? t - m')%Z; [|exact Hl].
    rewrite lookup_remove_ne; [exact Hl|]. intros ->. congruence.
  - destruct (3600 <? t - m')%Z; [exact Hl|]. now apply IH.
Qed.

Lemma Backend_sweep_keeps_dirs (w : world) (name : string) (m : Z)
    (ch : list (string * child)) :
  lookup_entry name (tmp w) = Some (Dir m ch) →
  lookup_entry name (tmp (Backend.sweep w).2) = Some (Dir m ch).
Proof.
  intros Hl. unfold Backend.sweep. se_unfold. cbn beta iota.
  pose proof (Backend_sweep_paths_keeps_dirs (now w) (glob "yt_download_" (tmp w)) _ _ _ _ Hl) as H.
  destruct (Backend.sweep_paths _ _ _) as [r fs']. exact H.
Qed.


(** ** [list.sort] *)

Section PySortFacts.
Context {A K : Type} (lt : K → K → bool) (key : A → K).
Hypothesis lt_asym : ∀ x y, lt x y = true → lt y x = false.
Hypothesis lt_negtrans : ∀ x y z, lt x y = false → lt y z = false → lt x z = false.

Lemma insert_by_perm (reverse : bool) (x : A) (l : list A) :
  insert_by lt key reverse x l ≡ₚ x :: l.
Proof.
  induction l as [|y ys IH]; [reflexivity|]. cbn.
  destruct (if reverse then _ else _); [|reflexivity].
  rewrite IH. apply perm_swap.
Qed.

Lemma py_sort_perm (reverse : bool) (l : list A) : py_sort lt key reverse l ≡ₚ l.
Proof.
  induction l as [|x l IH]; [reflexivity|].
  cbn. rewrite insert_by_perm. now rewrite IH.
Qed.

Lemma in_order_trans (reverse : bool) (a b c : A) :
  in_order lt key reverse a b = true →
  in_order lt key reverse b c = true →
  in_order lt key reverse a c = true.
Proof.
  unfold in_order. rewrite !negb_true_iff.
  destruct reverse; intros H1 H2; eauto.
Qed.

Lemma insert_by_sorted (reverse : bool) (x : A) (l : list A) :
  StronglySorted (λ a b, in_order lt key reverse a b = true) l →
  StronglySorted (λ a b, in_order lt key reverse a b = true)
    (insert_by lt key reverse x l).
Proof.
  induction 1 as [|y ys Hs IH Hy]; cbn.
  - constructor; [constructor|constructor].
  - destruct (if reverse then _ else _) eqn:E.
    + constructor; [exact IH|].
      rewrite insert_by_perm. constructor; [|exact Hy].
      unfold in_order. apply negb_true_iff.
      destruct reverse; now apply lt_asym.
    + assert (in_order lt key reverse x y = true) as Hxy.
      { unfold in_order. now rewrite E. }
      constructor; [now constructor|].
      constructor; [exact Hxy|].
      eapply Forall_impl; [exact Hy|].
      intros z Hz. now apply in_order_trans with y.
Qed.

Lemma py_sort_sorted (reverse : bool) (l : list A) :
  StronglySorted (λ a b, in_order lt key reverse a b = true) (py_sort lt key reverse l).
Proof.
  induction l as [|x l IH]; [constructor|].
  cbn. now apply insert_by_sorted.
Qed.
End PySortFacts.

Lemma Zltb_asym (x y : Z) : (x <? y)%Z = true → (y <? x)%Z = false.
Proof. rewrite Z.ltb_lt, Z.ltb_ge. lia. Qed.

Lemma Zltb_negtrans (x y z : Z) :
  (x <? y)%Z = false → (y <? z)%Z = false → (x <? z)%Z = false.
Proof. rewrite !Z.ltb_ge. lia. Qed.

(** With [reverse=True] and the size as key, the first element is a
    largest one. *)
Lemma py_sort_by_size_head (l : list (string * Z)) (f : string) (n : Z)
    (rest : list (string * Z)) :
  py_sort Z.ltb snd true l = (f, n) :: rest →
  (f, n) ∈ l ∧ ∀ g k, (g, k) ∈ l → (k ≤ n)%Z.
Proof.
  intros E.
  pose proof (py_sort_perm Z.ltb snd true l) as Hp.
  pose proof (py_sort_sorted Z.ltb snd Zltb_asym Zltb_negtrans true l) as Hs.
  rewrite E in Hp, Hs. split.
  - rewrite <- Hp. apply list_elem_of_here.
  - intros g k Hin. rewrite <- Hp in Hin.
    apply elem_of_cons in Hin as [[= -> ->]|Hin]; [lia|].
    apply StronglySorted_inv in Hs as [_ Hall].
    rewrite Forall_forall in Hall. apply Hall in Hin.
    unfold in_order in Hin. cbn in Hin.
    apply negb_true_iff, Z.ltb_ge in Hin. exact Hin.
Qed.

(** ** The download handler of app.py *)

Lemma falsy_dict_with (d : gmap string string) (k v : string) :
  d !! k = Some v → falsy_dict (Some d) = false.
Proof.
  intros H. cbn. apply bool_decide_eq_false. intros ->.
  now rewrite lookup_empty in H.
Qed.

Lemma mkdtemp_run (prefix : string) (w : world) (dir : string) (rest : list string) :
  first_free prefix (names w) (tmp w) = Some (dir, rest) →
  mkdtemp prefix w =
  (inr dir, set_names rest (set_tmp (tmp w ++ [(dir, Dir (now w) [])]) w)).
Proof. intros H. unfold mkdtemp. now rewrite H. Qed.

Lemma getsize_file (dir f : string) (w : world) :
  isfile dir f (tmp w) = true →
  on_fs (getsize dir f) w = (inr (size_of (children_of dir (tmp w)) f), w).
Proof.
  unfold isfile, on_fs, getsize, size_of. intros H.
  destruct (lookup_child f (children_of dir (tmp w))) as [[n|]|]; try discriminate.
  now rewrite set_tmp_id.
Qed.

Lemma map_m_getsize (dir : string) (files : list string) (w : world) :
  Forall (λ f, isfile dir f (tmp w) = true) files →
  map_m (λ f, n ← on_fs (getsize dir f); mret (f, n)) files w =
  (inr (map (λ f, (f, size_of (children_of dir (tmp w)) f)) files), w).
Proof.
  induction 1 as [|f files Hf _ IH]; [reflexivity|].
  cbn [map_m map]. rewrite !bind_run, (getsize_file _ _ _ Hf), ret_run.
  now rewrite bind_run, IH.
Qed.

Lemma isfile_filter (dir : string) (fs : tmpfs) (listing : list string) :
  Forall (λ f, isfile dir f fs = true) (filter (λ f, isfile dir f fs) listing).
Proof.
  apply Forall_forall. intros f Hf. apply list_elem_of_filter in Hf as [Hf _].
  now apply Is_true_true.
Qed.

Lemma extract_info_download (ydl : collaborator) (opts : ydl_opts) (url dir template : string)
    (w : world) :
  outtmpl opts = Some (dir, template) →
  extract_info ydl opts url true w =
  (result (ydl opts url true),
   set_tmp (write_children (now w) dir (written (ydl opts url true)) (tmp w))
     (set_calls (calls w ++ [(opts, url, true)]) w)).
Proof. intros H. unfold extract_info. now rewrite H. Qed.

Lemma App_download_opts_outtmpl (dir download_type quality : string) :
  outtmpl (App.download_opts dir download_type quality) = Some (dir, "%(title)s.%(ext)s").
Proof. unfold App.download_opts. now destruct (String.eqb download_type "audio"). Qed.

(** What the [try] block does once the directory exists. *)
Lemma App_download_from_run (env : App.environ) (ydl : collaborator)
    (url download_type quality dir : string) (w : world) (m : Z)
    (ch : list (string * child)) :
  lookup_entry dir (tmp w) = Some (Dir m ch) →
  let opts := App.download_opts dir download_type quality in
  let o := ydl opts url true in
  let children := ch ++ written o in
  let w2 := set_tmp (write_children (now w) dir (written o) (tmp w))
              (set_calls (calls w ++ [(opts, url, true)]) w) in
  children_of dir (tmp w2) = children ∧
  App.download_from env ydl url download_type quality dir w =
  match result o with
  | inl e => (inl e, w2)
  | inr _ =>
      match filter (λ f, isfile dir f (tmp w2)) (map fst children) with
      | [] =>
          (inr (jsonify_with
             (Error "No file was downloaded. The video might be unavailable or too large.")
             500), w2)
      | files =>
          match py_sort Z.ltb snd true (map (λ f, (f, size_of children f)) files) with
          | [] => (inl (Raise IndexError "list index out of range"), w2)
          | (filename, _) :: _ =>
              if (App.MAX_FILE_SIZE env <? size_of children filename)%Z then
                (inr (jsonify_with (Error (App.too_large env (size_of children filename))) 413), w2)
              else
                (inr (jsonify (SendFile dir filename filename (App.mimetype_of filename))),
                 set_threads (threads w2 ++ [cleanup_later dir]) w2)
          end
      end
  end.
Proof.
  intros Hdir opts o children w2.
  assert (lookup_entry dir (tmp w2) = Some (Dir (now w) children)) as Hl2.
  { cbn [tmp set_tmp w2]. rewrite lookup_write_children, String.eqb_refl. now rewrite Hdir. }
  assert (children_of dir (tmp w2) = children) as Hch.
  { unfold children_of. now rewrite Hl2. }
  split; [exact Hch|].
  unfold App.download_from. fold opts.
  rewrite bind_run.
  rewrite (extract_info_download ydl opts url dir _ w (App_download_opts_outtmpl _ _ _)).
  fold o. fold w2.
  destruct (result o) as [e|i]; [reflexivity|].
  rewrite bind_run. unfold on_fs at 1, listdir. rewrite Hl2, set_tmp_id.
  rewrite bind_run. unfold reads at 1.
  pose proof (isfile_filter dir (tmp w2) (map fst children)) as Hfiles.
  destruct (filter (λ f, isfile dir f (tmp w2)) (map fst children)) as [|f0 files] eqn:Ef;
    [reflexivity|].
  rewrite bind_run, (map_m_getsize dir (f0 :: files) w2 Hfiles), Hch.
  pose proof (py_sort_perm Z.ltb snd true
                (map (λ f, (f, size_of children f)) (f0 :: files))) as Hp.
  destruct (py_sort Z.ltb snd true _) as [|[filename n] sorted]; [reflexivity|].
  assert (isfile dir filename (tmp w2) = true) as Hfn.
  { assert ((filename, n) ∈ map (λ f, (f, size_of children f)) (f0 :: files)) as Hin.
    { rewrite <- Hp. apply list_elem_of_here. }
    apply list_elem_of_fmap in Hin as (f & [= -> _] & Hin).
    rewrite Forall_forall in Hfiles. now apply Hfiles. }
  rewrite bind_run, (getsize_file dir filename w2 Hfn), Hch.
  destruct (App.MAX_FILE_SIZE env <? size_of children filename)%Z; reflexivity.
Qed.

Lemma App_download_failed_run (dir : string) (e : exn) (w : world) (m : Z)
    (ch : list (string * child)) :
  startswith dir "yt_download_" = true →
  lookup_entry dir (tmp w) = Some (Dir m ch) →
  App.download_failed (Some dir) e w =
  (inr (if is_DownloadError e
        then jsonify_with (Error ("Download failed: " +:+ str e)) 400
        else jsonify_with (Error ("Server error: " +:+ str e)) 500),
   set_tmp (remove_entry dir (tmp w)) w).
Proof.
  intros Hpre Hl. unfold App.download_failed.
  rewrite bind_run. unfold reads at 1. rewrite bind_run.
  assert (falsy_str (Some dir) = false) as ->.
  { cbn. destruct dir; [discriminate|reflexivity]. }
  cbn [negb andb default from_option]. unfold id, path_exists. rewrite Hl.
  unfold on_fs, rmtree. rewrite Hl.
  now destruct (is_DownloadError e).
Qed.

Lemma App_download_failed_None (e : exn) (w : world) :
  App.download_failed None e w =
  (inr (if is_DownloadError e
        then jsonify_with (Error ("Download failed: " +:+ str e)) 400
        else jsonify_with (Error ("Server error: " +:+ str e)) 500), w).
Proof. unfold App.download_failed. cbn. now destruct (is_DownloadError e). Qed.

(** The handlers of the two [except] clauses never raise and start no
    thread. *)
Lemma App_download_failed_ok (temp_dir : option string) (e : exn) (w : world) :
  ∃ resp w', App.download_failed temp_dir e w = (inr resp, w') ∧
    threads w' = threads w ∧ calls w' = calls w ∧ status resp ≠ 200%Z ∧
    (∃ msg, payload resp = Error msg) ∧
    (is_DownloadError e = true →
       resp = jsonify_with (Error ("Download failed: " +:+ str e)) 400).
Proof.
  unfold App.download_failed.
  rewrite bind_run. unfold reads at 1. rewrite bind_run.
  destruct (negb (falsy_str temp_dir) && path_exists (default "" temp_dir) (tmp w)).
  - destruct (rmtree_quiet_ok (default "" temp_dir) (tmp w)) as (fs' & E & _).
    unfold on_fs. rewrite E.
    destruct (is_DownloadError e); do 2 eexists; (split; [reflexivity|]);
      cbn; repeat split; (discriminate || congruence || eauto).
  - destruct (is_DownloadError e); do 2 eexists; (split; [reflexivity|]);
      cbn; repeat split; (discriminate || congruence || eauto).
Qed.

Lemma host_check_nonempty (url : string) :
  contains "youtube.com" url || contains "youtu.be" url = true →
  falsy_str (Some url) = false.
Proof. destruct url; [discriminate|reflexivity]. Qed.

(** Once the request is accepted and [mkdtemp] has made [dir]. *)
Lemma App_download_video_run (env : App.environ) (ydl : collaborator)
    (d : gmap string string) (url : string) (w : world) (dir : string)
    (rest : list string) :
  d !! "url" = Some url →
  contains "youtube.com" url || contains "youtu.be" url = true →
  first_free "yt_download_" (names w) (tmp w) = Some (dir, rest) →
  App.download_video env ydl (Some d) w =
  match App.download_from env ydl url
          (default "video" (d !! "type")) (default "best" (d !! "quality")) dir
          (set_names rest (set_tmp (tmp w ++ [(dir, Dir (now w) [])]) w)) with
  | (inl e, w2) => App.download_failed (Some dir) e w2
  | r => r
  end.
Proof.
  intros Hurl Hhost Hfree. unfold App.download_video, try_except at 1.
  rewrite (falsy_dict_with d _ _ Hurl). cbn [mbind option_bind].
  rewrite Hurl, (host_check_nonempty url Hhost). cbn [default from_option]. unfold id.
  rewrite Hhost. cbn [negb].
  rewrite bind_run, (mkdtemp_run _ _ _ _ Hfree). unfold try_except.
  destruct (App.download_from _ _ _ _ _ _ _) as [[e|resp] w2]; [|reflexivity].
  destruct (App_download_failed_ok (Some dir) e w2) as (resp & w' & E & _).
  now rewrite E.
Qed.

Lemma mkdtemp_lookup (w : world) (dir : string) (rest : list string) :
  first_free "yt_download_" (names w) (tmp w) = Some (dir, rest) →
  lookup_entry dir (tmp (set_names rest (set_tmp (tmp w ++ [(dir, Dir (now w) [])]) w))) =
  Some (Dir (now w) []).
Proof.
  intros H. apply first_free_fresh in H as [Hnone _].
  cbn [tmp set_names set_tmp]. rewrite lookup_entry_app, Hnone.
  cbn. now rewrite String.eqb_refl.
Qed.

(** Every way a download request can go before the collaborator is
    called. *)
Lemma App_download_video_cases (env : App.environ) (ydl : collaborator)
    (data : request) (w : world) :
  (∃ msg, App.download_video env ydl data w = (inr (Response (Error msg) 400), w) ∧
          (msg = "No JSON data provided" ∨ msg = "URL is required" ∨
           msg = "Please provide a valid YouTube URL")) ∨
  (first_free "yt_download_" (names w) (tmp w) = None ∧
   App.download_video env ydl data w =
   (inr (Response (Error ("Server error: " +:+ str EEXIST)) 500), set_names [] w)) ∨
  (∃ d url dir rest,
     data = Some d ∧ d !! "url" = Some url ∧
     contains "youtube.com" url || contains "youtu.be" url = true ∧
     first_free "yt_download_" (names w) (tmp w) = Some (dir, rest)).
Proof.
  destruct (falsy_dict data) eqn:Hdata.
  { left. eexists. unfold App.download_video, try_except. rewrite Hdata. eauto. }
  destruct data as [d|]; [|discriminate].
  destruct (d !! "url") as [url|] eqn:Hurl.
  2:{ left. eexists. unfold App.download_video, try_except. rewrite Hdata.
      cbn [mbind option_bind]. rewrite Hurl. cbn. eauto. }
  destruct (falsy_str (Some url)) eqn:Hempty.
  { left. eexists. unfold App.download_video, try_except. rewrite Hdata.
    cbn [mbind option_bind]. rewrite Hurl, Hempty. eauto 6. }
  destruct (contains "youtube.com" url || contains "youtu.be" url) eqn:Hhost.
  2:{ left. eexists. unfold App.download_video, try_except. rewrite Hdata.
      cbn [mbind option_bind]. rewrite Hurl, Hempty. cbn [default from_option]. unfold id.
      rewrite Hhost. cbn. eauto 6. }
  destruct (first_free "yt_download_" (names w) (tmp w)) as [[dir rest]|] eqn:Hfree.
  - right. right. eauto 10.
  - right. left. split; [reflexivity|].
    unfold App.download_video, try_except. rewrite Hdata.
    cbn [mbind option_bind]. rewrite Hurl, Hempty. cbn [default from_option]. unfold id.
    rewrite Hhost. cbn [negb]. rewrite bind_run. unfold mkdtemp. rewrite Hfree.
    now rewrite App_download_failed_None.
Qed.

(** ** Claims about the download endpoint *)

(** Whenever [download_video] answers with a file, that file is a
    regular file of the download directory and no regular file there is
    larger. *)
Lemma app_sent_file_is_largest (env : App.environ) (ydl : collaborator)
    (data : request) (w w' : world) (dir filename name mime : string) :
  App.download_video env ydl data w =
    (inr (Response (SendFile dir filename name mime) 200), w') →
  isfile dir filename (tmp w') = true ∧
  ∀ f, isfile dir f (tmp w') = true →
       (size_of (children_of dir (tmp w')) f ≤ size_of (children_of dir (tmp w')) filename)%Z.
Proof.
  intros Hrun.
  destruct (App_download_video_cases env ydl data w)
    as [(msg & E & _)|[(_ & E)|(d & url & dir' & rest & -> & Hurl & Hhost & Hfree)]];
    [congruence|congruence|].
  rewrite (App_download_video_run env ydl d url w dir' rest Hurl Hhost Hfree) in Hrun.
  destruct (App_download_from_run env ydl url (default "video" (d !! "type"))
              (default "best" (d !! "quality")) dir' _ _ _ (mkdtemp_lookup w dir' rest Hfree))
    as [Hch Hfrom].
  cbn zeta in Hch, Hfrom. rewrite Hfrom in Hrun. clear Hfrom.
  set (w1 := set_names rest _) in *.
  set (opts := App.download_opts _ _ _) in *.
  set (o := ydl opts url true) in *.
  set (w2 := set_tmp (write_children _ _ _ _) _) in *.
  destruct (result o) as [e|i]; cbv beta iota in Hrun.
  { destruct (App_download_failed_ok (Some dir') e w2) as (resp & w3 & E & _ & _ & Hst & _).
    rewrite E in Hrun. injection Hrun as -> _. now cbn in Hst. }
  destruct (filter _ _) as [|f0 files] eqn:Ef; [discriminate|].
  destruct (py_sort _ _ _ _) as [|[fn n] sorted] eqn:Es; cbv beta iota in Hrun.
  { destruct (App_download_failed_ok (Some dir') (Raise IndexError "list index out of range") w2)
      as (resp & w3 & E & _ & _ & Hst & _).
    rewrite E in Hrun. injection Hrun as -> _. now cbn in Hst. }
  destruct (_ <? _)%Z; [discriminate|].
  injection Hrun as <- <- _ _ <-.
  change (tmp (set_threads _ w2)) with (tmp w2). rewrite Hch.
  apply py_sort_by_size_head in Es as [Hin Hmax].
  apply list_elem_of_fmap in Hin as (f & [= -> ->] & Hin).
  rewrite <- Ef in Hin. apply list_elem_of_filter in Hin as [Hfile Hlist].
  split; [now apply Is_true_true|].
  intros g Hg. apply (Hmax g).
  apply list_elem_of_fmap. exists g. split; [reflexivity|].
  rewrite <- Ef. apply list_elem_of_filter. split; [now apply Is_true_true|].
  unfold isfile in Hg. rewrite Hch in Hg.
  destruct (lookup_child g _) as [c|] eqn:El; [|discriminate].
  clear -El. induction (_ ++ _) as [|[n c'] l IH]; [discriminate|].
  cbn in *. destruct (String.eqb_spec n g) as [->|]; [left|right; auto].
Qed.

Lemma lookup_child_listed (f : string) (c : child) (children : list (string * child)) :
  lookup_child f children = Some c → f ∈ map fst children.
Proof.
  induction children as [|[n c'] l IH]; [discriminate|].
  cbn. destruct (String.eqb_spec n f) as [->|]; [left|right; auto].
Qed.

(** C2 (as amended, app.py).  Take a request the handler accepts, a
    directory [dir] made for it, and a collaborator that returns after
    leaving at least one regular file in [dir], none above the size
    limit.  Then the answer is a file of [dir], sent under its own
    name: a regular file of the directory as the collaborator left it,
    and no regular file there is larger. *)
Theorem app_download_sends_largest_file (env : App.environ) (ydl : collaborator)
    (d : gmap string string) (url dir : string) (rest : list string) (i : info)
    (w : world) :
  d !! "url" = Some url →
  contains "youtube.com" url || contains "youtu.be" url = true →
  first_free "yt_download_" (names w) (tmp w) = Some (dir, rest) →
  let o := ydl (App.download_opts dir (default "video" (d !! "type"))
                  (default "best" (d !! "quality"))) url true in
  result o = inr i →
  (∃ f n, lookup_child f (written o) = Some (CFile n)) →
  (∀ f n, lookup_child f (written o) = Some (CFile n) → (n ≤ App.MAX_FILE_SIZE env)%Z) →
  ∃ filename w',
    App.download_video env ydl (Some d) w =
      (inr (Response (SendFile dir filename filename (App.mimetype_of filename)) 200), w') ∧
    children_of dir (tmp w') = written o ∧
    isfile dir filename (tmp w') = true ∧
    ∀ f, isfile dir f (tmp w') = true →
         (size_of (written o) f ≤ size_of (written o) filename)%Z.
Proof.
  intros Hurl Hhost Hfree o Hres [f1 [n1 Hf1]] Hlimit.
  pose proof (App_download_video_run env ydl d url w dir rest Hurl Hhost Hfree) as Hrun.
  destruct (App_download_from_run env ydl url (default "video" (d !! "type"))
              (default "best" (d !! "quality")) dir _ _ _ (mkdtemp_lookup w dir rest Hfree))
    as [Hch Hfrom].
  cbn zeta in Hch, Hfrom. rewrite Hfrom in Hrun. clear Hfrom.
  fold o in Hrun, Hch. rewrite Hres in Hrun. cbn [app] in Hrun, Hch.
  set (w2 := set_tmp (write_children _ _ _ _) _) in *.
  assert (∀ f, isfile dir f (tmp w2) = true ↔ ∃ n, lookup_child f (written o) = Some (CFile n))
    as Hfile.
  { intros f. unfold isfile. rewrite Hch.
    destruct (lookup_child f (written o)) as [[n|]|]; split; eauto;
      try discriminate; intros [n [=]]. }
  destruct (filter _ _) as [|f0 files] eqn:Ef.
  { assert (f1 ∈ filter (λ f, isfile dir f (tmp w2)) (map fst (written o))) as Hin.
    { apply list_elem_of_filter. split.
      - apply Is_true_true, Hfile. eauto.
      - eapply lookup_child_listed; eauto. }
    rewrite Ef in Hin. now apply elem_of_nil in Hin. }
  destruct (py_sort _ _ _ _) as [|[fn n] sorted] eqn:Es.
  { pose proof (py_sort_perm Z.ltb snd true
                  (map (λ f, (f, size_of (written o) f)) (f0 :: files))) as Hp.
    rewrite Es in Hp. apply Permutation_nil_l in Hp. discriminate. }
  apply py_sort_by_size_head in Es as [Hin Hmax].
  apply list_elem_of_fmap in Hin as (f & [= -> ->] & Hin).
  rewrite <- Ef in Hin. apply list_elem_of_filter in Hin as [Hfn Hlisted].
  apply Is_true_true in Hfn.
  destruct (proj1 (Hfile f) Hfn) as [n Hn].
  assert (size_of (written o) f = n) as Hsize by (unfold size_of; now rewrite Hn).
  destruct (Z.ltb_spec (App.MAX_FILE_SIZE env) (size_of (written o) f)) as [Hbig|_].
  { specialize (Hlimit f n Hn). lia. }
  exists f. eexists. split; [exact Hrun|].
  change (tmp (set_threads _ w2)) with (tmp w2).
  split; [exact Hch|]. split; [exact Hfn|].
  intros g Hg. apply (Hmax g).
  apply list_elem_of_fmap. exists g. split; [reflexivity|].
  rewrite <- Ef. apply list_elem_of_filter. split; [now apply Is_true_true|].
  apply Hfile in Hg as [k Hk]. eapply lookup_child_listed; eauto.
Qed.

Lemma app_download_sends_largest_file_witness :
  (App.download_video App.default_environ Sample.two_files
     (Sample.post "https://youtu.be/dQw4") Sample.idle).1 =
  inr (Response (SendFile "yt_download_k3x9" "clip.mp4" "clip.mp4" "video/mp4") 200).
Proof.
  destruct (app_download_sends_largest_file App.default_environ Sample.two_files
              {[ "url" := "https://youtu.be/dQw4" ]} "https://youtu.be/dQw4"
              "yt_download_k3x9" [] Sample.no_info Sample.idle)
    as (filename & w' & E & _);
    [ vm_compute; reflexivity | vm_compute; reflexivity | vm_compute; reflexivity
    | reflexivity
    | exists "clip.mp4", 1000%Z; reflexivity
    | | ].
  - intros f n. cbn [written Sample.two_files lookup_child].
    destruct (String.eqb "clip.jpg" f); [intros [= <-]; vm_compute; discriminate|].
    destruct (String.eqb "clip.mp4" f); [intros [= <-]; vm_compute; discriminate|].
    discriminate.
  - unfold Sample.post. rewrite E. vm_compute in E. injection E as <- _. reflexivity.
Defined.

(** C2, as stated, fails on backend/app.py: the first listed file is
    sent although a larger one lies next to it. *)
Lemma backend_download_sends_first_file :
  let w' :=
    {| now := 10000;
       tmp := [("yt_download_k3x9",
                Dir 10000 [("clip.jpg", CFile 7); ("clip.mp4", CFile 1000)])];
       names := [];
       threads := [cleanup_later "yt_download_k3x9"];
       calls := [(Backend.download_opts "yt_download_k3x9" "video" "best",
                  "https://youtu.be/dQw4", true)] |} in
  Backend.download_video Sample.two_files (Sample.post "https://youtu.be/dQw4") Sample.idle =
    (inr (Response (SendFile "yt_download_k3x9" "clip.jpg" "clip.jpg"
                      "application/octet-stream") 200), w') ∧
  isfile "yt_download_k3x9" "clip.mp4" (tmp w') = true ∧
  (size_of (children_of "yt_download_k3x9" (tmp w')) "clip.jpg"
   < size_of (children_of "yt_download_k3x9" (tmp w')) "clip.mp4")%Z.
Proof. vm_compute. repeat split; reflexivity. Qed.

(** C4, the failing run on app.py.  The collaborator leaves a file of
    150 MB, the limit is the default 100 MB: the answer is 413, and the
    directory stays in the temp directory with no thread started to
    remove it. *)
Theorem app_oversize_leaves_directory :
  let w' :=
    {| now := 10000;
       tmp := [("yt_download_k3x9", Dir 10000 [("clip.mp4", CFile 157286400)])];
       names := [];
       threads := [];
       calls := [(App.download_opts "yt_download_k3x9" "video" "best",
                  "https://youtu.be/dQw4", true)] |} in
  App.download_video App.default_environ Sample.big_file
    (Sample.post "https://youtu.be/dQw4") Sample.idle =
    (inr (Response (Error "File too large (150.0MB). Max allowed: 100.0MB") 413), w') ∧
  is_dir "yt_download_k3x9" (tmp w') = true ∧
  threads w' = [].
Proof. vm_compute. repeat split; reflexivity. Qed.

(** On the same request backend/app.py answers 413 too and starts
    [cleanup_later] for the directory. *)
Lemma backend_oversize_schedules_cleanup :
  Backend.download_video Sample.big_file (Sample.post "https://youtu.be/dQw4") Sample.idle =
  (inr (Response (Error "File too large for web download") 413),
   {| now := 10000;
      tmp := [("yt_download_k3x9", Dir 10000 [("clip.mp4", CFile 157286400)])];
      names := [];
      threads := [cleanup_later "yt_download_k3x9"];
      calls := [(Backend.download_opts "yt_download_k3x9" "video" "best",
                 "https://youtu.be/dQw4", true)] |}).
Proof. vm_compute. reflexivity. Qed.

(** C5 (as amended, app.py).  When yt-dlp raises [DownloadError] after
    the directory was made, the answer is 400 with the message of the
    exception, the directory is gone when the handler returns, nothing
    else in the temp directory is touched and no thread is started. *)
Theorem app_download_error_removes_directory (env : App.environ) (ydl : collaborator)
    (d : gmap string string) (url dir : string) (rest : list string) (e : exn) (w : world) :
  d !! "url" = Some url →
  contains "youtube.com" url || contains "youtu.be" url = true →
  first_free "yt_download_" (names w) (tmp w) = Some (dir, rest) →
  result (ydl (App.download_opts dir (default "video" (d !! "type"))
                 (default "best" (d !! "quality"))) url true) = inl e →
  cls e = DownloadError →
  ∃ w', App.download_video env ydl (Some d) w =
          (inr (Response (Error ("Download failed: " +:+ str e)) 400), w') ∧
        lookup_entry dir (tmp w') = None ∧
        (∀ other, other ≠ dir → lookup_entry other (tmp w') = lookup_entry other (tmp w)) ∧
        threads w' = threads w.
Proof.
  intros Hurl Hhost Hfree Hres Hcls.
  rewrite (App_download_video_run env ydl d url w dir rest Hurl Hhost Hfree).
  destruct (App_download_from_run env ydl url (default "video" (d !! "type"))
              (default "best" (d !! "quality")) dir _ _ _ (mkdtemp_lookup w dir rest Hfree))
    as [Hch Hfrom].
  cbn zeta in Hch, Hfrom. rewrite Hfrom, Hres. clear Hfrom.
  set (w1 := set_names rest _) in *.
  set (w2 := set_tmp (write_children _ _ _ _) _) in *.
  pose proof (first_free_fresh _ _ _ _ _ Hfree) as [Hnone Hpre].
  assert (lookup_entry dir (tmp w2) = Some (Dir (now w) ([] ++ written
            (ydl (App.download_opts dir (default "video" (d !! "type"))
                    (default "best" (d !! "quality"))) url true)))) as Hl2.
  { subst w2 w1. cbn [tmp set_tmp set_names set_calls now].
    rewrite lookup_write_children, String.eqb_refl, lookup_entry_app, Hnone.
    cbn. now rewrite String.eqb_refl. }
  rewrite (App_download_failed_run dir e w2 _ _ Hpre Hl2).
  assert (is_DownloadError e = true) as -> by (unfold is_DownloadError; now rewrite Hcls).
  eexists. split; [reflexivity|]. cbn [tmp set_tmp threads].
  split; [apply lookup_remove_eq|]. split; [|reflexivity].
  intros other Hne. rewrite lookup_remove_ne by congruence.
  subst w2 w1. cbn [tmp set_tmp set_names set_calls now].
  rewrite lookup_write_children.
  destruct (String.eqb_spec other dir); [contradiction|].
  rewrite lookup_entry_app. destruct (lookup_entry other (tmp w)); [reflexivity|].
  cbn. now destruct (String.eqb_spec dir other); [congruence|].
Qed.

Lemma app_download_error_removes_directory_witness :
  (App.download_video App.default_environ Sample.unavailable
     (Sample.post "https://youtu.be/dQw4") Sample.littered).1 =
    inr (Response (Error "Download failed: ERROR: Video unavailable") 400) ∧
  lookup_entry "yt_download_k3x9"
    (tmp (App.download_video App.default_environ Sample.unavailable
            (Sample.post "https://youtu.be/dQw4") Sample.littered).2) = None.
Proof.
  destruct (app_download_error_removes_directory App.default_environ Sample.unavailable
              {[ "url" := "https://youtu.be/dQw4" ]} "https://youtu.be/dQw4"
              "yt_download_k3x9" [] (Raise DownloadError "ERROR: Video unavailable")
              Sample.littered) as (w' & E & Hgone & _);
    [vm_compute; reflexivity..|].
  unfold Sample.post. rewrite E. split; [reflexivity|exact Hgone].
Defined.

(** C5, as stated, fails on backend/app.py: the same failure is answered
    with 500, and the directory is still there when the handler returns
    (only [cleanup_later] has been started for it). *)
Lemma backend_download_error_is_500 :
  let w' :=
    {| now := 10000;
       tmp := [("yt_download_k3x9", Dir 10000 [("clip.mp4.part", CFile 12)])];
       names := [];
       threads := [cleanup_later "yt_download_k3x9"];
       calls := [(Backend.download_opts "yt_download_k3x9" "video" "best",
                  "https://youtu.be/dQw4", true)] |} in
  Backend.download_video Sample.unavailable (Sample.post "https://youtu.be/dQw4") Sample.idle =
    (inr (Response (Error "ERROR: Video unavailable") 500), w') ∧
  is_dir "yt_download_k3x9" (tmp w') = true.
Proof. vm_compute. split; reflexivity. Qed.

(** C7 (as amended, app.py).  Every download request is answered; a
    request answered with a file has started exactly one thread, the
    [cleanup_later] of the directory made for it, and any other answer
    has started none.  That thread sleeps 60 seconds and then removes
    the directory, without raising whatever it finds. *)
Theorem app_cleanup_thread_iff_success (env : App.environ) (ydl : collaborator)
    (data : request) (w : world) :
  (∃ resp w',
     App.download_video env ydl data w = (inr resp, w') ∧
     match payload resp with
     | SendFile dir _ _ _ =>
         status resp = 200%Z ∧
         threads w' = threads w ++ [cleanup_later dir] ∧
         lookup_entry dir (tmp w) = None ∧
         is_dir dir (tmp w') = true
     | _ => status resp ≠ 200%Z ∧ threads w' = threads w
     end) ∧
  (∀ dir w1, ∃ w2,
     run_thread (cleanup_later dir) w1 = (inr tt, w2) ∧
     now w2 = (now w1 + 60)%Z ∧
     (is_dir dir (tmp w1) = true → lookup_entry dir (tmp w2) = None) ∧
     (∀ other, other ≠ dir → lookup_entry other (tmp w2) = lookup_entry other (tmp w1))).
Proof.
  split.
  2:{ intros dir w1. rewrite cleanup_later_run. eexists. split; [reflexivity|].
      destruct (rmtree_quiet_ok dir (tmp w1)) as (fs' & E & Hdel & _ & Hoth).
      rewrite E. cbn. auto. }
  destruct (App_download_video_cases env ydl data w)
    as [(msg & E & _)|[(_ & E)|(d & url & dir & rest & -> & Hurl & Hhost & Hfree)]].
  { rewrite E. do 2 eexists. split; [reflexivity|]. cbn. split; [discriminate|reflexivity]. }
  { rewrite E. do 2 eexists. split; [reflexivity|]. cbn. split; [discriminate|reflexivity]. }
  rewrite (App_download_video_run env ydl d url w dir rest Hurl Hhost Hfree).
  destruct (App_download_from_run env ydl url (default "video" (d !! "type"))
              (default "best" (d !! "quality")) dir _ _ _ (mkdtemp_lookup w dir rest Hfree))
    as [Hch Hfrom].
  cbn zeta in Hch, Hfrom. rewrite Hfrom. clear Hfrom.
  set (w1 := set_names rest _) in *.
  set (opts := App.download_opts _ _ _) in *.
  set (o := ydl opts url true) in *.
  set (w2 := set_tmp (write_children _ _ _ _) _) in *.
  assert (threads w2 = threads w) as Hth by reflexivity.
  assert (∀ e, ∃ resp w',
            App.download_failed (Some dir) e w2 = (inr resp, w') ∧
            match payload resp with
            | SendFile dir _ _ _ =>
                status resp = 200%Z ∧ threads w' = threads w ++ [cleanup_later dir] ∧
                lookup_entry dir (tmp w) = None ∧ is_dir dir (tmp w') = true
            | _ => status resp ≠ 200%Z ∧ threads w' = threads w
            end) as Hfail.
  { intros e.
    destruct (App_download_failed_ok (Some dir) e w2)
      as (resp & w3 & E & Ht & _ & Hst & [msg Hmsg] & _).
    exists resp, w3. split; [exact E|]. rewrite Hmsg. split; congruence. }
  destruct (result o) as [e|i]; [apply Hfail|].
  destruct (filter _ _) as [|f0 files] eqn:Ef.
  { do 2 eexists. split; [reflexivity|]. cbn. split; [discriminate|reflexivity]. }
  destruct (py_sort _ _ _ _) as [|[fn n] sorted] eqn:Es; [apply Hfail|].
  destruct (_ <? _)%Z.
  { do 2 eexists. split; [reflexivity|]. cbn. split; [discriminate|reflexivity]. }
  do 2 eexists. split; [reflexivity|]. cbn [payload status jsonify threads set_threads tmp].
  repeat split.
  - now apply first_free_fresh in Hfree.
  - unfold is_dir. subst w2 w1. cbn [tmp set_tmp set_names set_calls now].
    rewrite lookup_write_children, String.eqb_refl, lookup_entry_app.
    apply first_free_fresh in Hfree as [-> _]. cbn. now rewrite String.eqb_refl.
Qed.

(** C7, as stated, fails on backend/app.py: the [finally] clause starts
    [cleanup_later] for a download that failed. *)
Lemma backend_cleanup_thread_on_failure :
  let run := Backend.download_video Sample.unavailable
               (Sample.post "https://youtu.be/dQw4") Sample.idle in
  run.1 = inr (Response (Error "ERROR: Video unavailable") 500) ∧
  threads run.2 = [cleanup_later "yt_download_k3x9"].
Proof. vm_compute. split; reflexivity. Qed.

(** ** The download handler of backend/app.py *)

Lemma Backend_download_opts_outtmpl (dir download_type quality : string) :
  outtmpl (Backend.download_opts dir download_type quality) = Some (dir, "%(title)s.%(ext)s").
Proof. unfold Backend.download_opts. now destruct (String.eqb download_type "audio"). Qed.

Lemma Backend_download_from_run (ydl : collaborator)
    (url download_type quality dir : string) (w : world) (m : Z)
    (ch : list (string * child)) :
  lookup_entry dir (tmp w) = Some (Dir m ch) →
  let opts := Backend.download_opts dir download_type quality in
  let o := ydl opts url true in
  let children := ch ++ written o in
  let w2 := set_tmp (write_children (now w) dir (written o) (tmp w))
              (set_calls (calls w ++ [(opts, url, true)]) w) in
  children_of dir (tmp w2) = children ∧
  Backend.download_from ydl url download_type quality dir w =
  match result o with
  | inl e => (inl e, w2)
  | inr _ =>
      match filter (λ f, isfile dir f (tmp w2)) (map fst children) with
      | [] => (inr (jsonify_with (Error "No file was downloaded") 500), w2)
      | filename :: _ =>
          if (100 * 1024 * 1024 <? size_of children filename)%Z then
            (inr (jsonify_with (Error "File too large for web download") 413), w2)
          else
            (inr (jsonify (SendFile dir filename filename "application/octet-stream")), w2)
      end
  end.
Proof.
  intros Hdir opts o children w2.
  assert (lookup_entry dir (tmp w2) = Some (Dir (now w) children)) as Hl2.
  { cbn [tmp set_tmp w2]. rewrite lookup_write_children, String.eqb_refl. now rewrite Hdir. }
  assert (children_of dir (tmp w2) = children) as Hch.
  { unfold children_of. now rewrite Hl2. }
  split; [exact Hch|].
  unfold Backend.download_from. fold opts.
  rewrite bind_run.
  rewrite (extract_info_download ydl opts url dir _ w (Backend_download_opts_outtmpl _ _ _)).
  fold o. fold w2.
  destruct (result o) as [e|i]; [reflexivity|].
  rewrite bind_run. unfold on_fs at 1, listdir. rewrite Hl2, set_tmp_id.
  rewrite bind_run. unfold reads at 1.
  pose proof (isfile_filter dir (tmp w2) (map fst children)) as Hfiles.
  destruct (filter (λ f, isfile dir f (tmp w2)) (map fst children)) as [|f0 files] eqn:Ef;
    [reflexivity|].
  apply Forall_cons in Hfiles as [Hf0 _].
  rewrite bind_run, (getsize_file dir f0 w2 Hf0), Hch.
  now destruct (_ <? _)%Z.
Qed.

Lemma Backend_download_video_run (ydl : collaborator) (d : gmap string string)
    (url : string) (w : world) (dir : string) (rest : list string) :
  d !! "url" = Some url →
  url ≠ "" →
  first_free "yt_download_" (names w) (tmp w) = Some (dir, rest) →
  Backend.download_video ydl (Some d) w =
  match Backend.download_from ydl url
          (default "video" (d !! "type")) (default "best" (d !! "quality")) dir
          (set_names rest (set_tmp (tmp w ++ [(dir, Dir (now w) [])]) w)) with
  | (r, w2) =>
      (inr match r with
           | inl e => jsonify_with (Error (str e)) 500
           | inr resp => resp
           end,
       set_threads (threads w2 ++ [cleanup_later dir]) w2)
  end.
Proof.
  intros Hurl Hne Hfree. unfold Backend.download_video, try_except at 1.
  unfold Backend.data_get. rewrite !bind_run, !ret_run, Hurl.
  assert (falsy_str (Some url) = false) as ->.
  { cbn. now destruct (String.eqb_spec url ""). }
  cbn [default from_option]. unfold id.
  do 2 (rewrite bind_run, ret_run).
  rewrite bind_run, (mkdtemp_run _ _ _ _ Hfree). unfold try_finally, start_thread.
  now destruct (Backend.download_from _ _ _ _ _ _) as [[e|resp] w2].
Qed.

(** ** Claims about [type] and [quality] *)








(** The default of [quality_map.get] in app.py is not the entry of
    ['best']: it lacks the cap at 1080 lines. *)
Lemma app_default_format_is_not_best :
  format (App.download_opts "d" "video" "4k") = Some "best[filesize<100M]/best" ∧
  format (App.download_opts "d" "video" "best") =
    Some "best[filesize<100M]/best[height<=1080]" ∧
  format (Backend.download_opts "d" "video" "4k") =
    format (Backend.download_opts "d" "video" "best").
Proof. vm_compute. repeat split; reflexivity. Qed.

(** ** Claims about URL validation *)

(** C1 (as amended, app.py).  A URL without ['youtube.com'] and
    ['youtu.be'] is answered with 400 and an error body by
    [get_video_info] and by [download_video]; the process is left as it
    was, so yt-dlp has not been called and no directory was made. *)
Theorem app_rejects_unrecognized_host (env : App.environ) (ydl : collaborator)
    (d : gmap string string) (url : string) (w : world) :
  d !! "url" = Some url →
  contains "youtube.com" url = false →
  contains "youtu.be" url = false →
  ∃ msg,
    App.get_video_info ydl (Some d) w = (inr (Response (Error msg) 400), w) ∧
    App.download_video env ydl (Some d) w = (inr (Response (Error msg) 400), w).
Proof.
  intros Hurl H1 H2.
  unfold App.get_video_info, App.download_video, try_except.
  rewrite (falsy_dict_with d _ _ Hurl). cbn [mbind option_bind]. rewrite Hurl.
  destruct (falsy_str (Some url)); [now eexists|].
  cbn [default from_option]. unfold id. rewrite H1, H2. now eexists.
Qed.

Lemma app_rejects_unrecognized_host_witness :
  App.get_video_info Sample.two_files (Sample.post "https://vimeo.com/1") Sample.idle =
    (inr (Response (Error "Please provide a valid YouTube URL") 400), Sample.idle) ∧
  App.download_video App.default_environ Sample.two_files
    (Sample.post "https://vimeo.com/1") Sample.idle =
    (inr (Response (Error "Please provide a valid YouTube URL") 400), Sample.idle).
Proof.
  destruct (app_rejects_unrecognized_host App.default_environ Sample.two_files
              {[ "url" := "https://vimeo.com/1" ]} "https://vimeo.com/1" Sample.idle)
    as (msg & E1 & E2); [vm_compute; reflexivity..|].
  unfold Sample.post. rewrite E1, E2.
  assert (msg = "Please provide a valid YouTube URL") as ->; [|split; reflexivity].
  vm_compute in E1. congruence.
Defined.

(** C1, as stated, fails for the formats endpoint of app.py and for
    backend/app.py, which test only that the URL is not empty: yt-dlp
    is called with a URL of another site. *)
Lemma formats_and_backend_skip_host_check :
  let url := "https://vimeo.com/1" in
  contains "youtube.com" url || contains "youtu.be" url = false ∧
  (App.get_formats Sample.no_file (Sample.post url) Sample.idle).1 =
    inr (Response (Formats []) 200) ∧
  map (λ c, (c.1.2, c.2))
    (calls (App.get_formats Sample.no_file (Sample.post url) Sample.idle).2) =
    [(url, false)] ∧
  (Backend.get_video_info Sample.no_file (Sample.post url) Sample.idle).1 =
    inr (Response
           (Object [ ("title", JStr "Unknown"); ("duration", JInt 0);
                     ("uploader", JStr "Unknown"); ("view_count", JNull);
                     ("description", JStr ""); ("thumbnail", JNull);
                     ("upload_date", JNull); ("formats_available", JInt 0) ]) 200) ∧
  map (λ c, (c.1.2, c.2))
    (calls (Backend.get_video_info Sample.no_file (Sample.post url) Sample.idle).2) =
    [(url, false)] ∧
  map (λ c, (c.1.2, c.2))
    (calls (Backend.download_video Sample.no_file (Sample.post url) Sample.idle).2) =
    [(url, true)] ∧
  map (λ c, (c.1.2, c.2))
    (calls (Backend.get_formats Sample.no_file (Sample.post url) Sample.idle).2) =
    [(url, false)].
Proof. vm_compute. repeat split; reflexivity. Qed.

(** ** Claims about the metadata endpoint *)

(** C8 (as amended, app.py).  When yt-dlp returns and the title, the
    uploader and the format list are not null, the answer is a 200 with
    exactly the ten members below, in this order.  A missing key gives
    ["Unknown"] (title, uploader), [0] (duration, format count), the
    empty string (description, id), null (view count, thumbnail, upload
    date), and the URL of the request for [webpage_url]. *)
Theorem app_video_info_members (ydl : collaborator) (d : gmap string string)
    (url : string) (i : info) (w : world) :
  d !! "url" = Some url →
  contains "youtube.com" url || contains "youtu.be" url = true →
  (∀ opts, result (ydl opts url false) = inr i) →
  title i ≠ Null → uploader i ≠ Null → formats i ≠ Null →
  ∃ members w',
    App.get_video_info ydl (Some d) w = (inr (Response (Object members) 200), w') ∧
    map fst members =
      [ "title"; "duration"; "uploader"; "view_count"; "description"; "thumbnail";
        "upload_date"; "formats_available"; "id"; "webpage_url" ] ∧
    (title i = Missing → ("title", JStr "Unknown") ∈ members) ∧
    (duration i = Missing → ("duration", JInt 0) ∈ members) ∧
    (uploader i = Missing → ("uploader", JStr "Unknown") ∈ members) ∧
    (view_count i = Missing → ("view_count", JNull) ∈ members) ∧
    (description i = Missing → ("description", JStr "") ∈ members) ∧
    (thumbnail i = Missing → ("thumbnail", JNull) ∈ members) ∧
    (upload_date i = Missing → ("upload_date", JNull) ∈ members) ∧
    (formats i = Missing → ("formats_available", JInt 0) ∈ members) ∧
    (video_id i = Missing → ("id", JStr "") ∈ members) ∧
    (webpage_url i = Missing → ("webpage_url", JStr url) ∈ members).
Proof.
  intros Hurl Hhost Hres Ht Hu Hf.
  unfold App.get_video_info, try_except.
  rewrite (falsy_dict_with d _ _ Hurl). cbn [mbind option_bind].
  rewrite Hurl, (host_check_nonempty url Hhost). cbn [default from_option]. unfold id.
  rewrite Hhost. cbn [negb].
  rewrite bind_run. unfold extract_info at 1. rewrite Hres.
  rewrite bind_run. unfold App.video_info.
  assert (∃ t, get_or (title i) "Unknown" = Some t ∧ (title i = Missing → strip t = "Unknown"))
    as (t & -> & Et).
  { destruct (title i); [|congruence|]; eexists; (split; [reflexivity|]); [reflexivity|discriminate]. }
  assert (∃ u, get_or (uploader i) "Unknown" = Some u ∧
               (uploader i = Missing → strip u = "Unknown")) as (u & -> & Eu).
  { destruct (uploader i); [|congruence|]; eexists; (split; [reflexivity|]); [reflexivity|discriminate]. }
  assert (∃ l, get_or (formats i) [] = Some l ∧ (formats i = Missing → l = [])) as (l & -> & El).
  { destruct (formats i); [|congruence|]; eexists; (split; [reflexivity|]); [reflexivity|discriminate]. }
  cbn [App.strip_of App.len_of]. rewrite !bind_run, !ret_run. cbn iota.
  rewrite !bind_run, !ret_run. cbn iota.
  do 2 eexists. split; [reflexivity|]. split; [reflexivity|].
  repeat split; intros E; try rewrite E; cbn [get get_or json_int json_str];
    rewrite ?(Et E), ?(Eu E), ?(El E); cbn [length Z.of_nat];
    repeat (first [apply list_elem_of_here | apply list_elem_of_further]).
Qed.

Lemma app_video_info_members_witness :
  (App.get_video_info Sample.no_file (Sample.post "https://youtu.be/dQw4") Sample.idle).1 =
  inr (Response
         (Object [ ("title", JStr "Unknown"); ("duration", JInt 0);
                   ("uploader", JStr "Unknown"); ("view_count", JNull);
                   ("description", JStr ""); ("thumbnail", JNull);
                   ("upload_date", JNull); ("formats_available", JInt 0);
                   ("id", JStr ""); ("webpage_url", JStr "https://youtu.be/dQw4") ]) 200).
Proof.
  destruct (app_video_info_members Sample.no_file {[ "url" := "https://youtu.be/dQw4" ]}
              "https://youtu.be/dQw4" Sample.no_info Sample.idle)
    as (members & w' & E & _);
    [ vm_compute; reflexivity | vm_compute; reflexivity | intros opts; reflexivity
    | discriminate | discriminate | discriminate | ].
  unfold Sample.post. rewrite E. vm_compute in E. injection E as <- _. reflexivity.
Defined.

(** C8, as stated, fails in three ways: a missing [webpage_url] is
    answered with the URL of the request; a null title makes app.py
    answer 500; backend/app.py answers with eight members, without
    [id] and [webpage_url]. *)
Lemma video_info_defaults_differ :
  let url := "https://youtu.be/dQw4" in
  (App.get_video_info Sample.no_file (Sample.post url) Sample.idle).1 =
    inr (Response
           (Object [ ("title", JStr "Unknown"); ("duration", JInt 0);
                     ("uploader", JStr "Unknown"); ("view_count", JNull);
                     ("description", JStr ""); ("thumbnail", JNull);
                     ("upload_date", JNull); ("formats_available", JInt 0);
                     ("id", JStr ""); ("webpage_url", JStr url) ]) 200) ∧
  (App.get_video_info Sample.null_title (Sample.post url) Sample.idle).1 =
    inr (Response (Error "Server error: 'NoneType' object has no attribute 'strip'") 500) ∧
  (Backend.get_video_info Sample.no_file (Sample.post url) Sample.idle).1 =
    inr (Response
           (Object [ ("title", JStr "Unknown"); ("duration", JInt 0);
                     ("uploader", JStr "Unknown"); ("view_count", JNull);
                     ("description", JStr ""); ("thumbnail", JNull);
                     ("upload_date", JNull); ("formats_available", JInt 0) ]) 200).
Proof. vm_compute. repeat split; reflexivity. Qed.

(** ** The format list of app.py *)

Lemma sort_key_lt_asym (x y : bool * Z) :
  pair_lt bool_lt Bool.eqb Z.ltb x y = true → pair_lt bool_lt Bool.eqb Z.ltb y x = false.
Proof.
  destruct x as [[] a], y as [[] b]; unfold pair_lt, bool_lt; cbn;
    rewrite ?Z.ltb_lt, ?Z.ltb_ge; try discriminate; try reflexivity; lia.
Qed.

Lemma sort_key_lt_negtrans (x y z : bool * Z) :
  pair_lt bool_lt Bool.eqb Z.ltb x y = false →
  pair_lt bool_lt Bool.eqb Z.ltb y z = false →
  pair_lt bool_lt Bool.eqb Z.ltb x z = false.
Proof.
  destruct x as [[] a], y as [[] b], z as [[] c]; unfold pair_lt, bool_lt; cbn;
    rewrite ?Z.ltb_ge; try discriminate; try reflexivity; lia.
Qed.

Lemma StronglySorted_lookup {A} (R : A → A → Prop) (l : list A) :
  StronglySorted R l →
  ∀ m n a b, (m < n)%nat → l !! m = Some a → l !! n = Some b → R a b.
Proof.
  induction 1 as [|x l Hs IH Hx]; intros m n a b Hmn Ha Hb; [discriminate|].
  destruct n as [|n]; [lia|]. cbn in Hb. destruct m as [|m].
  - injection Ha as <-. rewrite Forall_forall in Hx. apply Hx.
    eapply list_elem_of_lookup_2; eauto.
  - cbn in Ha. eapply IH; [|eauto..]. lia.
Qed.

Lemma find_snoc {A} (p : A → bool) (l : list A) (x : A) :
  find p (l ++ [x]) =
  match find p l with
  | Some y => Some y
  | None => if p x then Some x else None
  end.
Proof.
  induction l as [|y l IH]; cbn; [reflexivity|]. now destruct (p y).
Qed.

Lemma find_none_iff {A} (p : A → bool) (l : list A) :
  find p l = None ↔ ∀ x, x ∈ l → p x = false.
Proof.
  induction l as [|y l IH]; cbn.
  - split; [intros _ x Hx; now apply elem_of_nil in Hx|reflexivity].
  - destruct (p y) eqn:E.
    + split; [discriminate|]. intros H. specialize (H y (list_elem_of_here _ _)). congruence.
    + rewrite IH. split.
      * intros H x Hx. apply elem_of_cons in Hx as [->|Hx]; auto.
      * intros H x Hx. apply H. now apply list_elem_of_further.
Qed.

(** The loop keeps, in order, the first format of every key. *)
Lemma App_collect_firsts (raw : list fmt) :
  ∃ firsts,
    foldl App.collect ([], ∅) raw =
      (map App.entry_of firsts, list_to_set (map App.format_key raw)) ∧
    sublist firsts raw ∧
    NoDup (map App.format_key firsts) ∧
    (∀ f, f ∈ raw → App.format_key f ∈ map App.format_key firsts) ∧
    (∀ f, f ∈ firsts →
       find (λ g, bool_decide (App.format_key g = App.format_key f)) raw = Some f).
Proof.
  induction raw as [|f raw (firsts & E & Hsub & Hnd & Hcov & Hfirst)] using rev_ind.
  { exists []. cbn. repeat split; [constructor|constructor|..];
      intros f Hf; now apply elem_of_nil in Hf. }
  rewrite foldl_app. cbn [foldl]. rewrite E. unfold App.collect at 1. cbn [fst snd].
  rewrite map_app. cbn [map]. rewrite list_to_set_app_L. cbn [list_to_set].
  case_bool_decide as Hseen.
  - exists firsts. split.
    { f_equal. rewrite union_empty_r_L. apply set_eq. intros k.
      rewrite elem_of_union, elem_of_singleton. split; [auto|]. now intros [?| ->]. }
    split; [now apply sublist_inserts_r|]. split; [exact Hnd|].
    apply elem_of_list_to_set, list_elem_of_fmap in Hseen as (g & Hk & Hg).
    split.
    + intros h Hh. apply elem_of_app in Hh as [Hh|Hh]; [now apply Hcov|].
      apply list_elem_of_singleton in Hh as ->. rewrite Hk. now apply Hcov.
    + intros h Hh. rewrite find_snoc. now rewrite (Hfirst h Hh).
  - exists (firsts ++ [f]). rewrite map_app. split.
    { f_equal. rewrite union_empty_r_L. apply union_comm_L. }
    split; [now apply sublist_app|].
    assert (∀ h, h ∈ firsts → App.format_key h ≠ App.format_key f) as Hfresh.
    { intros h Hh Hk. apply Hseen, elem_of_list_to_set, list_elem_of_fmap.
      exists h. split; [now symmetry|]. eapply elem_of_sublist; eauto. }
    split.
    { rewrite map_app. apply NoDup_app. split; [exact Hnd|]. split; [|apply NoDup_singleton].
      intros k Hk Hk'. apply list_elem_of_singleton in Hk' as ->.
      apply list_elem_of_fmap in Hk as (h & Hkh & Hh). now apply (Hfresh h). }
    split.
    + intros h Hh. rewrite map_app, elem_of_app.
      apply elem_of_app in Hh as [Hh|Hh]; [left; now apply Hcov|right].
      apply list_elem_of_singleton in Hh as ->. apply list_elem_of_here.
    + intros h Hh. rewrite find_snoc.
      apply elem_of_app in Hh as [Hh|Hh]; [now rewrite (Hfirst h Hh)|].
      apply list_elem_of_singleton in Hh as ->.
      rewrite bool_decide_eq_true_2 by reflexivity.
      assert (find (λ g, bool_decide (App.format_key g = App.format_key f)) raw = None) as ->;
        [|reflexivity].
      apply find_none_iff. intros g Hg. apply bool_decide_eq_false. intros Hk.
      apply Hseen, elem_of_list_to_set, list_elem_of_fmap. eauto.
Qed.

(** C3 (as amended, app.py).  When yt-dlp returns the format list
    [raw], the formats endpoint answers 200 with [out], where
    - [firsts] is [raw] without every format whose key (height,
      extension, kind) already occurred: it keeps the order of [raw],
      has no key twice, has every key of [raw], and each of its
      elements is the first of its key in [raw];
    - [all] is a rearrangement of the entries of [firsts] in which an
      audio entry is never followed by a video entry and, between
      entries of one kind, heights ([None] counting as [0]) never
      increase;
    - [out] is the first 20 entries of [all]. *)
Theorem app_formats_listing (ydl : collaborator) (d : gmap string string)
    (url : string) (i : info) (raw : list fmt) (w : world) :
  d !! "url" = Some url →
  url ≠ "" →
  (∀ opts, result (ydl opts url false) = inr i) →
  get_or (formats i) [] = Some raw →
  ∃ out all firsts w',
    App.get_formats ydl (Some d) w = (inr (Response (Formats out) 200), w') ∧
    sublist firsts raw ∧
    NoDup (map App.format_key firsts) ∧
    (∀ f, f ∈ raw → App.format_key f ∈ map App.format_key firsts) ∧
    (∀ f, f ∈ firsts →
       find (λ g, bool_decide (App.format_key g = App.format_key f)) raw = Some f) ∧
    all ≡ₚ map App.entry_of firsts ∧
    (∀ m n a b, (m < n)%nat → all !! m = Some a → all !! n = Some b →
       (e_type a = "audio" → e_type b = "audio") ∧
       (e_type a = e_type b → (default 0 (e_height b) ≤ default 0 (e_height a))%Z)) ∧
    out = take 20 all ∧
    (length out ≤ 20)%nat.
Proof.
  intros Hurl Hne Hres Hraw.
  destruct (App_collect_firsts raw) as (firsts & E & Hsub & Hnd & Hcov & Hfirst).
  exists (App.listed_formats raw),
    (py_sort (pair_lt bool_lt Bool.eqb Z.ltb) App.sort_key false (map App.entry_of firsts)),
    firsts.
  eexists. split.
  { unfold App.get_formats, try_except.
    rewrite (falsy_dict_with d _ _ Hurl). cbn [mbind option_bind]. rewrite Hurl.
    assert (falsy_str (Some url) = false) as ->.
    { cbn. now destruct (String.eqb_spec url ""). }
    cbn [default from_option]. unfold id.
    rewrite bind_run. unfold extract_info at 1. rewrite Hres.
    rewrite bind_run, Hraw. reflexivity. }
  split; [exact Hsub|]. split; [exact Hnd|]. split; [exact Hcov|]. split; [exact Hfirst|].
  split; [apply py_sort_perm|].
  split.
  { intros m n a b Hmn Ha Hb.
    pose proof (py_sort_sorted (pair_lt bool_lt Bool.eqb Z.ltb) App.sort_key
                  sort_key_lt_asym sort_key_lt_negtrans false (map App.entry_of firsts)) as Hs.
    pose proof (StronglySorted_lookup _ _ Hs m n a b Hmn Ha Hb) as Hab.
    unfold in_order, App.sort_key, pair_lt, bool_lt in Hab. cbn [fst snd] in Hab.
    apply negb_true_iff in Hab. split.
    - intros Ea. rewrite Ea in Hab. cbn in Hab.
      destruct (String.eqb_spec (e_type b) "audio"); [assumption|discriminate].
    - intros Eab. rewrite Eab in Hab.
      destruct (String.eqb (e_type b) "audio"); cbn in Hab;
        apply Z.ltb_ge in Hab; lia. }
  unfold App.listed_formats. rewrite E. cbn [fst].
  split; [reflexivity|]. rewrite length_take. lia.
Qed.

Lemma app_formats_listing_witness :
  (App.get_formats (Sample.lists Sample.four_formats)
     (Sample.post "https://youtu.be/dQw4") Sample.idle).1 =
  inr (Response
         (Formats (map App.entry_of
                     [ Sample.video 720 "mp4"; Sample.video 360 "mp4";
                       Sample.audio "webm" ])) 200).
Proof.
  destruct (app_formats_listing (Sample.lists Sample.four_formats)
              {[ "url" := "https://youtu.be/dQw4" ]} "https://youtu.be/dQw4"
              (Sample.info_with Sample.four_formats) Sample.four_formats Sample.idle)
    as (out & all & firsts & w' & E & _);
    [ vm_compute; reflexivity | discriminate | intros opts; reflexivity | reflexivity | ].
  unfold Sample.post. rewrite E. vm_compute in E. injection E as <- _. reflexivity.
Defined.

(** C3, as stated, fails on backend/app.py, which only drops formats
    without any codec: a key shows up twice, audio stands before video,
    360 before 720, and 21 formats come back as 21. *)
Lemma backend_formats_unsorted :
  (Backend.get_formats (Sample.lists Sample.four_formats)
     (Sample.post "https://youtu.be/dQw4") Sample.idle).1 =
    inr (Response
           (FormatRows (map Backend.row_of
                          [ Sample.audio "webm"; Sample.video 360 "mp4";
                            Sample.video 720 "mp4"; Sample.video 360 "mp4" ])) 200) ∧
  match (Backend.get_formats (Sample.lists (replicate 21 (Sample.video 720 "mp4")))
           (Sample.post "https://youtu.be/dQw4") Sample.idle).1 with
  | inr (Response (FormatRows rows) code) => code = 200%Z ∧ length rows = 21
  | _ => False
  end.
Proof. vm_compute. repeat split; reflexivity. Qed.

(** ** Claims about the two cleanup mechanisms *)



(** C6, the failing run on backend/app.py.  The temp directory holds a
    download directory of age 10000 s and one of age 1000 s.  One pass of
    backend/app.py leaves both: [unlink] raises on the old directory
    and the bare [except] ends the pass.  One pass of app.py removes the
    old one and keeps the young one. *)
Theorem backend_sweeper_keeps_old_directory :
  Backend.cleanup_old_files 1 Sample.littered =
    (inr tt,
     {| now := 10300;
        tmp := [ ("yt_download_old", Dir 0 [("clip.mp4", CFile 1000)]);
                 ("yt_download_new", Dir 9000 [("clip.mp4", CFile 1000)]) ];
        names := ["k3x9"]; threads := []; calls := [] |}) ∧
  (Backend.sweep Sample.littered).1 =
    inl (Raise IsADirectoryError "[Errno 21] Is a directory: '/tmp/yt_download_old'") ∧
  App.cleanup_old_files App.default_environ 1 Sample.littered =
    (inr tt,
     {| now := 10300;
        tmp := [ ("yt_download_new", Dir 9000 [("clip.mp4", CFile 1000)]) ];
        names := ["k3x9"]; threads := []; calls := [] |}).
Proof. vm_compute. repeat split; reflexivity. Qed.

(** * Further properties *)

(** ** The sweepers, pass by pass *)





Lemma startswith_yt_tmp (n : string) :
  startswith n "tmp" = true → startswith n "yt_download_" = false.
Proof.
  intros H. destruct (startswith n "yt_download_") eqn:E; [|reflexivity].
  apply startswith_tmp_yt in E. congruence.
Qed.






Lemma Backend_sweep_paths_other (t : Z) (matches : list string) (fs : tmpfs) (name : string) :
  name ∉ matches →
  lookup_entry name (Backend.sweep_paths t matches fs).2 = lookup_entry name fs.
Proof.
  revert fs. induction matches as [|p rest IH]; intros fs Hnin; [reflexivity|].
  rewrite Backend_sweep_paths_cons.
  apply not_elem_of_cons in Hnin as [Hne Hnin].
  destruct (lookup_entry p fs) as [[m s|m ch]|] eqn:E; [| |reflexivity].
  - rewrite IH by exact Hnin. destruct (3600 <? t - m)%Z; [|reflexivity].
    now rewrite lookup_remove_ne.
  - destruct (3600 <? t - m)%Z; [reflexivity|]. now apply IH.
Qed.

Lemma Backend_sweep_lookup_kept (w : world) (name : string) :
  startswith name "yt_download_" = false ∨ is_dir name (tmp w) = true →
  lookup_entry name (tmp (Backend.sweep w).2) = lookup_entry name (tmp w).
Proof.
  intros [Hp|Hd].
  - unfold Backend.sweep. rewrite bind_run. unfold time, reads at 1. unfold on_fs.
    rewrite bind_run. unfold reads at 1.
    pose proof (Backend_sweep_paths_other (now w) (glob "yt_download_" (tmp w)) (tmp w) name) as H.
    destruct (Backend.sweep_paths _ _ _) as [r fs']. cbn [snd tmp set_tmp] in *.
    apply H. rewrite elem_of_glob. intros [Hyt _]. congruence.
  - unfold is_dir in Hd.
    destruct (lookup_entry name (tmp w)) as [[m s|m ch]|] eqn:El; try discriminate.
    now apply Backend_sweep_keeps_dirs.
Qed.

Lemma Backend_cleanup_old_files_S (n : nat) (w : world) :
  Backend.cleanup_old_files (S n) w =
  Backend.cleanup_old_files n
    (set_now (now (Backend.sweep w).2 + 300) (Backend.sweep w).2).
Proof.
  cbn [Backend.cleanup_old_files]. rewrite !bind_run. unfold try_except.
  destruct (Backend.sweep w) as [[e|[]] w1]; cbn [snd]; rewrite ?ret_run, bind_run; reflexivity.
Qed.

(** X3.  However many turns the loop of backend/app.py's
    [cleanup_old_files] makes, every directory of the temp directory is
    still there, old or not, and so is every entry whose name does not
    start with [yt_download_]: this sweeper can only remove regular
    files named [yt_download_*]. *)
Theorem backend_sweeper_spares_directories (passes : nat) (w : world) (name : string) :
  startswith name "yt_download_" = false ∨ is_dir name (tmp w) = true →
  lookup_entry name (tmp (Backend.cleanup_old_files passes w).2) =
  lookup_entry name (tmp w).
Proof.
  revert w. induction passes as [|n IH]; intros w H; [reflexivity|].
  rewrite Backend_cleanup_old_files_S.
  pose proof (Backend_sweep_lookup_kept w name H) as Hk.
  rewrite IH; [exact Hk|].
  cbn [tmp set_now]. destruct H as [Hp|Hd]; [now left|right].
  unfold is_dir in *. now rewrite Hk.
Qed.

Lemma backend_sweeper_spares_directories_witness :
  lookup_entry "yt_download_old" (tmp (Backend.cleanup_old_files 24 Sample.littered).2) =
  lookup_entry "yt_download_old" (tmp Sample.littered).
Proof.
  apply (backend_sweeper_spares_directories 24 Sample.littered "yt_download_old").
  right. reflexivity.
Defined.

(** ** Requests without a usable URL *)

Lemma falsy_dict_falsy_url (data : request) :
  falsy_dict data = true → falsy_str (data ≫= (.!! "url")) = true.
Proof.
  destruct data as [d|]; [|reflexivity]. cbn.
  intros H. apply bool_decide_eq_true in H as ->. now rewrite lookup_empty.
Qed.

(** X4.  A request whose body is the JSON value [null] ([get_json]
    returns [None]), is the empty object, has no [url] or has the empty
    string as [url] is answered with 400 by the three POST handlers of
    app.py, and the process is left as it was.  The message is
    ['No JSON data provided'] exactly when the body is [null] or the
    empty object, and ['URL is required'] otherwise. *)
Theorem app_rejects_missing_url (env : App.environ) (ydl : collaborator)
    (data : request) (w : world) :
  falsy_str (data ≫= (.!! "url")) = true →
  ∃ msg,
    msg = (if falsy_dict data then "No JSON data provided" else "URL is required") ∧
    (falsy_dict data = true ↔ data = None ∨ data = Some ∅) ∧
    App.get_video_info ydl data w = (inr (Response (Error msg) 400), w) ∧
    App.download_video env ydl data w = (inr (Response (Error msg) 400), w) ∧
    App.get_formats ydl data w = (inr (Response (Error msg) 400), w).
Proof.
  intros Hurl. eexists. split; [reflexivity|]. split.
  { destruct data as [d|]; cbn; [|intuition].
    rewrite bool_decide_eq_true. split; [intros ->; now right|].
    intros [[=]|[= ->]]. reflexivity. }
  unfold App.get_video_info, App.download_video, App.get_formats, try_except.
  destruct (falsy_dict data); [repeat split|].
  rewrite Hurl. repeat split.
Qed.

Lemma app_rejects_missing_url_witness :
  App.download_video App.default_environ Sample.two_files
    (Some {[ "quality" := "720p" ]}) Sample.idle =
  (inr (Response (Error "URL is required") 400), Sample.idle).
Proof.
  destruct (app_rejects_missing_url App.default_environ Sample.two_files
              (Some {[ "quality" := "720p" ]}) Sample.idle) as (msg & -> & _ & _ & E & _);
    [vm_compute; reflexivity|].
  rewrite E. vm_compute. reflexivity.
Defined.

(** X5.  In backend/app.py the same requests are answered in two ways:
    a body that is an object gets 400 ['URL is required'], the empty
    object included; the body [null], for which [get_json] returns
    [None], makes [data.get] raise and gets 500 with the text of the
    [AttributeError].  The process is left as it was in both cases. *)
Theorem backend_rejects_missing_url (ydl : collaborator) (data : request) (w : world) :
  falsy_str (data ≫= (.!! "url")) = true →
  ∃ resp,
    resp = match data with
           | Some _ => Response (Error "URL is required") 400
           | None => Response (Error "'NoneType' object has no attribute 'get'") 500
           end ∧
    Backend.get_video_info ydl data w = (inr resp, w) ∧
    Backend.download_video ydl data w = (inr resp, w) ∧
    Backend.get_formats ydl data w = (inr resp, w).
Proof.
  intros Hurl. eexists. split; [reflexivity|].
  unfold Backend.get_video_info, Backend.download_video, Backend.get_formats, try_except.
  destruct data as [d|]; [|repeat split].
  cbn [mbind option_bind] in Hurl. unfold Backend.data_get.
  rewrite !bind_run, !ret_run. cbn iota. rewrite Hurl. repeat split.
Qed.

Lemma backend_rejects_missing_url_witness :
  Backend.get_formats Sample.two_files None Sample.idle =
  (inr (Response (Error "'NoneType' object has no attribute 'get'") 500), Sample.idle).
Proof.
  destruct (backend_rejects_missing_url Sample.two_files None Sample.idle)
    as (resp & -> & _ & _ & E); [reflexivity|].
  exact E.
Defined.

(** ** The metadata handlers *)

Lemma extract_info_metadata (ydl : collaborator) (opts : ydl_opts) (url : string) (w : world) :
  extract_info ydl opts url false w =
  (result (ydl opts url false), set_calls (calls w ++ [(opts, url, false)]) w).
Proof. reflexivity. Qed.

Lemma metadata_only_refl (w : world) : metadata_only w w.
Proof. unfold metadata_only. auto 10. Qed.

Lemma metadata_only_call (w : world) (opts : ydl_opts) (url : string) :
  metadata_only w (set_calls (calls w ++ [(opts, url, false)]) w).
Proof. unfold metadata_only. cbn. eauto 10. Qed.

Lemma App_video_info_state (i : info) (url : string) (w : world) :
  ∃ r, App.video_info i url w = (r, w).
Proof.
  unfold App.video_info, App.strip_of, App.len_of.
  destruct (get_or (title i) "Unknown"); [|now eexists].
  rewrite bind_run, ret_run.
  destruct (get_or (uploader i) "Unknown"); [|now eexists].
  rewrite bind_run, ret_run.
  destruct (get_or (formats i) []); now eexists.
Qed.

Lemma Backend_video_info_state (i : info) (w : world) :
  ∃ r, Backend.video_info i w = (r, w).
Proof.
  unfold Backend.video_info, Backend.len_of.
  destruct (get_or (formats i) []); now eexists.
Qed.

(** X6.  The video-info and formats handlers of both files always
    answer, and leave the clock, the temp directory, the name sequence
    and the threads as they were; yt-dlp is called at most once, with
    [download=False]. *)
Theorem metadata_handlers_never_write (ydl : collaborator) (data : request) (w : world) :
  (∃ resp w', App.get_video_info ydl data w = (inr resp, w') ∧ metadata_only w w') ∧
  (∃ resp w', App.get_formats ydl data w = (inr resp, w') ∧ metadata_only w w') ∧
  (∃ resp w', Backend.get_video_info ydl data w = (inr resp, w') ∧ metadata_only w w') ∧
  (∃ resp w', Backend.get_formats ydl data w = (inr resp, w') ∧ metadata_only w w').
Proof.
  repeat split.
  - unfold App.get_video_info, try_except.
    destruct (falsy_dict data); [eauto using metadata_only_refl|].
    destruct (falsy_str _); [eauto using metadata_only_refl|].
    destruct (negb _); [eauto using metadata_only_refl|].
    rewrite bind_run, extract_info_metadata.
    destruct (result _) as [e|i].
    { destruct (is_DownloadError e); eauto using metadata_only_call. }
    rewrite bind_run.
    match goal with
    | |- context [App.video_info ?i ?u ?w0] =>
        destruct (App_video_info_state i u w0) as [[e|b] ->]
    end.
    + destruct (is_DownloadError e); eauto using metadata_only_call.
    + eauto using metadata_only_call.
  - unfold App.get_formats, try_except.
    destruct (falsy_dict data); [eauto using metadata_only_refl|].
    destruct (falsy_str _); [eauto using metadata_only_refl|].
    rewrite bind_run, extract_info_metadata.
    destruct (result _) as [e|i]; [eauto using metadata_only_call|].
    rewrite bind_run. unfold App.iter_of.
    destruct (get_or (formats i) []); eauto using metadata_only_call.
  - unfold Backend.get_video_info, try_except, Backend.data_get.
    destruct data as [d|]; [|eauto using metadata_only_refl].
    rewrite bind_run, ret_run.
    destruct (falsy_str _); [eauto using metadata_only_refl|].
    rewrite bind_run, extract_info_metadata.
    destruct (result _) as [e|i]; [eauto using metadata_only_call|].
    rewrite bind_run.
    match goal with
    | |- context [Backend.video_info ?i ?w0] =>
        destruct (Backend_video_info_state i w0) as [[e|b] ->]
    end; eauto using metadata_only_call.
  - unfold Backend.get_formats, try_except, Backend.data_get.
    destruct data as [d|]; [|eauto using metadata_only_refl].
    rewrite bind_run, ret_run.
    destruct (falsy_str _); [eauto using metadata_only_refl|].
    rewrite bind_run, extract_info_metadata.
    destruct (result _) as [e|i]; [eauto using metadata_only_call|].
    rewrite bind_run. unfold Backend.iter_of.
    destruct (get_or (formats i) []); eauto using metadata_only_call.
Qed.

(** X7.  When yt-dlp raises on an accepted video-info request, app.py
    answers 400 with ['Video extraction failed: '] and the message for a
    [DownloadError], and 500 with ['Server error: '] and the message for
    any other exception; the call is the only trace left. *)
Theorem app_video_info_extraction_failure (ydl : collaborator) (d : gmap string string)
    (url : string) (e : exn) (w : world) :
  d !! "url" = Some url →
  contains "youtube.com" url || contains "youtu.be" url = true →
  (∀ opts, result (ydl opts url false) = inl e) →
  ∃ opts,
    App.get_video_info ydl (Some d) w =
    (inr (if is_DownloadError e
          then Response (Error ("Video extraction failed: " +:+ str e)) 400
          else Response (Error ("Server error: " +:+ str e)) 500),
     set_calls (calls w ++ [(opts, url, false)]) w).
Proof.
  intros Hurl Hhost Hres.
  unfold App.get_video_info, try_except.
  rewrite (falsy_dict_with d _ _ Hurl). cbn [mbind option_bind].
  rewrite Hurl, (host_check_nonempty url Hhost). cbn [default from_option]. unfold id.
  rewrite Hhost. cbn [negb].
  rewrite bind_run, extract_info_metadata, Hres.
  eexists. now destruct (is_DownloadError e).
Qed.

Lemma app_video_info_extraction_failure_witness :
  (App.get_video_info Sample.unavailable (Sample.post "https://youtu.be/dQw4") Sample.idle).1 =
  inr (Response (Error "Video extraction failed: ERROR: Video unavailable") 400).
Proof.
  destruct (app_video_info_extraction_failure Sample.unavailable
              {[ "url" := "https://youtu.be/dQw4" ]} "https://youtu.be/dQw4"
              (Raise DownloadError "ERROR: Video unavailable") Sample.idle)
    as (opts & E);
    [vm_compute; reflexivity | vm_compute; reflexivity | intros opts; reflexivity |].
  unfold Sample.post. rewrite E. reflexivity.
Defined.

(** X8.  The other metadata handlers make no such difference: when
    yt-dlp raises on a request with a non-empty URL, the formats handler
    of app.py and both metadata handlers of backend/app.py answer 500
    with the bare message, a [DownloadError] included. *)
Theorem extraction_failure_is_500_elsewhere (ydl : collaborator) (d : gmap string string)
    (url : string) (e : exn) (w : world) :
  d !! "url" = Some url →
  url ≠ "" →
  (∀ opts, result (ydl opts url false) = inl e) →
  (App.get_formats ydl (Some d) w).1 = inr (Response (Error (str e)) 500) ∧
  (Backend.get_video_info ydl (Some d) w).1 = inr (Response (Error (str e)) 500) ∧
  (Backend.get_formats ydl (Some d) w).1 = inr (Response (Error (str e)) 500).
Proof.
  intros Hurl Hne Hres.
  assert (falsy_str (Some url) = false) as Hf.
  { cbn. now destruct (String.eqb_spec url ""). }
  unfold App.get_formats, Backend.get_video_info, Backend.get_formats, try_except,
    Backend.data_get.
  rewrite (falsy_dict_with d _ _ Hurl). cbn [mbind option_bind].
  rewrite !(bind_run (mret _)), !ret_run. cbn iota.
  rewrite Hurl, Hf. cbn [default from_option]. unfold id.
  rewrite !bind_run, !extract_info_metadata, !Hres. repeat split.
Qed.

Lemma extraction_failure_is_500_elsewhere_witness :
  (App.get_formats Sample.unavailable (Sample.post "https://youtu.be/dQw4") Sample.idle).1 =
  inr (Response (Error "ERROR: Video unavailable") 500).
Proof.
  apply (extraction_failure_is_500_elsewhere Sample.unavailable
           {[ "url" := "https://youtu.be/dQw4" ]} "https://youtu.be/dQw4"
           (Raise DownloadError "ERROR: Video unavailable") Sample.idle);
    [vm_compute; reflexivity | discriminate | intros opts; reflexivity].
Defined.

(** ** The download handlers, path by path *)

(** The temp directory once [mkdtemp] has made [dir] and yt-dlp has
    written [files] into it. *)
Lemma fresh_directory_lookup (w : world) (dir : string) (rest : list string)
    (files : list (string * child)) (name : string) :
  first_free "yt_download_" (names w) (tmp w) = Some (dir, rest) →
  lookup_entry name
    (write_children (now w) dir files (tmp w ++ [(dir, Dir (now w) [])])) =
  if String.eqb name dir then Some (Dir (now w) files) else lookup_entry name (tmp w).
Proof.
  intros Hfree. apply first_free_fresh in Hfree as [Hnone _].
  rewrite lookup_write_children, lookup_entry_app.
  destruct (String.eqb_spec name dir) as [->|Hne].
  - rewrite Hnone. cbn. now rewrite String.eqb_refl.
  - destruct (lookup_entry name (tmp w)); [reflexivity|].
    cbn. destruct (String.eqb_spec dir name); [congruence|reflexivity].
Qed.

(** The whole run of [download_video] of app.py once the request is
    accepted and [dir] is made. *)
Lemma App_download_video_alloc (env : App.environ) (ydl : collaborator)
    (d : gmap string string) (url dir : string) (rest : list string) (w : world) :
  d !! "url" = Some url →
  contains "youtube.com" url || contains "youtu.be" url = true →
  first_free "yt_download_" (names w) (tmp w) = Some (dir, rest) →
  let opts := App.download_opts dir (default "video" (d !! "type"))
                (default "best" (d !! "quality")) in
  let o := ydl opts url true in
  let w2 := {| now := now w;
               tmp := write_children (now w) dir (written o)
                        (tmp w ++ [(dir, Dir (now w) [])]);
               names := rest; threads := threads w;
               calls := calls w ++ [(opts, url, true)] |} in
  let failed e :=
    (inr (if is_DownloadError e
          then jsonify_with (Error ("Download failed: " +:+ str e)) 400
          else jsonify_with (Error ("Server error: " +:+ str e)) 500),
     set_tmp (remove_entry dir (tmp w2)) w2) in
  App.download_video env ydl (Some d) w =
  match result o with
  | inl e => failed e
  | inr _ =>
      match filter (λ f, isfile dir f (tmp w2)) (map fst (written o)) with
      | [] =>
          (inr (jsonify_with
             (Error "No file was downloaded. The video might be unavailable or too large.")
             500), w2)
      | files =>
          match py_sort Z.ltb snd true (map (λ f, (f, size_of (written o) f)) files) with
          | [] => failed (Raise IndexError "list index out of range")
          | (filename, _) :: _ =>
              if (App.MAX_FILE_SIZE env <? size_of (written o) filename)%Z then
                (inr (jsonify_with
                   (Error (App.too_large env (size_of (written o) filename))) 413), w2)
              else
                (inr (jsonify (SendFile dir filename filename (App.mimetype_of filename))),
                 set_threads (threads w2 ++ [cleanup_later dir]) w2)
          end
      end
  end.
Proof.
  intros Hurl Hhost Hfree opts o w2 failed.
  rewrite (App_download_video_run env ydl d url w dir rest Hurl Hhost Hfree).
  destruct (App_download_from_run env ydl url (default "video" (d !! "type"))
              (default "best" (d !! "quality")) dir _ _ _ (mkdtemp_lookup w dir rest Hfree))
    as [_ Hfrom].
  cbn zeta in Hfrom. rewrite Hfrom. clear Hfrom. fold opts o. cbn [app].
  change (set_tmp (write_children _ _ _ _) _) with w2.
  assert (∀ e, App.download_failed (Some dir) e w2 = failed e) as Hfail.
  { intros e. apply App_download_failed_run with (m := now w) (ch := written o).
    - now apply first_free_fresh in Hfree.
    - cbn [tmp w2]. rewrite (fresh_directory_lookup w dir rest _ dir Hfree).
      now rewrite String.eqb_refl. }
  destruct (result o) as [e|i]; [apply Hfail|].
  destruct (filter _ _) as [|f0 files]; [reflexivity|].
  destruct (py_sort _ _ _ _) as [|[fn n] sorted]; [apply Hfail|].
  now destruct (_ <? _)%Z.
Qed.

Lemma Backend_download_video_alloc (ydl : collaborator) (d : gmap string string)
    (url dir : string) (rest : list string) (w : world) :
  d !! "url" = Some url →
  url ≠ "" →
  first_free "yt_download_" (names w) (tmp w) = Some (dir, rest) →
  let opts := Backend.download_opts dir (default "video" (d !! "type"))
                (default "best" (d !! "quality")) in
  let o := ydl opts url true in
  let w3 := {| now := now w;
               tmp := write_children (now w) dir (written o)
                        (tmp w ++ [(dir, Dir (now w) [])]);
               names := rest; threads := threads w ++ [cleanup_later dir];
               calls := calls w ++ [(opts, url, true)] |} in
  Backend.download_video ydl (Some d) w =
  (inr match result o with
       | inl e => jsonify_with (Error (str e)) 500
       | inr _ =>
           match filter (λ f, isfile dir f (tmp w3)) (map fst (written o)) with
           | [] => jsonify_with (Error "No file was downloaded") 500
           | filename :: _ =>
               if (100 * 1024 * 1024 <? size_of (written o) filename)%Z
               then jsonify_with (Error "File too large for web download") 413
               else jsonify (SendFile dir filename filename "application/octet-stream")
           end
       end, w3).
Proof.
  intros Hurl Hne Hfree opts o w3.
  rewrite (Backend_download_video_run ydl d url w dir rest Hurl Hne Hfree).
  destruct (Backend_download_from_run ydl url (default "video" (d !! "type"))
              (default "best" (d !! "quality")) dir _ _ _ (mkdtemp_lookup w dir rest Hfree))
    as [_ Hfrom].
  cbn zeta in Hfrom. rewrite Hfrom. clear Hfrom. fold opts o. cbn [app].
  destruct (result o) as [e|i]; [reflexivity|].
  change (tmp (set_tmp ?fs _)) with fs. change (tmp w3) with
    (write_children (now w) dir (written o) (tmp w ++ [(dir, Dir (now w) [])])).
  cbn [now set_names set_tmp tmp].
  destruct (filter _ _) as [|f0 files]; [reflexivity|].
  now destruct (_ <? _)%Z.
Qed.

(** Which names of a fresh download directory are regular files. *)
Lemma isfile_fresh (w : world) (dir : string) (rest : list string)
    (files : list (string * child)) (f : string) :
  first_free "yt_download_" (names w) (tmp w) = Some (dir, rest) →
  isfile dir f (write_children (now w) dir files (tmp w ++ [(dir, Dir (now w) [])])) =
  match lookup_child f files with
  | Some (CFile _) => true
  | _ => false
  end.
Proof.
  intros Hfree. unfold isfile, children_of.
  rewrite (fresh_directory_lookup w dir rest files dir Hfree).
  now rewrite String.eqb_refl.
Qed.

Lemma filter_isfile_nil (P : string → bool) (l : list string) :
  (∀ f, f ∈ l → P f = false) → filter (λ f, P f) l = [].
Proof.
  induction l as [|x l IH]; intros H; [reflexivity|].
  rewrite filter_cons. rewrite (H x (list_elem_of_here _ _)). cbn.
  case_decide; [contradiction|]. apply IH. intros f Hf. apply H. now right.
Qed.

(** X9.  When yt-dlp returns without leaving a regular file in the
    directory, app.py answers 500 ['No file was downloaded...'] and
    returns at once: the directory, with whatever yt-dlp left in it,
    stays in the temp directory and no cleanup thread is started. *)
Theorem app_download_without_file (env : App.environ) (ydl : collaborator)
    (d : gmap string string) (url dir : string) (rest : list string) (i : info)
    (w : world) :
  d !! "url" = Some url →
  contains "youtube.com" url || contains "youtu.be" url = true →
  first_free "yt_download_" (names w) (tmp w) = Some (dir, rest) →
  let o := ydl (App.download_opts dir (default "video" (d !! "type"))
                  (default "best" (d !! "quality"))) url true in
  result o = inr i →
  (∀ f n, lookup_child f (written o) ≠ Some (CFile n)) →
  ∃ w',
    App.download_video env ydl (Some d) w =
      (inr (Response
              (Error "No file was downloaded. The video might be unavailable or too large.")
              500), w') ∧
    lookup_entry dir (tmp w') = Some (Dir (now w) (written o)) ∧
    threads w' = threads w.
Proof.
  intros Hurl Hhost Hfree o Hres Hnone.
  rewrite (App_download_video_alloc env ydl d url dir rest w Hurl Hhost Hfree).
  fold o. rewrite Hres. cbn [tmp].
  rewrite filter_isfile_nil.
  2:{ intros f _. rewrite (isfile_fresh w dir rest _ f Hfree).
      destruct (lookup_child f (written o)) as [[n|]|] eqn:E; try reflexivity.
      now destruct (Hnone f n). }
  eexists. split; [reflexivity|]. cbn [tmp threads]. split; [|reflexivity].
  rewrite (fresh_directory_lookup w dir rest _ dir Hfree). now rewrite String.eqb_refl.
Qed.

Lemma app_download_without_file_witness :
  (App.download_video App.default_environ Sample.no_file
     (Sample.post "https://youtu.be/dQw4") Sample.idle).1 =
  inr (Response
         (Error "No file was downloaded. The video might be unavailable or too large.") 500).
Proof.
  destruct (app_download_without_file App.default_environ Sample.no_file
              {[ "url" := "https://youtu.be/dQw4" ]} "https://youtu.be/dQw4"
              "yt_download_k3x9" [] Sample.no_info Sample.idle)
    as (w' & E & _);
    [ vm_compute; reflexivity | vm_compute; reflexivity | vm_compute; reflexivity
    | reflexivity | intros f n; discriminate | ].
  unfold Sample.post. rewrite E. reflexivity.
Defined.



(** X11.  When yt-dlp raises anything but a [DownloadError] after the
    directory was made, app.py answers 500 with ['Server error: '] and
    the message, and the directory is gone when the handler returns;
    no cleanup thread is started. *)
Theorem app_download_other_exception (env : App.environ) (ydl : collaborator)
    (d : gmap string string) (url dir : string) (rest : list string) (e : exn)
    (w : world) :
  d !! "url" = Some url →
  contains "youtube.com" url || contains "youtu.be" url = true →
  first_free "yt_download_" (names w) (tmp w) = Some (dir, rest) →
  result (ydl (App.download_opts dir (default "video" (d !! "type"))
                 (default "best" (d !! "quality"))) url true) = inl e →
  cls e ≠ DownloadError →
  ∃ w',
    App.download_video env ydl (Some d) w =
      (inr (Response (Error ("Server error: " +:+ str e)) 500), w') ∧
    lookup_entry dir (tmp w') = None ∧
    threads w' = threads w.
Proof.
  intros Hurl Hhost Hfree Hres Hcls.
  rewrite (App_download_video_alloc env ydl d url dir rest w Hurl Hhost Hfree).
  rewrite Hres.
  assert (is_DownloadError e = false) as ->.
  { unfold is_DownloadError. destruct (cls e); congruence. }
  eexists. split; [reflexivity|]. cbn [tmp set_tmp threads].
  split; [apply lookup_remove_eq|reflexivity].
Qed.

Lemma app_download_other_exception_witness :
  (App.download_video App.default_environ
     (λ _ _ _, {| written := []; result := inl (Raise TypeError "unexpected") |})
     (Sample.post "https://youtu.be/dQw4") Sample.idle).1 =
  inr (Response (Error "Server error: unexpected") 500).
Proof.
  destruct (app_download_other_exception App.default_environ
              (λ _ _ _, {| written := []; result := inl (Raise TypeError "unexpected") |})
              {[ "url" := "https://youtu.be/dQw4" ]} "https://youtu.be/dQw4"
              "yt_download_k3x9" [] (Raise TypeError "unexpected") Sample.idle)
    as (w' & E & _);
    [ vm_compute; reflexivity | vm_compute; reflexivity | vm_compute; reflexivity
    | reflexivity | discriminate | ].
  unfold Sample.post. rewrite E. reflexivity.
Defined.

(** ** What a download leaves in the temp directory *)

(** Every way a download request of backend/app.py can go before the
    collaborator is called. *)
Lemma Backend_download_video_cases (ydl : collaborator) (data : request) (w : world) :
  (∃ msg code, Backend.download_video ydl data w = (inr (Response (Error msg) code), w) ∧
               (code = 400 ∨ code = 500)%Z) ∨
  (first_free "yt_download_" (names w) (tmp w) = None ∧
   Backend.download_video ydl data w =
   (inr (Response (Error (str EEXIST)) 500), set_names [] w)) ∨
  (∃ d url dir rest,
     data = Some d ∧ d !! "url" = Some url ∧ url ≠ "" ∧
     first_free "yt_download_" (names w) (tmp w) = Some (dir, rest)).
Proof.
  destruct data as [d|]; [|left; do 2 eexists; split; [reflexivity|now right]].
  destruct (falsy_str (d !! "url")) eqn:Hempty.
  { left. do 2 eexists. unfold Backend.download_video, try_except, Backend.data_get.
    rewrite !bind_run, !ret_run. cbn iota. rewrite Hempty. split; [reflexivity|now left]. }
  destruct (d !! "url") as [url|] eqn:Hurl; [|discriminate].
  assert (url ≠ "") as Hne.
  { intros ->. discriminate. }
  destruct (first_free "yt_download_" (names w) (tmp w)) as [[dir rest]|] eqn:Hfree.
  - right. right. eauto 10.
  - right. left. split; [reflexivity|].
    unfold Backend.download_video, try_except, Backend.data_get.
    rewrite !bind_run, !ret_run. rewrite Hurl, Hempty.
    cbn [default from_option]. unfold id.
    do 2 (rewrite bind_run, ret_run).
    rewrite bind_run. unfold mkdtemp. rewrite Hfree. reflexivity.
Qed.

(** X12.  A download request never touches what was in the temp
    directory before it: whatever the request and whatever yt-dlp does
    inside its output directory, every entry that existed when the
    handler was entered is still there, unchanged, when it returns.
    This holds in both variants. *)
Theorem download_keeps_other_entries (env : App.environ) (ydl : collaborator)
    (data : request) (w : world) (name : string) (e : entry) :
  lookup_entry name (tmp w) = Some e →
  lookup_entry name (tmp (App.download_video env ydl data w).2) = Some e ∧
  lookup_entry name (tmp (Backend.download_video ydl data w).2) = Some e.
Proof.
  intros Hname.
  assert (∀ dir rest files,
            first_free "yt_download_" (names w) (tmp w) = Some (dir, rest) →
            name ≠ dir ∧
            lookup_entry name
              (write_children (now w) dir files (tmp w ++ [(dir, Dir (now w) [])])) =
            Some e) as Hfresh.
  { intros dir rest files Hfree.
    assert (name ≠ dir) as Hne.
    { intros ->. apply first_free_fresh in Hfree as [Hnone _]. congruence. }
    split; [exact Hne|].
    rewrite (fresh_directory_lookup w dir rest files name Hfree).
    now destruct (String.eqb_spec name dir). }
  split.
  - destruct (App_download_video_cases env ydl data w)
      as [(msg & -> & _)|[[_ ->]|(d & url & dir & rest & -> & Hurl & Hhost & Hfree)]];
      [exact Hname|exact Hname|].
    rewrite (App_download_video_alloc env ydl d url dir rest w Hurl Hhost Hfree).
    destruct (Hfresh dir rest
                (written (ydl (App.download_opts dir (default "video" (d !! "type"))
                                 (default "best" (d !! "quality"))) url true)) Hfree)
      as [Hne Hkept].
    assert (∀ fs, lookup_entry name fs = Some e →
                  lookup_entry name (remove_entry dir fs) = Some e) as Hrm.
    { intros fs Hfs. rewrite lookup_remove_ne; [exact Hfs|congruence]. }
    destruct (result _) as [x|i]; [now apply Hrm|].
    destruct (filter _ _) as [|f0 files]; [exact Hkept|].
    destruct (py_sort _ _ _ _) as [|[fn n] sorted]; [now apply Hrm|].
    destruct (_ <? _)%Z; exact Hkept.
  - destruct (Backend_download_video_cases ydl data w)
      as [(msg & code & -> & _)|[[_ ->]|(d & url & dir & rest & -> & Hurl & Hne & Hfree)]];
      [exact Hname|exact Hname|].
    rewrite (Backend_download_video_alloc ydl d url dir rest w Hurl Hne Hfree).
    now apply (Hfresh dir rest).
Qed.

Lemma download_keeps_other_entries_witness :
  lookup_entry "yt_download_old"
    (tmp (App.download_video App.default_environ Sample.two_files
            (Sample.post "https://youtu.be/dQw4") Sample.littered).2) =
  lookup_entry "yt_download_old" (tmp Sample.littered).
Proof.
  destruct (download_keeps_other_entries App.default_environ Sample.two_files
              (Sample.post "https://youtu.be/dQw4") Sample.littered "yt_download_old"
              (Dir 0 [("clip.mp4", CFile 1000)])) as [E _];
    [vm_compute; reflexivity|].
  rewrite E. vm_compute. reflexivity.
Defined.

(** X13.  In app.py a download answered with a file is a round trip on
    the temp directory: the handler has started exactly the timer of
    its own directory, and once that timer has run (sleeping 60 seconds
    and deleting) every name of the temp directory resolves as it did
    before the request. *)
Theorem app_download_then_timer_restores (env : App.environ) (ydl : collaborator)
    (data : request) (w w' : world) (dir f download_name mimetype : string) :
  App.download_video env ydl data w =
    (inr (Response (SendFile dir f download_name mimetype) 200), w') →
  ∃ w'',
    threads w' = threads w ++ [cleanup_later dir] ∧
    run_thread (cleanup_later dir) w' = (inr tt, w'') ∧
    now w'' = (now w + 60)%Z ∧
    ∀ name, lookup_entry name (tmp w'') = lookup_entry name (tmp w).
Proof.
  intros Hrun.
  destruct (App_download_video_cases env ydl data w)
    as [(msg & E & _)|[[_ E]|(d & url & dir' & rest & -> & Hurl & Hhost & Hfree)]];
    [rewrite E in Hrun; discriminate|rewrite E in Hrun; discriminate|].
  rewrite (App_download_video_alloc env ydl d url dir' rest w Hurl Hhost Hfree) in Hrun.
  destruct (result _) as [x|i]; [destruct (is_DownloadError x); discriminate|].
  destruct (filter _ _) as [|f0 files]; [discriminate|].
  destruct (py_sort _ _ _ _) as [|[fn n] sorted];
    [destruct (is_DownloadError _); discriminate|].
  destruct (_ <? _)%Z; [discriminate|].
  injection Hrun as <- <- _ _ <-.
  rewrite cleanup_later_run. eexists. split; [reflexivity|]. split; [reflexivity|].
  cbn [now tmp threads set_tmp set_now set_threads]. split; [reflexivity|].
  intros name.
  set (fs2 := write_children _ _ _ _).
  destruct (rmtree_quiet_ok dir' fs2) as (fs' & E & Hgone & _ & Hother).
  rewrite E. cbn [snd].
  pose proof (fresh_directory_lookup w dir' rest
                (written (ydl (App.download_opts dir' (default "video" (d !! "type"))
                                 (default "best" (d !! "quality"))) url true))
                name Hfree) as Hlk.
  fold fs2 in Hlk.
  destruct (String.eqb_spec name dir') as [->|Hne].
  - rewrite Hgone.
    + apply first_free_fresh in Hfree as [Hnone _]. now rewrite Hnone.
    + unfold is_dir. now rewrite Hlk.
  - rewrite (Hother name Hne). exact Hlk.
Qed.

Lemma app_download_then_timer_restores_witness :
  ∃ w' w'',
    (App.download_video App.default_environ Sample.two_files
       (Sample.post "https://youtu.be/dQw4") Sample.littered).2 = w' ∧
    run_thread (cleanup_later "yt_download_k3x9") w' = (inr tt, w'') ∧
    tmp w'' = tmp Sample.littered.
Proof.
  destruct (app_download_then_timer_restores App.default_environ Sample.two_files
              (Sample.post "https://youtu.be/dQw4") Sample.littered
              (App.download_video App.default_environ Sample.two_files
                 (Sample.post "https://youtu.be/dQw4") Sample.littered).2
              "yt_download_k3x9" "clip.mp4" "clip.mp4" "video/mp4")
    as (w'' & _ & E & _);
    [vm_compute; reflexivity|].
  eexists _, w''. split; [reflexivity|]. split; [exact E|].
  vm_compute in E. injection E as <-. vm_compute. reflexivity.
Defined.

(** X14.  In backend/app.py every request that got as far as making its
    directory starts exactly one timer for it, whether yt-dlp raised,
    left no file, left too large a file or the file was sent; the
    answer is 200, 413 or 500; the directory with what yt-dlp wrote is
    still there when the handler returns; and once the timer has run
    every name of the temp directory resolves as before the request. *)
Theorem backend_download_always_schedules (ydl : collaborator) (d : gmap string string)
    (url dir : string) (rest : list string) (w : world) :
  d !! "url" = Some url →
  url ≠ "" →
  first_free "yt_download_" (names w) (tmp w) = Some (dir, rest) →
  let o := ydl (Backend.download_opts dir (default "video" (d !! "type"))
                  (default "best" (d !! "quality"))) url true in
  ∃ resp w' w'',
    Backend.download_video ydl (Some d) w = (inr resp, w') ∧
    (status resp = 200 ∨ status resp = 413 ∨ status resp = 500)%Z ∧
    (∀ e, result o = inl e → resp = Response (Error (str e)) 500) ∧
    threads w' = threads w ++ [cleanup_later dir] ∧
    lookup_entry dir (tmp w') = Some (Dir (now w) (written o)) ∧
    run_thread (cleanup_later dir) w' = (inr tt, w'') ∧
    ∀ name, lookup_entry name (tmp w'') = lookup_entry name (tmp w).
Proof.
  intros Hurl Hne Hfree o.
  rewrite (Backend_download_video_alloc ydl d url dir rest w Hurl Hne Hfree).
  fold o.
  do 3 eexists. split; [reflexivity|].
  split.
  { destruct (result o) as [e|i]; [now right; right|].
    destruct (filter _ _) as [|f0 files]; [now right; right|].
    destruct (_ <? _)%Z; [right; now left|now left]. }
  split.
  { intros e ->. reflexivity. }
  cbn [now tmp threads set_tmp set_now].
  split; [reflexivity|].
  pose proof (fresh_directory_lookup w dir rest (written o)) as Hlk.
  specialize (Hlk dir Hfree) as Hdir. rewrite String.eqb_refl in Hdir.
  split; [exact Hdir|]. split; [apply cleanup_later_run|].
  cbn [now tmp threads set_tmp set_now].
  intros name.
  set (fs2 := write_children _ _ _ _) in *.
  destruct (rmtree_quiet_ok dir fs2) as (fs' & E & Hgone & _ & Hother).
  rewrite E. cbn [snd].
  destruct (String.eqb_spec name dir) as [->|Hnd].
  - rewrite Hgone.
    + apply first_free_fresh in Hfree as [Hnone _]. now rewrite Hnone.
    + unfold is_dir. now rewrite Hdir.
  - rewrite (Hother name Hnd). specialize (Hlk name Hfree).
    now destruct (String.eqb_spec name dir).
Qed.

Lemma backend_download_always_schedules_witness :
  threads (Backend.download_video Sample.unavailable
             (Sample.post "https://youtu.be/dQw4") Sample.idle).2 =
  [cleanup_later "yt_download_k3x9"].
Proof.
  destruct (backend_download_always_schedules Sample.unavailable
              {[ "url" := "https://youtu.be/dQw4" ]} "https://youtu.be/dQw4"
              "yt_download_k3x9" [] Sample.idle)
    as (resp & w' & w'' & E & _ & _ & Ht & _);
    [vm_compute; reflexivity|discriminate|vm_compute; reflexivity|].
  unfold Sample.post. rewrite E. exact Ht.
Defined.

(** ** The entries of the format list *)

Section PySortStable.
Context {A K : Type} `{EqDecision K} (lt : K → K → bool) (key : A → K).
Hypothesis lt_irrefl : ∀ x, lt x x = false.

(** Inserting [x] only passes elements whose key differs from its own. *)
Lemma insert_by_filter_key (reverse : bool) (x : A) (l : list A) (k : K) :
  filter (λ a, key a = k) (insert_by lt key reverse x l) =
  filter (λ a, key a = k) (x :: l).
Proof.
  induction l as [|y ys IH]; [reflexivity|]. cbn [insert_by].
  destruct (if reverse then _ else _) eqn:E; [|reflexivity].
  rewrite filter_cons, IH, !filter_cons.
  destruct (decide (key y = k)) as [Hy|Hy], (decide (key x = k)) as [Hx|Hx];
    try reflexivity.
  exfalso. rewrite Hx, Hy in E. rewrite lt_irrefl in E. now destruct reverse.
Qed.

(** [list.sort] is stable: the elements of one key keep their order. *)
Lemma py_sort_stable (reverse : bool) (l : list A) (k : K) :
  filter (λ a, key a = k) (py_sort lt key reverse l) = filter (λ a, key a = k) l.
Proof.
  induction l as [|x l IH]; [reflexivity|].
  cbn [py_sort foldr]. rewrite insert_by_filter_key.
  fold (py_sort lt key reverse l). rewrite !filter_cons, IH. reflexivity.
Qed.
End PySortStable.

Lemma sublist_filter_mono {A} (P : A → Prop) `{!∀ x, Decision (P x)} (l1 l2 : list A) :
  sublist l1 l2 → sublist (filter P l1) (filter P l2).
Proof.
  induction 1 as [|x l1 l2 _ IH|x l1 l2 _ IH]; [constructor|..]; rewrite ?filter_cons.
  - destruct (decide (P x)); [now constructor|exact IH].
  - destruct (decide (P x)); [now constructor|exact IH].
Qed.

Lemma sort_key_lt_irrefl (x : bool * Z) : pair_lt bool_lt Bool.eqb Z.ltb x x = false.
Proof.
  destruct x as [[] a]; unfold pair_lt, bool_lt; cbn; apply Z.ltb_irrefl.
Qed.

(** X15.  The sort of the format list of app.py is stable, and the
    loop before it keeps the order of yt-dlp: in the answer, the
    entries of one kind and one height ([None] counting as [0]) stand
    in the order in which yt-dlp listed their formats. *)
Theorem app_formats_keep_listing_order (ydl : collaborator) (d : gmap string string)
    (url : string) (i : info) (raw : list fmt) (w : world) :
  d !! "url" = Some url →
  url ≠ "" →
  (∀ opts, result (ydl opts url false) = inr i) →
  get_or (formats i) [] = Some raw →
  ∃ out w',
    App.get_formats ydl (Some d) w = (inr (Response (Formats out) 200), w') ∧
    ∀ k, sublist (filter (λ x, App.sort_key x = k) out)
                 (filter (λ x, App.sort_key x = k) (map App.entry_of raw)).
Proof.
  intros Hurl Hne Hres Hraw.
  exists (App.listed_formats raw). eexists. split.
  { unfold App.get_formats, try_except.
    rewrite (falsy_dict_with d _ _ Hurl). cbn [mbind option_bind]. rewrite Hurl.
    assert (falsy_str (Some url) = false) as ->.
    { cbn. now destruct (String.eqb_spec url ""). }
    cbn [default from_option]. unfold id.
    rewrite bind_run. unfold extract_info at 1. rewrite Hres.
    rewrite bind_run, Hraw. reflexivity. }
  intros k. unfold App.listed_formats.
  destruct (App_collect_firsts raw) as (firsts & E & Hsub & _).
  rewrite E. cbn [fst].
  transitivity (filter (λ x, App.sort_key x = k)
                  (py_sort (pair_lt bool_lt Bool.eqb Z.ltb) App.sort_key false
                     (map App.entry_of firsts))).
  { apply sublist_filter_mono, sublist_take. }
  rewrite (py_sort_stable _ _ sort_key_lt_irrefl).
  apply sublist_filter_mono. now apply fmap_sublist.
Qed.

Lemma app_formats_keep_listing_order_witness :
  ∃ out,
    (App.get_formats (Sample.lists Sample.four_formats)
       (Sample.post "https://youtu.be/dQw4") Sample.idle).1 =
    inr (Response (Formats out) 200) ∧
    sublist (filter (λ x, App.sort_key x = (false, (-360)%Z)) out)
            (filter (λ x, App.sort_key x = (false, (-360)%Z))
               (map App.entry_of Sample.four_formats)).
Proof.
  destruct (app_formats_keep_listing_order (Sample.lists Sample.four_formats)
              {[ "url" := "https://youtu.be/dQw4" ]} "https://youtu.be/dQw4"
              (Sample.info_with Sample.four_formats) Sample.four_formats Sample.idle)
    as (out & w' & E & Hk);
    [vm_compute; reflexivity|discriminate|reflexivity|reflexivity|].
  exists out. unfold Sample.post. rewrite E. split; [reflexivity|apply Hk].
Defined.

(** X16.  [filesize_mb] of an entry is null exactly when the format has
    no file size, a null one or [0]; for a size below [2^53] bytes,
    which a float holds exactly, it is the size in megabytes to the
    nearest tenth, so it differs from [filesize / 1048576] by at most a
    twentieth. *)
Theorem app_filesize_mb_rounding (f : fmt) :
  (e_filesize_mb (App.entry_of f) = None ↔ filesize f = None ∨ filesize f = Some 0%Z) ∧
  ∀ n, filesize f = Some n → (0 < n < 9007199254740992)%Z →
    ∃ t, e_filesize_mb (App.entry_of f) = Some t ∧
         (Z.abs (10 * n - 1048576 * t) ≤ 524288)%Z.
Proof.
  unfold App.entry_of. cbn [e_filesize_mb]. split.
  - destruct (filesize f) as [n|]; [|intuition].
    destruct (Z.eqb_spec n 0) as [->|Hn]; [intuition|].
    split; [discriminate|]. intros [[=]|[= ->]]. contradiction.
  - intros n -> Hn. destruct (Z.eqb_spec n 0) as [|_]; [lia|].
    eexists. split; [reflexivity|]. unfold tenths_of_mb.
    pose proof (Z.div_mod (n * 10) 1048576 ltac:(lia)) as Hdm.
    pose proof (Z.mod_pos_bound (n * 10) 1048576 ltac:(lia)) as Hr.
    destruct (Z.ltb_spec (2 * ((n * 10) mod 1048576)) 1048576); [lia|].
    destruct (Z.ltb_spec 1048576 (2 * ((n * 10) mod 1048576))); [lia|].
    destruct (Z.even _); lia.
Qed.

Lemma app_filesize_mb_rounding_witness :
  e_filesize_mb (App.entry_of
    {| format_id := None; ext := None; resolution := Missing; height := None;
       filesize := Some 262144%Z; vcodec := None; acodec := None; fps := None |}) =
  Some 2%Z.
Proof.
  destruct (app_filesize_mb_rounding
    {| format_id := None; ext := None; resolution := Missing; height := None;
       filesize := Some 262144%Z; vcodec := None; acodec := None; fps := None |})
    as [_ H].
  destruct (H 262144%Z) as (t & E & _); [reflexivity|lia|].
  rewrite E. vm_compute in E. symmetry. exact E.
Defined.

(** ** The members of the video-info answer *)

Lemma slice_to_length (n : nat) (s : string) :
  String.length (slice_to n s) = Nat.min n (String.length s).
Proof.
  revert s. induction n as [|n IH]; intros [|c s]; cbn; try reflexivity.
  now rewrite IH.
Qed.

Lemma slice_to_prefix (n : nat) (s : string) : ∃ t, s = slice_to n s +:+ t.
Proof.
  revert s. induction n as [|n IH]; intros s.
  - exists s. now destruct s.
  - destruct s as [|c s]; [now exists ""|].
    destruct (IH s) as [t Ht]. exists t.
    change (String c s = String c (slice_to n s +:+ t)). now rewrite <- Ht.
Qed.

Lemma length_append (a b : string) :
  String.length (a +:+ b) = (String.length a + String.length b)%nat.
Proof.
  induction a as [|c a IH]; [reflexivity|].
  change (S (String.length (a +:+ b)) = S (String.length a + String.length b)).
  now rewrite IH.
Qed.

(** X17.  The [description] member of a video-info answer, in both
    files: it is the empty string exactly when yt-dlp gave no
    description, a null one or an empty one; otherwise it is the first
    200 characters of the description followed by three dots, also when
    the description is shorter than 200 characters; it never has more
    than 203 characters. *)
Theorem description_is_cut_to_200 (i : info) (url : string) (w w' : world) (b : body) :
  App.video_info i url w = (inr b, w') ∨ Backend.video_info i w = (inr b, w') →
  ∃ d,
    member "description" b = Some (JStr d) ∧
    (String.length d ≤ 203)%nat ∧
    (d = "" ↔ get (description i) = None ∨ get (description i) = Some "") ∧
    ∀ s, get (description i) = Some s → s ≠ "" →
      d = slice_to 200 s +:+ "..." ∧
      String.length d = (Nat.min 200 (String.length s) + 3)%nat ∧
      ∃ t, s = slice_to 200 s +:+ t.
Proof.
  intros Hrun.
  assert (member "description" b =
          Some (JStr match get (description i) with
                     | Some s => if String.eqb s "" then "" else slice_to 200 s +:+ "..."
                     | None => ""
                     end)) as Hd.
  { destruct Hrun as [Hrun|Hrun].
    - unfold App.video_info, App.strip_of, App.len_of in Hrun.
      destruct (get_or (title i) "Unknown"); [|discriminate].
      rewrite bind_run, ret_run in Hrun.
      destruct (get_or (uploader i) "Unknown"); [|discriminate].
      rewrite bind_run, ret_run in Hrun.
      destruct (get_or (formats i) []); [|discriminate].
      rewrite bind_run, !ret_run in Hrun. injection Hrun as <- _. reflexivity.
    - unfold Backend.video_info, Backend.len_of in Hrun.
      destruct (get_or (formats i) []); [|discriminate].
      rewrite bind_run, !ret_run in Hrun. injection Hrun as <- _. reflexivity. }
  eexists. split; [exact Hd|]. clear Hd Hrun.
  destruct (get (description i)) as [s|].
  2:{ split; [cbn; lia|]. split; [intuition|]. intros s [=]. }
  destruct (String.eqb_spec s "") as [->|Hs].
  { split; [cbn; lia|]. split; [intuition|]. intros s [= <-] H. contradiction. }
  split.
  { rewrite length_append, slice_to_length.
    change (String.length "...") with 3%nat. lia. }
  split.
  { split.
    - intros H. apply (f_equal String.length) in H.
      rewrite length_append in H. change (String.length "...") with 3%nat in H.
      change (String.length "") with 0%nat in H. lia.
    - intros [[=]|[= ->]]. contradiction. }
  intros s' [= <-] _. split; [reflexivity|]. split.
  - rewrite length_append, slice_to_length. reflexivity.
  - apply slice_to_prefix.
Qed.

Lemma description_is_cut_to_200_witness :
  ∃ d, member "description"
         match (Backend.video_info
                  {| title := Missing; duration := Missing; uploader := Missing;
                     view_count := Missing; description := Val "short";
                     thumbnail := Missing; upload_date := Missing; formats := Missing;
                     video_id := Missing; webpage_url := Missing |} Sample.idle).1 with
         | inr b => b
         | inl _ => Error ""
         end = Some (JStr d) ∧ d = "short...".
Proof.
  set (i := {| title := Missing; duration := Missing; uploader := Missing;
               view_count := Missing; description := Val "short";
               thumbnail := Missing; upload_date := Missing; formats := Missing;
               video_id := Missing; webpage_url := Missing |}).
  destruct (description_is_cut_to_200 i "" Sample.idle Sample.idle
              match (Backend.video_info i Sample.idle).1 with
              | inr b => b
              | inl _ => Error ""
              end) as (d & Hd & _ & _ & Hcut);
    [right; reflexivity|].
  exists d. split; [exact Hd|].
  destruct (Hcut "short") as [-> _]; [reflexivity|discriminate|reflexivity].
Defined.

(** X18.  Null members.  In app.py a title or an uploader that yt-dlp
    reports as null (present, but [None]) makes [.strip()] raise and
    the video-info handler answer 500; a null format list makes [len]
    raise in both files, 500 again.  backend/app.py, which does not
    strip, passes a null title or uploader on as JSON null with 200. *)
Theorem video_info_null_members (ydl : collaborator) (d : gmap string string)
    (url : string) (i : info) (w : world) :
  d !! "url" = Some url →
  contains "youtube.com" url || contains "youtu.be" url = true →
  (∀ opts, result (ydl opts url false) = inr i) →
  (title i = Null ∨ uploader i = Null →
     (App.get_video_info ydl (Some d) w).1 =
     inr (Response
            (Error "Server error: 'NoneType' object has no attribute 'strip'") 500)) ∧
  (formats i = Null →
     (title i ≠ Null → uploader i ≠ Null →
        (App.get_video_info ydl (Some d) w).1 =
        inr (Response
               (Error "Server error: object of type 'NoneType' has no len()") 500)) ∧
     (Backend.get_video_info ydl (Some d) w).1 =
     inr (Response (Error "object of type 'NoneType' has no len()") 500)) ∧
  (formats i ≠ Null →
     ∃ b, (Backend.get_video_info ydl (Some d) w).1 = inr (Response b 200) ∧
          (title i = Null → member "title" b = Some JNull) ∧
          (uploader i = Null → member "uploader" b = Some JNull)).
Proof.
  intros Hurl Hhost Hres.
  assert (falsy_str (Some url) = false) as Hne by now apply host_check_nonempty.
  set (WA := set_calls (calls w ++ [({| format := None; outtmpl := None;
                postprocessors := []; quiet := true; no_warnings := true;
                extract_flat := Some false; force_json := Some true;
                listformats := None |}, url, false)]) w).
  set (WB := set_calls (calls w ++ [({| format := None; outtmpl := None;
                postprocessors := []; quiet := true; no_warnings := true;
                extract_flat := Some false; force_json := None;
                listformats := None |}, url, false)]) w).
  assert ((App.get_video_info ydl (Some d) w).1 =
          match (App.video_info i url WA).1 with
          | inl e => inr (if is_DownloadError e
                          then jsonify_with (Error ("Video extraction failed: " +:+ str e)) 400
                          else jsonify_with (Error ("Server error: " +:+ str e)) 500)
          | inr b => inr (jsonify b)
          end) as HApp.
  { unfold App.get_video_info, try_except.
    rewrite (falsy_dict_with d _ _ Hurl). cbn [mbind option_bind]. rewrite Hurl, Hne.
    cbn [default from_option]. unfold id. rewrite Hhost. cbn [negb].
    rewrite bind_run, extract_info_metadata, Hres, bind_run. fold WA.
    destruct (App_video_info_state i url WA) as [r ->].
    destruct r as [e|b]; [cbn [fst]; destruct (is_DownloadError e); reflexivity|reflexivity]. }
  assert ((Backend.get_video_info ydl (Some d) w).1 =
          match (Backend.video_info i WB).1 with
          | inl e => inr (jsonify_with (Error (str e)) 500)
          | inr b => inr (jsonify b)
          end) as HBack.
  { unfold Backend.get_video_info, try_except, Backend.data_get.
    rewrite bind_run, ret_run, Hurl, Hne.
    cbn [default from_option]. unfold id.
    rewrite bind_run, extract_info_metadata, Hres, bind_run. fold WB.
    destruct (Backend_video_info_state i WB) as [r ->].
    destruct r as [e|b]; reflexivity. }
  rewrite HApp, HBack. clear HApp HBack.
  unfold App.video_info, App.strip_of, App.len_of, Backend.video_info, Backend.len_of.
  split; [|split].
  - intros [-> | Hu]; [reflexivity|].
    destruct (get_or (title i) "Unknown"); [|reflexivity].
    rewrite bind_run, ret_run, Hu. reflexivity.
  - intros Hf. rewrite Hf. split; [|reflexivity].
    intros Ht Hu.
    destruct (title i); [|contradiction|]; cbn [get_or];
      rewrite bind_run, ret_run;
      (destruct (uploader i); [|contradiction|]); cbn [get_or];
      rewrite bind_run, ret_run; reflexivity.
  - intros Hf.
    destruct (formats i); [|contradiction|]; cbn [get_or];
      rewrite bind_run, !ret_run; (eexists; split; [reflexivity|]);
      split; intros ->; reflexivity.
Qed.

Lemma video_info_null_members_witness :
  (App.get_video_info Sample.null_title (Sample.post "https://youtu.be/dQw4")
     Sample.idle).1 =
  inr (Response (Error "Server error: 'NoneType' object has no attribute 'strip'") 500).
Proof.
  destruct (video_info_null_members Sample.null_title
              {[ "url" := "https://youtu.be/dQw4" ]} "https://youtu.be/dQw4"
              {| title := Null; duration := Missing; uploader := Missing;
                 view_count := Missing; description := Missing;
                 thumbnail := Missing; upload_date := Missing;
                 formats := Missing; video_id := Missing;
                 webpage_url := Missing |} Sample.idle) as [H _];
    [vm_compute; reflexivity|vm_compute; reflexivity|reflexivity|].
  apply H. left. reflexivity.
Defined.

(** ** Surrounding whitespace *)

Lemma rstrip_cons_keep (c : ascii) (s : string) :
  isspace c = false → rstrip (String c s) = String c (rstrip s).
Proof. intros H. cbn. rewrite H. now destruct (rstrip s). Qed.

Lemma rstrip_cons (c : ascii) (s : string) :
  rstrip (String c s) =
  match rstrip s with
  | "" => if isspace c then "" else String c ""
  | r => String c r
  end.
Proof. reflexivity. Qed.

Lemma rstrip_idem (s : string) : rstrip (rstrip s) = rstrip s.
Proof.
  induction s as [|c s IH]; [reflexivity|].
  rewrite rstrip_cons. destruct (rstrip s) as [|a r] eqn:E.
  - destruct (isspace c) eqn:Hc; [reflexivity|]. cbn. now rewrite Hc.
  - rewrite rstrip_cons, IH. reflexivity.
Qed.

Lemma lstrip_head (s : string) :
  match lstrip s with
  | "" => True
  | String c _ => isspace c = false
  end.
Proof.
  induction s as [|c s IH]; [exact I|].
  cbn. destruct (isspace c) eqn:E; [exact IH|exact E].
Qed.

Lemma strip_fixed (s : string) :
  lstrip (strip s) = strip s ∧ rstrip (strip s) = strip s.
Proof.
  unfold strip. split; [|apply rstrip_idem].
  pose proof (lstrip_head s) as H.
  destruct (lstrip s) as [|c t]; [reflexivity|].
  rewrite (rstrip_cons_keep c t H). cbn. now rewrite H.
Qed.

(** X19.  The title and the uploader in a video-info answer of app.py
    carry no surrounding whitespace: they are the stripped value yt-dlp
    gave (['Unknown'] when it gave none), and stripping them on the
    left or on the right again changes nothing.  Whitespace is what
    [str.isspace] accepts among the characters up to U+00FF, the
    no-break space and NEL included. *)
Theorem app_title_is_stripped (i : info) (url : string) (w w' : world) (b : body) :
  App.video_info i url w = (inr b, w') →
  ∃ t u,
    get_or (title i) "Unknown" = Some t ∧
    get_or (uploader i) "Unknown" = Some u ∧
    member "title" b = Some (JStr (strip t)) ∧
    member "uploader" b = Some (JStr (strip u)) ∧
    lstrip (strip t) = strip t ∧ rstrip (strip t) = strip t ∧
    lstrip (strip u) = strip u ∧ rstrip (strip u) = strip u.
Proof.
  intros Hrun. unfold App.video_info, App.strip_of, App.len_of in Hrun.
  destruct (get_or (title i) "Unknown") as [t|]; [|discriminate].
  rewrite bind_run, ret_run in Hrun.
  destruct (get_or (uploader i) "Unknown") as [u|]; [|discriminate].
  rewrite bind_run, ret_run in Hrun.
  destruct (get_or (formats i) []); [|discriminate].
  rewrite bind_run, !ret_run in Hrun. injection Hrun as <- _.
  exists t, u. repeat split; try apply strip_fixed.
Qed.

Lemma app_title_is_stripped_witness :
  member "title"
    match (App.video_info
             {| title := Val (String (ascii_of_nat 160) " A title ");
                duration := Missing; uploader := Missing;
                view_count := Missing; description := Missing;
                thumbnail := Missing; upload_date := Missing; formats := Missing;
                video_id := Missing; webpage_url := Missing |} "u" Sample.idle).1 with
    | inr b => b
    | inl _ => Error ""
    end = Some (JStr "A title").
Proof.
  set (i := {| title := Val (String (ascii_of_nat 160) " A title ");
               duration := Missing; uploader := Missing;
               view_count := Missing; description := Missing;
               thumbnail := Missing; upload_date := Missing; formats := Missing;
               video_id := Missing; webpage_url := Missing |}).
  destruct (app_title_is_stripped i "u" Sample.idle Sample.idle
              match (App.video_info i "u" Sample.idle).1 with
              | inr b => b
              | inl _ => Error ""
              end) as (t & u & Ht & _ & Hm & _);
    [reflexivity|].
  rewrite Hm. injection Ht as <-. reflexivity.
Defined.

(** ** The headers of a file answer *)

Lemma endswith_iff (s suffix : string) :
  endswith s suffix = true ↔ ∃ stem, s = stem +:+ suffix.
Proof.
  induction s as [|c s IH]; cbn [endswith].
  - rewrite orb_false_r. split.
    + intros H. apply String.eqb_eq in H as <-. now exists "".
    + intros [[|a stem] H]; [|discriminate].
      change ("" = suffix) in H. subst. reflexivity.
  - rewrite orb_true_iff, IH. split.
    + intros [H|[stem ->]]; [apply String.eqb_eq in H as <-; now exists ""|].
      now exists (String c stem).
    + intros [[|a stem] H].
      * left. change (String c s = suffix) in H. subst. apply String.eqb_refl.
      * right. exists stem. change (String c s = String a (stem +:+ suffix)) in H.
        now injection H.
Qed.

(** Two suffixes of one string: one is a suffix of the other. *)
Lemma endswith_comparable (s a b : string) :
  endswith s a = true → endswith s b = true →
  endswith a b = true ∨ endswith b a = true.
Proof.
  induction s as [|c s IH]; cbn [endswith]; rewrite ?orb_false_r, ?orb_true_iff.
  - intros Ha Hb. apply String.eqb_eq in Ha as <-, Hb as <-. now left.
  - intros [Ha|Ha] [Hb|Hb].
    + apply String.eqb_eq in Ha as <-, Hb as <-. left. cbn [endswith]. now rewrite String.eqb_refl.
    + apply String.eqb_eq in Ha as <-. left. cbn [endswith]. rewrite Hb. apply orb_true_r.
    + apply String.eqb_eq in Hb as <-. right. cbn [endswith]. rewrite Ha. apply orb_true_r.
    + now apply IH.
Qed.

Lemma mimetype_of_cases (f : string) :
  (App.mimetype_of f = "audio/mpeg" ↔ endswith f ".mp3" = true) ∧
  (App.mimetype_of f = "video/mp4" ↔ endswith f ".mp4" = true) ∧
  (App.mimetype_of f = "video/webm" ↔ endswith f ".webm" = true) ∧
  (App.mimetype_of f = "application/octet-stream" ↔
     endswith f ".mp3" = false ∧ endswith f ".mp4" = false ∧ endswith f ".webm" = false).
Proof.
  assert (∀ a b, endswith f a = true → endswith f b = true →
                 endswith a b = false → endswith b a = false → False) as Hclash.
  { intros a b Ha Hb Hab Hba.
    destruct (endswith_comparable f a b Ha Hb); congruence. }
  unfold App.mimetype_of.
  destruct (endswith f ".mp3") eqn:E3, (endswith f ".mp4") eqn:E4,
    (endswith f ".webm") eqn:Ew;
    try (exfalso; apply (Hclash ".mp3" ".mp4"); [assumption..|reflexivity|reflexivity]);
    try (exfalso; apply (Hclash ".mp3" ".webm"); [assumption..|reflexivity|reflexivity]);
    try (exfalso; apply (Hclash ".mp4" ".webm"); [assumption..|reflexivity|reflexivity]);
    (repeat split; try discriminate; try reflexivity; intros (? & ? & ?); discriminate).
Qed.

(** X20.  A file answer of app.py is an attachment named like the file
    in the request's own download directory, and its MIME type follows
    the suffix of that name, compared exactly: ['audio/mpeg'] for
    [.mp3], ['video/mp4'] for [.mp4], ['video/webm'] for [.webm],
    ['application/octet-stream'] for anything else.  backend/app.py
    always answers with ['application/octet-stream']. *)
Theorem file_answer_headers (env : App.environ) (ydl : collaborator) (data : request)
    (w w' : world) (dir f download_name mimetype : string) :
  (App.download_video env ydl data w =
     (inr (Response (SendFile dir f download_name mimetype) 200), w') →
   download_name = f ∧ startswith dir "yt_download_" = true ∧
   (mimetype = "audio/mpeg" ↔ ∃ stem, f = stem +:+ ".mp3") ∧
   (mimetype = "video/mp4" ↔ ∃ stem, f = stem +:+ ".mp4") ∧
   (mimetype = "video/webm" ↔ ∃ stem, f = stem +:+ ".webm") ∧
   (mimetype = "application/octet-stream" ↔
      ∀ stem, f ≠ stem +:+ ".mp3" ∧ f ≠ stem +:+ ".mp4" ∧ f ≠ stem +:+ ".webm")) ∧
  (Backend.download_video ydl data w =
     (inr (Response (SendFile dir f download_name mimetype) 200), w') →
   download_name = f ∧ startswith dir "yt_download_" = true ∧
   mimetype = "application/octet-stream").
Proof.
  split; intros Hrun.
  - destruct (App_download_video_cases env ydl data w)
      as [(msg & E & _)|[[_ E]|(d & url & dir' & rest & -> & Hurl & Hhost & Hfree)]];
      [rewrite E in Hrun; discriminate|rewrite E in Hrun; discriminate|].
    rewrite (App_download_video_alloc env ydl d url dir' rest w Hurl Hhost Hfree) in Hrun.
    destruct (result _) as [x|i]; [destruct (is_DownloadError x); discriminate|].
    destruct (filter _ _) as [|f0 files]; [discriminate|].
    destruct (py_sort _ _ _ _) as [|[fn n] sorted];
      [destruct (is_DownloadError _); discriminate|].
    destruct (_ <? _)%Z; [discriminate|].
    injection Hrun as <- <- <- <- _.
    split; [reflexivity|]. split; [now apply first_free_fresh in Hfree|].
    destruct (mimetype_of_cases fn) as (H3 & H4 & Hw & Ho).
    split; [rewrite H3; apply endswith_iff|].
    split; [rewrite H4; apply endswith_iff|].
    split; [rewrite Hw; apply endswith_iff|].
    rewrite Ho. split.
    + intros (N3 & N4 & Nw) s0. repeat split; intros ->.
      * rewrite (proj2 (endswith_iff _ _)) in N3 by eauto. discriminate.
      * rewrite (proj2 (endswith_iff _ _)) in N4 by eauto. discriminate.
      * rewrite (proj2 (endswith_iff _ _)) in Nw by eauto. discriminate.
    + intros H. repeat split; apply not_true_is_false; intros E;
        apply endswith_iff in E as [s0 E]; now destruct (H s0) as (? & ? & ?).
  - destruct (Backend_download_video_cases ydl data w)
      as [(msg & code & E & _)|[[_ E]|(d & url & dir' & rest & -> & Hurl & Hne & Hfree)]].
    + rewrite E in Hrun. discriminate.
    + rewrite E in Hrun. discriminate.
    + rewrite (Backend_download_video_alloc ydl d url dir' rest w Hurl Hne Hfree) in Hrun.
      destruct (result _) as [x|i]; [discriminate|].
      destruct (filter _ _) as [|f0 files]; [discriminate|].
      destruct (_ <? _)%Z; [discriminate|].
      injection Hrun as <- <- <- <- _.
      split; [reflexivity|]. split; [now apply first_free_fresh in Hfree|reflexivity].
Qed.

Lemma file_answer_headers_witness :
  ∃ mimetype,
    (App.download_video App.default_environ Sample.two_files
       (Sample.post "https://youtu.be/dQw4") Sample.idle).1 =
    inr (Response (SendFile "yt_download_k3x9" "clip.mp4" "clip.mp4" mimetype) 200) ∧
    mimetype = "video/mp4".
Proof.
  destruct (file_answer_headers App.default_environ Sample.two_files
              (Sample.post "https://youtu.be/dQw4") Sample.idle
              (App.download_video App.default_environ Sample.two_files
                 (Sample.post "https://youtu.be/dQw4") Sample.idle).2
              "yt_download_k3x9" "clip.mp4" "clip.mp4" "video/mp4") as [H _].
  destruct H as (_ & _ & _ & H4 & _); [vm_compute; reflexivity|].
  exists "video/mp4". split; [vm_compute; reflexivity|].
  apply H4. now exists "clip".
Defined.

(** ** What [/health] sees of a download *)

Lemma glob_write_children (prefix : string) (now : Z) (name : string)
    (files : list (string * child)) (fs : tmpfs) :
  glob prefix (write_children now name files fs) = glob prefix fs.
Proof.
  unfold glob. f_equal. induction fs as [|[n e] fs IH]; [reflexivity|].
  rewrite write_children_cons. cbn [map fst]. rewrite IH. f_equal.
  destruct (String.eqb n name); [now destruct e|reflexivity].
Qed.

Lemma glob_snoc (prefix name : string) (e : entry) (fs : tmpfs) :
  startswith name prefix = true →
  glob prefix (fs ++ [(name, e)]) = glob prefix fs ++ [name].
Proof.
  intros H. unfold glob. rewrite map_app, filter_app. f_equal.
  cbn [map fst]. rewrite filter_cons, filter_nil.
  destruct (decide _) as [|N]; [reflexivity|]. rewrite H in N. now destruct N.
Qed.

Lemma remove_fresh (now : Z) (name : string) (files : list (string * child))
    (e : entry) (fs : tmpfs) :
  lookup_entry name fs = None →
  remove_entry name (write_children now name files (fs ++ [(name, e)])) = fs.
Proof.
  induction fs as [|[n e0] fs IH]; cbn [lookup_entry app]; intros Hnone.
  - rewrite write_children_cons, String.eqb_refl.
    destruct e; rewrite remove_entry_cons, String.eqb_refl; reflexivity.
  - destruct (String.eqb n name) eqn:E; [discriminate|].
    rewrite write_children_cons, E, remove_entry_cons, E. now rewrite IH.
Qed.

Lemma App_health_run (start_time : Z) (w : world) :
  App.health start_time w =
  (inr (jsonify (Object
     [ ("status", JStr "healthy");
       ("timestamp", JInt (now w));
       ("uptime", JInt (now w - start_time));
       ("temp_files", JInt (temp_files w)) ])), w).
Proof. destruct w. reflexivity. Qed.

(** X21.  [/health] of app.py is read-only and reports as
    [temp_files] the number of entries of the temp directory whose name
    starts with [yt_download_].  Seen through it, a download request
    answered 200 or 413 has added exactly one entry, one answered 400
    has added none, and no request adds more than one or removes
    any. *)
Theorem app_health_counts_download (env : App.environ) (ydl : collaborator)
    (data : request) (start_time : Z) (w : world) :
  ∃ resp w' h,
    App.download_video env ydl data w = (inr resp, w') ∧
    App.health start_time w' = (inr (Response h 200), w') ∧
    member "temp_files" h = Some (JInt (temp_files w')) ∧
    member "uptime" h = Some (JInt (now w - start_time)) ∧
    (status resp = 200 ∨ status resp = 413 → temp_files w' = temp_files w + 1)%Z ∧
    (status resp = 400 → temp_files w' = temp_files w)%Z ∧
    (temp_files w ≤ temp_files w' ≤ temp_files w + 1)%Z.
Proof.
  assert (∀ resp w',
            now w' = now w →
            (temp_files w' = temp_files w ∧ (status resp = 400 ∨ status resp = 500)%Z) ∨
            (temp_files w' = temp_files w + 1 ∧ status resp ≠ 400)%Z →
            ∃ h,
              App.health start_time w' = (inr (Response h 200), w') ∧
              member "temp_files" h = Some (JInt (temp_files w')) ∧
              member "uptime" h = Some (JInt (now w - start_time)) ∧
              (status resp = 200 ∨ status resp = 413 →
                 temp_files w' = temp_files w + 1)%Z ∧
              (status resp = 400 → temp_files w' = temp_files w)%Z ∧
              (temp_files w ≤ temp_files w' ≤ temp_files w + 1)%Z) as Hfin.
  { intros resp w' Hnow Hcount. eexists. split; [apply App_health_run|].
    split; [reflexivity|]. split; [cbn; now rewrite Hnow|]. lia. }
  destruct (App_download_video_cases env ydl data w)
    as [(msg & E & _)|[[_ E]|(d & url & dir & rest & -> & Hurl & Hhost & Hfree)]].
  - do 2 eexists. edestruct Hfin as [h Hh]; [| |exists h; split; [exact E|exact Hh]];
      [reflexivity|left; cbn; auto].
  - do 2 eexists. edestruct Hfin as [h Hh]; [| |exists h; split; [exact E|exact Hh]];
      [reflexivity|left; cbn; auto].
  - rewrite (App_download_video_alloc env ydl d url dir rest w Hurl Hhost Hfree).
    set (o := ydl _ url true).
    pose proof (first_free_fresh _ _ _ _ _ Hfree) as [Hnone Hpre].
    assert (temp_files
              {| now := now w;
                 tmp := write_children (now w) dir (written o)
                          (tmp w ++ [(dir, Dir (now w) [])]);
                 names := rest; threads := threads w;
                 calls := calls w ++ [(App.download_opts dir
                                         (default "video" (d !! "type"))
                                         (default "best" (d !! "quality")), url, true)] |} =
            temp_files w + 1)%Z as Hkept.
    { unfold temp_files. cbn [tmp].
      rewrite glob_write_children, (glob_snoc _ _ _ _ Hpre), length_app. cbn. lia. }
    assert (∀ ts cs,
              temp_files
                {| now := now w;
                   tmp := remove_entry dir
                            (write_children (now w) dir (written o)
                               (tmp w ++ [(dir, Dir (now w) [])]));
                   names := rest; threads := ts; calls := cs |} = temp_files w) as Hgone.
    { intros ts cs. unfold temp_files. cbn [tmp]. now rewrite (remove_fresh _ _ _ _ _ Hnone). }
    assert (∀ e : exn,
              (status (if is_DownloadError e
                       then jsonify_with (Error ("Download failed: " +:+ str e)) 400
                       else jsonify_with (Error ("Server error: " +:+ str e)) 500) = 400 ∨
               status (if is_DownloadError e
                       then jsonify_with (Error ("Download failed: " +:+ str e)) 400
                       else jsonify_with (Error ("Server error: " +:+ str e)) 500) = 500)%Z)
      as Hstatus.
    { intros e. destruct (is_DownloadError e); cbn; auto. }
    destruct (result o) as [e|i].
    { do 2 eexists. edestruct Hfin as [h Hh]; [| |exists h; split; [reflexivity|exact Hh]];
        [reflexivity|left; split; [apply Hgone|apply Hstatus]]. }
    destruct (filter _ _) as [|f0 files].
    { do 2 eexists. edestruct Hfin as [h Hh]; [| |exists h; split; [reflexivity|exact Hh]];
        [reflexivity|right; split; [exact Hkept|discriminate]]. }
    destruct (py_sort _ _ _ _) as [|[fn n] sorted].
    { do 2 eexists. edestruct Hfin as [h Hh]; [| |exists h; split; [reflexivity|exact Hh]];
        [reflexivity|left; split; [apply Hgone|now right]]. }
    destruct (_ <? _)%Z.
    + do 2 eexists. edestruct Hfin as [h Hh]; [| |exists h; split; [reflexivity|exact Hh]];
        [reflexivity|right; split; [exact Hkept|discriminate]].
    + do 2 eexists. edestruct Hfin as [h Hh]; [| |exists h; split; [reflexivity|exact Hh]];
        [reflexivity|right; split; [exact Hkept|discriminate]].
Qed.

(** ** The file backend/app.py sends *)

Lemma lookup_child_app (f : string) (a b : list (string * child)) :
  lookup_child f (a ++ b) =
  match lookup_child f a with
  | Some c => Some c
  | None => lookup_child f b
  end.
Proof.
  induction a as [|[n c] a IH]; [reflexivity|].
  cbn. now destruct (String.eqb n f).
Qed.

Lemma lookup_child_all_dirs (pre : list (string * child)) (g : string) :
  (∀ n c, (n, c) ∈ pre → c = CDir) →
  g ∈ map fst pre → lookup_child g pre = Some CDir.
Proof.
  induction pre as [|[n c] pre IH]; intros Hall Hg; [now apply elem_of_nil in Hg|].
  cbn. destruct (String.eqb_spec n g) as [->|Hne].
  - f_equal. apply (Hall g). apply list_elem_of_here.
  - apply IH.
    + intros n' c' H. apply (Hall n'). now apply list_elem_of_further.
    + cbn in Hg. apply elem_of_cons in Hg as [->|Hg]; [contradiction|exact Hg].
Qed.

Lemma lookup_child_absent (pre : list (string * child)) (f : string) :
  f ∉ map fst pre → lookup_child f pre = None.
Proof.
  induction pre as [|[n c] pre IH]; intros Hf; [reflexivity|].
  cbn. cbn in Hf. apply not_elem_of_cons in Hf as [Hne Hf].
  destruct (String.eqb_spec n f) as [->|_]; [contradiction|now apply IH].
Qed.

(** X22.  backend/app.py looks only at the first regular file of the
    directory listing: when everything listed before [f] is not a
    regular file, [f] is the file that is sent if it has at most
    100 MB, and the request is answered 413 if it has more, whatever
    else the directory holds after it. *)
Theorem backend_download_first_listed (ydl : collaborator) (d : gmap string string)
    (url dir : string) (rest : list string) (i : info) (w : world)
    (f : string) (n : Z) (pre post : list (string * child)) :
  d !! "url" = Some url →
  url ≠ "" →
  first_free "yt_download_" (names w) (tmp w) = Some (dir, rest) →
  let o := ydl (Backend.download_opts dir (default "video" (d !! "type"))
                  (default "best" (d !! "quality"))) url true in
  result o = inr i →
  written o = pre ++ (f, CFile n) :: post →
  (∀ g c, (g, c) ∈ pre → c = CDir) →
  f ∉ map fst pre →
  (Backend.download_video ydl (Some d) w).1 =
  inr (if (100 * 1024 * 1024 <? n)%Z
       then Response (Error "File too large for web download") 413
       else Response (SendFile dir f f "application/octet-stream") 200).
Proof.
  intros Hurl Hne Hfree o Hres Hwritten Hdirs Hf.
  rewrite (Backend_download_video_alloc ydl d url dir rest w Hurl Hne Hfree).
  fold o. rewrite Hres. cbn [fst tmp].
  assert (lookup_child f (written o) = Some (CFile n)) as Hlf.
  { rewrite Hwritten, lookup_child_app, (lookup_child_absent pre f Hf).
    cbn. now rewrite String.eqb_refl. }
  assert (∀ g, isfile dir g
                 (write_children (now w) dir (written o)
                    (tmp w ++ [(dir, Dir (now w) [])])) =
               match lookup_child g (written o) with
               | Some (CFile _) => true
               | _ => false
               end) as Hisf.
  { intros g. now apply isfile_fresh with rest. }
  set (fs2 := write_children _ _ _ _) in *.
  assert (filter (λ g, isfile dir g fs2) (map fst (written o)) =
          f :: filter (λ g, isfile dir g fs2) (map fst post)) as ->.
  { rewrite Hwritten, map_app, filter_app. cbn [map fst].
    rewrite filter_cons, filter_isfile_nil.
    2:{ intros g Hg. rewrite Hisf, Hwritten, lookup_child_app.
        now rewrite (lookup_child_all_dirs pre g Hdirs Hg). }
    rewrite Hisf, Hlf. cbn.
    case_decide; [reflexivity|contradiction]. }
  unfold size_of. rewrite Hlf. now destruct (_ <? _)%Z.
Qed.

Lemma backend_download_first_listed_witness :
  (Backend.download_video Sample.two_files (Sample.post "https://youtu.be/dQw4")
     Sample.idle).1 =
  inr (Response (SendFile "yt_download_k3x9" "clip.jpg" "clip.jpg"
                   "application/octet-stream") 200).
Proof.
  pose proof (backend_download_first_listed Sample.two_files
                {[ "url" := "https://youtu.be/dQw4" ]} "https://youtu.be/dQw4"
                "yt_download_k3x9" [] Sample.no_info Sample.idle
                "clip.jpg" 7%Z [] [("clip.mp4", CFile 1000)]) as H.
  cbn zeta in H. unfold Sample.post. rewrite H;
    [ reflexivity | vm_compute; reflexivity | discriminate | vm_compute; reflexivity
    | reflexivity | reflexivity
    | intros g c Hg; now apply elem_of_nil in Hg
    | apply not_elem_of_nil ].
Defined.

(** ** A pass of the sweeper of backend/app.py *)

Lemma Backend_sweep_run (w : world) :
  Backend.sweep w =
  ((Backend.sweep_paths (now w) (glob "yt_download_" (tmp w)) (tmp w)).1,
   set_tmp (Backend.sweep_paths (now w) (glob "yt_download_" (tmp w)) (tmp w)).2 w).
Proof.
  unfold Backend.sweep. rewrite bind_run. unfold time, reads at 1. unfold on_fs.
  rewrite bind_run. unfold reads at 1.
  now destruct (Backend.sweep_paths _ _ _) as [r fs'].
Qed.

Lemma Backend_sweep_paths_stops (t : Z) (pre post : list string) (d : string)
    (m : Z) (ch : list (string * child)) (fs : tmpfs) :
  lookup_entry d fs = Some (Dir m ch) →
  (3600 < t - m)%Z →
  (∃ e, (Backend.sweep_paths t (pre ++ d :: post) fs).1 = inl e) ∧
  ∀ name, name ∉ pre →
    lookup_entry name (Backend.sweep_paths t (pre ++ d :: post) fs).2 =
    lookup_entry name fs.
Proof.
  intros Hd Hold. revert fs Hd. induction pre as [|p pre IH]; intros fs Hd.
  - cbn [app]. rewrite Backend_sweep_paths_cons, Hd.
    destruct (Z.ltb_spec 3600 (t - m)); [|lia]. split; [now eexists|reflexivity].
  - cbn [app]. rewrite Backend_sweep_paths_cons.
    destruct (lookup_entry p fs) as [[m' s|m' ch']|] eqn:E.
    + assert (p ≠ d) as Hpd by (intros ->; congruence).
      destruct (IH (if (3600 <? t - m')%Z then remove_entry p fs else fs)) as [He Hk].
      { destruct (3600 <? t - m')%Z; [|exact Hd]. now rewrite lookup_remove_ne. }
      split; [exact He|]. intros name Hn.
      apply not_elem_of_cons in Hn as [Hne Hn]. rewrite (Hk name Hn).
      destruct (3600 <? t - m')%Z; [|reflexivity]. now rewrite lookup_remove_ne.
    + destruct (3600 <? t - m')%Z; [split; [now eexists|reflexivity]|].
      destruct (IH fs Hd) as [He Hk]. split; [exact He|].
      intros name Hn. apply not_elem_of_cons in Hn as [_ Hn]. now apply Hk.
    + split; [now eexists|reflexivity].
Qed.

(** X23.  A pass of the sweeper of backend/app.py ends at the first
    download directory older than an hour: [unlink] raises on it, the
    pass is abandoned, and every entry the listing had not reached yet
    is left as it was, regular files older than an hour included. *)
Theorem backend_sweep_stops_at_expired_directory (w : world) (pre post : list string)
    (d : string) (m : Z) (ch : list (string * child)) :
  glob "yt_download_" (tmp w) = pre ++ d :: post →
  lookup_entry d (tmp w) = Some (Dir m ch) →
  (3600 < now w - m)%Z →
  (∃ e, (Backend.sweep w).1 = inl e) ∧
  (∀ name, name ∉ pre →
     lookup_entry name (tmp (Backend.sweep w).2) = lookup_entry name (tmp w)) ∧
  ∃ w', Backend.cleanup_old_files 1 w = (inr tt, w') ∧
        ∀ name, name ∉ pre → lookup_entry name (tmp w') = lookup_entry name (tmp w).
Proof.
  intros Hglob Hd Hold.
  destruct (Backend_sweep_paths_stops (now w) pre post d m ch (tmp w) Hd Hold) as [He Hk].
  rewrite Backend_sweep_run, Hglob. cbn [fst snd tmp set_tmp].
  split; [exact He|]. split; [exact Hk|].
  rewrite Backend_cleanup_old_files_S.
  change (Backend.cleanup_old_files 0 ?x) with (@inr exn unit tt, x).
  eexists. split; [reflexivity|].
  rewrite Backend_sweep_run, Hglob. cbn [fst snd tmp set_tmp set_now]. exact Hk.
Qed.

Lemma backend_sweep_stops_at_expired_directory_witness :
  lookup_entry "yt_download_stale.part"
    (tmp (Backend.sweep
            {| now := 10000;
               tmp := [ ("yt_download_old", Dir 0 []);
                        ("yt_download_stale.part", File 0 12) ];
               names := []; threads := []; calls := [] |}).2) =
  Some (File 0 12).
Proof.
  destruct (backend_sweep_stops_at_expired_directory
              {| now := 10000;
                 tmp := [ ("yt_download_old", Dir 0 []);
                          ("yt_download_stale.part", File 0 12) ];
                 names := []; threads := []; calls := [] |}
              [] ["yt_download_stale.part"] "yt_download_old" 0 [])
    as (_ & Hk & _);
    [vm_compute; reflexivity|reflexivity|reflexivity|].
  rewrite Hk; [reflexivity|apply not_elem_of_nil].
Defined.

Lemma Backend_sweep_paths_files (t : Z) (matches : list string) (fs : tmpfs) :
  NoDup matches →
  (∀ p, p ∈ matches →
     ∃ e, lookup_entry p fs = Some e ∧ ∀ m ch, e = Dir m ch → (t - m ≤ 3600)%Z) →
  ∃ fs',
    Backend.sweep_paths t matches fs = (inr tt, fs') ∧
    ∀ name m s, name ∈ matches → lookup_entry name fs = Some (File m s) →
      (3600 < t - m)%Z → lookup_entry name fs' = None.
Proof.
  revert fs. induction matches as [|p rest IH]; intros fs Hnd Hall.
  { eexists. split; [reflexivity|]. intros name m s Hin. now apply elem_of_nil in Hin. }
  apply NoDup_cons in Hnd as [Hp Hnd].
  rewrite Backend_sweep_paths_cons.
  destruct (Hall p (list_elem_of_here _ _)) as (e & Ep & Hyoung). rewrite Ep.
  destruct e as [m' s'|m' ch'].
  - set (fs1 := if (3600 <? t - m')%Z then remove_entry p fs else fs).
    assert (∀ q, q ≠ p → lookup_entry q fs1 = lookup_entry q fs) as Hfs1.
    { intros q Hq. unfold fs1. destruct (3600 <? t - m')%Z; [|reflexivity].
      now rewrite lookup_remove_ne. }
    destruct (IH fs1 Hnd) as (fs' & Hrun & Hdel).
    { intros q Hq. rewrite Hfs1 by (intros ->; contradiction).
      apply Hall. now apply list_elem_of_further. }
    exists fs'. split; [exact Hrun|].
    intros name m s Hin Hl Hold. apply elem_of_cons in Hin as [->|Hin].
    + pose proof (Backend_sweep_paths_other t rest fs1 p Hp) as Ho.
      rewrite Hrun in Ho. cbn [snd] in Ho. rewrite Ho. unfold fs1.
      rewrite Ep in Hl. injection Hl as -> ->.
      destruct (Z.ltb_spec 3600 (t - m)); [apply lookup_remove_eq|lia].
    + apply (Hdel name m s Hin); [|exact Hold].
      rewrite Hfs1; [exact Hl|]. intros ->. contradiction.
  - destruct (Z.ltb_spec 3600 (t - m')) as [Hlt|_].
    { specialize (Hyoung m' ch' eq_refl). lia. }
    destruct (IH fs Hnd) as (fs' & Hrun & Hdel).
    { intros q Hq. apply Hall. now apply list_elem_of_further. }
    exists fs'. split; [exact Hrun|].
    intros name m s Hin Hl Hold. apply elem_of_cons in Hin as [->|Hin]; [congruence|].
    now apply (Hdel name m s).
Qed.

(** X24.  When no download directory of the temp directory is older
    than an hour, a pass of the sweeper of backend/app.py completes and
    has removed every regular file named [yt_download_*] that is older
    than an hour. *)
Theorem backend_sweep_removes_expired_files (w : world) :
  NoDup (map fst (tmp w)) →
  (∀ d m ch, startswith d "yt_download_" = true →
     lookup_entry d (tmp w) = Some (Dir m ch) → (now w - m ≤ 3600)%Z) →
  ∃ w',
    Backend.sweep w = (inr tt, w') ∧
    ∀ name m s, startswith name "yt_download_" = true →
      lookup_entry name (tmp w) = Some (File m s) → (3600 < now w - m)%Z →
      lookup_entry name (tmp w') = None.
Proof.
  intros Hnd Hyoung.
  destruct (Backend_sweep_paths_files (now w) (glob "yt_download_" (tmp w)) (tmp w))
    as (fs' & Hrun & Hdel).
  { unfold glob. now apply NoDup_filter. }
  { intros p Hp. apply elem_of_glob in Hp as [Hpre Hex].
    destruct (lookup_entry p (tmp w)) as [e|] eqn:E; [|now destruct Hex].
    exists e. split; [reflexivity|]. intros m ch ->. now apply (Hyoung p m ch). }
  rewrite Backend_sweep_run, Hrun. cbn [fst snd]. eexists. split; [reflexivity|].
  intros name m s Hpre Hl Hold. cbn [tmp set_tmp].
  apply (Hdel name m s); [|exact Hl|exact Hold].
  apply elem_of_glob. split; [exact Hpre|]. now rewrite Hl.
Qed.

Lemma backend_sweep_removes_expired_files_witness :
  lookup_entry "yt_download_stale.part"
    (tmp (Backend.sweep
            {| now := 10000;
               tmp := [ ("yt_download_new", Dir 9000 []);
                        ("yt_download_stale.part", File 0 12) ];
               names := []; threads := []; calls := [] |}).2) = None.
Proof.
  destruct (backend_sweep_removes_expired_files
              {| now := 10000;
                 tmp := [ ("yt_download_new", Dir 9000 []);
                          ("yt_download_stale.part", File 0 12) ];
                 names := []; threads := []; calls := [] |})
    as (w' & Hrun & Hdel).
  - apply (bool_decide_unpack _). vm_compute. exact I.
  - intros d m ch _. cbn [tmp lookup_entry now].
    destruct (String.eqb _ d); [intros [= <- _]; lia|].
    destruct (String.eqb _ d); [discriminate|discriminate].
  - rewrite Hrun. apply (Hdel _ 0%Z 12%Z); [reflexivity|reflexivity|reflexivity].
Defined.
